(** * nocodb2baserow: the relationship-remapping migration engine

    A shallow embedding of [putData.py] (the migration orchestrator
    [CamillaMigrationManager]), of [components/data_transformer.py]
    ([DataTransformer]) and of [clean_data_for_baserow] from
    [components/putData_enhanced.py], with the properties of the
    specification stated over it.

    Conventions of the embedding.
    - A Python [str] is a [string]; a character is a code point below 256
      and the character classes of Python ([str.lower], [str.strip],
      [str.isdigit], the regex class [\d]) are the Unicode ones restricted
      to that range.
    - A decoded JSON document is a [value].  A Python [float] is kept
      abstract: it is carried by the three observations the program makes of
      it (its [repr], its truth value and the integer it is equal to, if
      any).
    - A method of the manager is a computation in the monad [M]: it reads
      and writes the attributes of [self], may raise, and its calls to the
      HTTP client and its [print]s are recorded in the state.  The state
      written before an exception is raised is kept, as in Python. *)

From Stdlib Require Import ZArith Decimal DecimalString DecimalZ DecimalPos DecimalN Ascii.
From stdpp Require Import base option list strings gmap fin_maps countable.

Local Open Scope Z_scope.
Local Set Warnings "-register-all".

(* ===================================================================== *)
(** * Python strings *)
(* ===================================================================== *)

Module Py.

(** ** Characters *)

Definition code (c : ascii) : N := N_of_ascii c.

Definition between (lo hi : N) (c : ascii) : bool :=
((lo <=? code c) && (code c <=? hi))%N.

(** [\d] of [re], and the digits [int()] accepts: Unicode category Nd. *)
Definition is_decimal (c : ascii) : bool := between 48 57 c.

(** [str.isdigit] on one character: category Nd and the superscripts
  U+00B2, U+00B3, U+00B9. *)
Definition is_digit_char (c : ascii) : bool :=
is_decimal c || (code c =? 178)%N || (code c =? 179)%N || (code c =? 185)%N.

(** [str.isspace] on one character. *)
Definition is_space (c : ascii) : bool :=
between 9 13 c || between 28 32 c || (code c =? 133)%N || (code c =? 160)%N.

(** [str.lower] on one character. *)
Definition lower_char (c : ascii) : ascii :=
if between 65 90 c || (between 192 222 c && negb (code c =? 215)%N)
then ascii_of_N (code c + 32) else c.

(** [str.isprintable] on one character (used by [repr]). *)
Definition is_printable (c : ascii) : bool :=
between 32 126 c || (between 161 255 c && negb (code c =? 173)%N).

(** ** Strings *)

Fixpoint lower (s : string) : string :=
match s with
| EmptyString => EmptyString
| String c s' => String (lower_char c) (lower s')
end.

Fixpoint all_chars (p : ascii -> bool) (s : string) : bool :=
match s with
| EmptyString => true
| String c s' => p c && all_chars p s'
end.

(** [s.isdigit()] *)
Definition isdigit (s : string) : bool :=
match s with
| EmptyString => false
| _ => all_chars is_digit_char s
end.

(** [s.startswith(p)] *)
Definition startswith (s p : string) : bool := String.prefix p s.

(** [sub in s] *)
Fixpoint contains (sub s : string) : bool :=
String.prefix sub s ||
match s with
| EmptyString => false
| String _ s' => contains sub s'
end.

(** [s.count(c)] for a one-character [c] *)
Fixpoint count_char (c : ascii) (s : string) : nat :=
match s with
| EmptyString => O
| String d s' => (if Ascii.eqb c d then 1 else 0)%nat + count_char c s'
end.

(** [s.split(c)[0]] for a one-character separator [c] *)
Fixpoint split_head (c : ascii) (s : string) : string :=
match s with
| EmptyString => EmptyString
| String d s' => if Ascii.eqb c d then EmptyString else String d (split_head c s')
end.

Fixpoint lstrip (s : string) : string :=
match s with
| EmptyString => EmptyString
| String c s' => if is_space c then lstrip s' else s
end.

Fixpoint rstrip (s : string) : string :=
match s with
| EmptyString => EmptyString
| String c s' =>
    match rstrip s' with
    | EmptyString => if is_space c then EmptyString else String c EmptyString
    | r => String c r
    end
end.

(** [s.strip()] *)
Definition strip (s : string) : string := rstrip (lstrip s).

(** [s.replace(old, new)] for a non-empty [old]: the occurrences are found
  from the left and do not overlap.  [skip] counts the characters of an
  occurrence still to be passed over. *)
Fixpoint replace_from (old new s : string) (skip : nat) : string :=
match s with
| EmptyString => EmptyString
| String c s' =>
    match skip with
    | S k => replace_from old new s' k
    | O =>
        if String.prefix old s
        then new +:+ replace_from old new s' (String.length old - 1)
        else String c (replace_from old new s' O)
    end
end.

Definition replace (old new s : string) : string := replace_from old new s O.

(** [s[:n]] *)
Fixpoint take_chars (n : nat) (s : string) : string :=
match n, s with
| S k, String c s' => String c (take_chars k s')
| _, _ => EmptyString
end.

(** [str(n)] for an [int] *)
Definition str_of_int (n : Z) : string := NilEmpty.string_of_int (Z.to_int n).

(** [s.lstrip(chars)] and [s.rstrip(chars)]: the characters of [chars] are
    taken off the start, and off the end. *)
Fixpoint lstrip_chars (chars s : string) : string :=
match s with
| EmptyString => EmptyString
| String c s' => if Py.contains (String c EmptyString) chars then lstrip_chars chars s' else s
end.

Fixpoint rstrip_chars (chars s : string) : string :=
match s with
| EmptyString => EmptyString
| String c s' =>
    match rstrip_chars chars s' with
    | EmptyString =>
        if Py.contains (String c EmptyString) chars then EmptyString
        else String c EmptyString
    | r => String c r
    end
end.

(** ** Exceptions *)

Inductive exn : Type :=
| TypeError | KeyError | ValueError | AttributeError | OverflowError
| HTTPError.

Inductive outcome (A : Type) : Type :=
| Ok (a : A)
| Raise (e : exn).
Arguments Ok {A} a.
Arguments Raise {A} e.

(** ** [int(s)] for a string

  Surrounding whitespace is dropped, one sign is allowed, and the digits
  may be grouped by single underscores. *)
Fixpoint ungroup (s : string) (after_digit : bool) : option string :=
match s with
| EmptyString => if after_digit then Some EmptyString else None
| String c s' =>
    if Ascii.eqb c "_" then
      if after_digit then ungroup s' false else None
    else if is_decimal c then String c <$> ungroup s' true
    else None
end.

Definition nat_literal (s : string) : option Z :=
ds ← ungroup s false; Z.of_uint <$> NilEmpty.uint_of_string ds.

Definition int_of_str (s : string) : outcome Z :=
let r :=
  match strip s with
  | String "-" s' => Z.opp <$> nat_literal s'
  | String "+" s' => nat_literal s'
  | s' => nat_literal s'
  end in
match r with Some n => Ok n | None => Raise ValueError end.

End Py.

(* ===================================================================== *)
(** * Python values *)
(* ===================================================================== *)

Export Py (exn(..), outcome(..)).

(** A [float], through what the program observes of it: [str(f)], [bool(f)]
    and the integer [n] with [f == n], when there is one. *)
Record pyfloat : Type := PyFloat {
  frepr : string;
  fnonzero : bool;
  fint : option Z
}.

(** The objects [json.load] builds, and the values the program computes from
    them.  A [dict] keeps its items in insertion order. *)
Inductive value : Type :=
| VNone
| VBool (b : bool)
| VInt (n : Z)
| VFloat (f : pyfloat)
| VStr (s : string)
| VList (l : list value)
| VDict (d : list (string * value)).

(** An ordered [dict] with string keys: the items in insertion order. *)
Definition odict (V : Type) : Type := list (string * V).

Fixpoint assoc {V : Type} (k : string) (d : odict V) : option V :=
  match d with
  | [] => None
  | (k', v) :: d' => if String.eqb k k' then Some v else assoc k d'
  end.

(** [d[k] = v]: the value is replaced in place, or the item is appended. *)
Fixpoint od_set {V : Type} (k : string) (v : V) (d : odict V) : odict V :=
  match d with
  | [] => [(k, v)]
  | (k', v') :: d' =>
      if String.eqb k k' then (k', v) :: d' else (k', v') :: od_set k v d'
  end.

(** [bool(v)] *)
Definition truthy (v : value) : bool :=
  match v with
  | VNone => false
  | VBool b => b
  | VInt n => negb (n =? 0)
  | VFloat f => fnonzero f
  | VStr s => negb (String.eqb s "")
  | VList l => match l with [] => false | _ => true end
  | VDict d => match d with [] => false | _ => true end
  end.

Definition hex_digit (n : N) : ascii :=
  if (n <? 10)%N then ascii_of_N (48 + n) else ascii_of_N (87 + n).

(** One character inside [repr(s)], [q] being the quote chosen. *)
Definition repr_char (q c : ascii) : string :=
  if Ascii.eqb c q || Ascii.eqb c "\" then String "\" (String c "")
  else if Ascii.eqb c "009" then "\t"
  else if Ascii.eqb c "010" then "\n"
  else if Ascii.eqb c "013" then "\r"
  else if Py.is_printable c then String c ""
  else String "\" (String "x" (String (hex_digit (Py.code c / 16))
                               (String (hex_digit (Py.code c mod 16)) ""))).

Fixpoint repr_chars (q : ascii) (s : string) : string :=
  match s with
  | EmptyString => EmptyString
  | String c s' => repr_char q c +:+ repr_chars q s'
  end.

(** [repr(s)] for a string: double quotes are chosen when the string has a
    single quote and no double quote. *)
Definition repr_str (s : string) : string :=
  let q : ascii :=
    if Py.contains "'" s && negb (Py.contains (String "034" "") s) then "034"%char
    else "'"%char in
  String q (repr_chars q s +:+ String q "").

(** [repr(v)] *)
Fixpoint repr (v : value) : string :=
  match v with
  | VNone => "None"
  | VBool true => "True"
  | VBool false => "False"
  | VInt n => Py.str_of_int n
  | VFloat f => frepr f
  | VStr s => repr_str s
  | VList l =>
      "[" +:+
      (fix elems (l : list value) : string :=
         match l with
         | [] => ""
         | x :: l' =>
             repr x +:+ match l' with [] => "" | _ => ", " +:+ elems l' end
         end) l +:+ "]"
  | VDict d =>
      "{" +:+
      (fix items (d : list (string * value)) : string :=
         match d with
         | [] => ""
         | (k, x) :: d' =>
             repr_str k +:+ ": " +:+ repr x +:+
             match d' with [] => "" | _ => ", " +:+ items d' end
         end) d +:+ "}"
  end.

(** [str(v)] *)
Definition str (v : value) : string :=
  match v with
  | VStr s => s
  | _ => repr v
  end.

Definition is_bool (v : value) : bool :=
  match v with VBool _ => true | _ => false end.
Definition is_dict (v : value) : bool :=
  match v with VDict _ => true | _ => false end.
Definition is_list (v : value) : bool :=
  match v with VList _ => true | _ => false end.
(** [isinstance(v, (int, str))]: a [bool] is an [int]. *)
Definition is_int_or_str (v : value) : bool :=
  match v with VBool _ | VInt _ | VStr _ => true | _ => false end.

(** [k in v] for a dict [v] *)
Definition has_key (k : string) (v : value) : bool :=
  match v with
  | VDict d => bool_decide (is_Some (assoc k d))
  | _ => false
  end.

(** [v[k]] for a string [k] *)
Definition subscript (v : value) (k : string) : outcome value :=
  match v with
  | VDict d => match assoc k d with Some x => Ok x | None => Raise KeyError end
  | _ => Raise TypeError
  end.

(** [v.get(k)] *)
Definition get_method (v : value) (k : string) : outcome value :=
  match v with
  | VDict d => Ok (default VNone (assoc k d))
  | _ => Raise AttributeError
  end.

(** [v.get(k, d)] *)
Definition get_default (v : value) (k : string) (d : value) : outcome value :=
  match v with
  | VDict items => Ok (default d (assoc k items))
  | _ => Raise AttributeError
  end.

(** [v.items()] *)
Definition items_method (v : value) : outcome (list (string * value)) :=
  match v with
  | VDict d => Ok d
  | _ => Raise AttributeError
  end.

Fixpoint chars (s : string) : list value :=
  match s with
  | EmptyString => []
  | String c s' => VStr (String c "") :: chars s'
  end.

(** The elements a [for] loop or [enumerate] draws from [v]. *)
Definition iterate (v : value) : outcome (list value) :=
  match v with
  | VList l => Ok l
  | VDict d => Ok (VStr <$> d.*1)
  | VStr s => Ok (chars s)
  | _ => Raise TypeError
  end.

(** [len(v)] *)
Definition len (v : value) : outcome nat :=
  match iterate v with
  | Ok l => Ok (length l)
  | Raise e => Raise e
  end.

(** ** Dictionary keys

    What a value is as a key of a [dict]: equal keys are one key
    ([True == 1 == 1.0]), a [list] or a [dict] is unhashable. *)
Inductive key : Type :=
| KNone
| KInt (n : Z)
| KFloat (r : string)
| KStr (s : string).

Global Instance key_eq_dec : EqDecision key.
Proof. solve_decision. Defined.

Global Instance key_countable : Countable key.
Proof.
  refine (inj_countable'
    (fun k => match k with
              | KNone => inl (inl ())
              | KInt n => inl (inr n)
              | KFloat r => inr (inl r)
              | KStr s => inr (inr s)
              end)
    (fun x => match x with
              | inl (inl _) => KNone
              | inl (inr n) => KInt n
              | inr (inl r) => KFloat r
              | inr (inr s) => KStr s
              end) _).
  by intros [].
Defined.

Definition to_key (v : value) : option key :=
  match v with
  | VNone => Some KNone
  | VBool b => Some (KInt (if b then 1 else 0))
  | VInt n => Some (KInt n)
  | VFloat f => Some (match fint f with Some n => KInt n | None => KFloat (frepr f) end)
  | VStr s => Some (KStr s)
  | VList _ | VDict _ => None
  end.

(* ===================================================================== *)
(** * Schema model ([FieldInfo], [TableSchema]) *)
(* ===================================================================== *)

Module FieldInfo.
Record t : Type := Build {
  id : Z;
  name : string;
  type : string;
  primary : bool;
  required : bool;
  linked_table_id : option Z
}.
End FieldInfo.

Module TableSchema.
Record t : Type := Build {
  table_id : Z;
  table_name : string;
  fields : list FieldInfo.t
}.

(** Set by [__post_init__]: the first field flagged primary. *)
Definition primary_field (schema : t) : option FieldInfo.t :=
  List.find FieldInfo.primary (fields schema).

(** Find field by name (case-insensitive). *)
Definition get_field_by_name (schema : t) (name : string) : option FieldInfo.t :=
  List.find
    (fun field => String.eqb (Py.lower (FieldInfo.name field)) (Py.lower name))
    (fields schema).
End TableSchema.

(** [f"field_{n}"] *)
Definition field_ (n : Z) : string := "field_" +:+ Py.str_of_int n.

(** [TableSchema.field_name_to_id]: map field names to Baserow field IDs;
    of two fields with one name the later one stays. *)
Definition field_name_to_id (schema : TableSchema.t) : gmap string string :=
  fold_left
    (fun (d : gmap string string) field =>
       <[FieldInfo.name field := field_ (FieldInfo.id field)]> d)
    (TableSchema.fields schema) ∅.

(* ===================================================================== *)
(** * The state of a run, and the monad of the manager's methods *)
(* ===================================================================== *)

(** What is printed, one constructor for each [print] of the modelled
    functions, with the values interpolated in the message. *)
Inductive line : Type :=
| LFieldNotFound (baserow_field_name table_name : string)
| LSkipInvalidDate (date_str : string)
| LInvalidDate (value_str : string)
| LTransformErrors (errors : list (string * exn))
| LProcessing (table_name : string)
| LTableNotFound (table_name : string)
| LClearing
| LDeleted (deleted_count : value)
| LLoadError (json_file_path : string)
| LUnexpectedJSON (json_file_path : string)
| LFound (n : nat)
| LDryRun
| LNoFieldMapping (table_name : string)
| LRecordSuccess (i n : nat) (new_id : value)
| LRecordNoData (i n : nat)
| LRecordError (i n : nat) (e : exn)
| LSummary (table_name : string) (success errors total : nat).

(** The requests made to the destination through the client, each with
    what the client returned or raised. *)
Inductive call : Type :=
| CreateRow (table_id : Z) (data : gmap string value) (r : outcome value)
| UpdateRow (table_id : Z) (row_id : value) (data : gmap string (list value))
            (r : outcome value)
| ClearTable (table_id : Z) (r : outcome value).

(** [BaserowClient], an external collaborator: its methods are transitions
    of the destination, of an arbitrary type [W]. *)
Record BaserowClient (W : Type) : Type := {
  create_row : Z -> gmap string value -> W -> outcome value * W;
  update_row : Z -> value -> gmap string (list value) -> W -> outcome value * W;
  clear_table : Z -> W -> outcome value * W
}.
Arguments create_row {W} _ _ _ _.
Arguments update_row {W} _ _ _ _ _.
Arguments clear_table {W} _ _ _.

Record stats : Type := Stats { success : nat; errors : nat; total : nat }.

Record state (W : Type) : Type := State {
  (* attributes of [CamillaMigrationManager] *)
  id_mappings : gmap string (gmap key value);
  table_schemas : gmap string TableSchema.t;
  table_mappings : gmap string Z;
  migration_stats : gmap string stats;
  (* locals of [import_table_data] whose updates outlive an exception *)
  success_count : nat;
  error_count : nat;
  (* the surroundings: JSON files by path, the destination, what was
     requested of it and what was printed *)
  files : gmap string value;
  world : W;
  calls : list call;
  stdout : list line
}.
Arguments State {W} _ _ _ _ _ _ _ _ _ _.
Arguments id_mappings {W} _.
Arguments table_schemas {W} _.
Arguments table_mappings {W} _.
Arguments migration_stats {W} _.
Arguments success_count {W} _.
Arguments error_count {W} _.
Arguments files {W} _.
Arguments world {W} _.
Arguments calls {W} _.
Arguments stdout {W} _.

Section Monad.
Context {W : Type}.

Definition M (A : Type) : Type := state W -> outcome A * state W.

Definition ret {A} (a : A) : M A := fun st => (Ok a, st).
Definition raise {A} (e : exn) : M A := fun st => (Raise e, st).
Definition bind {A B} (m : M A) (f : A -> M B) : M B :=
  fun st =>
    match m st with
    | (Ok a, st') => f a st'
    | (Raise e, st') => (Raise e, st')
    end.

(** [try: m except Exception as e: h e] *)
Definition try_except {A} (m : M A) (h : exn -> M A) : M A :=
  fun st =>
    match m st with
    | (Ok a, st') => (Ok a, st')
    | (Raise e, st') => h e st'
    end.

Definition lift {A} (r : outcome A) : M A := fun st => (r, st).
Definition gets {A} (f : state W -> A) : M A := fun st => (Ok (f st), st).
Definition modify (f : state W -> state W) : M unit := fun st => (Ok tt, f st).

Definition set_id_mappings (m : gmap string (gmap key value)) (st : state W) : state W :=
  State m (table_schemas st) (table_mappings st) (migration_stats st)
        (success_count st) (error_count st) (files st) (world st) (calls st)
        (stdout st).
Definition set_migration_stats (m : gmap string stats) (st : state W) : state W :=
  State (id_mappings st) (table_schemas st) (table_mappings st) m
        (success_count st) (error_count st) (files st) (world st) (calls st)
        (stdout st).
Definition set_success_count (n : nat) (st : state W) : state W :=
  State (id_mappings st) (table_schemas st) (table_mappings st)
        (migration_stats st) n (error_count st) (files st) (world st)
        (calls st) (stdout st).
Definition set_error_count (n : nat) (st : state W) : state W :=
  State (id_mappings st) (table_schemas st) (table_mappings st)
        (migration_stats st) (success_count st) n (files st) (world st)
        (calls st) (stdout st).
Definition set_stdout (out : list line) (st : state W) : state W :=
  State (id_mappings st) (table_schemas st) (table_mappings st)
        (migration_stats st) (success_count st) (error_count st) (files st)
        (world st) (calls st) out.
(** A request: the destination moves on and the call is recorded. *)
Definition requested (w : W) (c : call) (st : state W) : state W :=
  State (id_mappings st) (table_schemas st) (table_mappings st)
        (migration_stats st) (success_count st) (error_count st) (files st)
        w (calls st ++ [c]) (stdout st).

Definition print (l : line) : M unit :=
  modify (fun st => set_stdout (stdout st ++ [l]) st).

(** A [for] loop whose body updates an accumulator. *)
Fixpoint for_each {A B} (l : list A) (body : B -> A -> M B) (acc : B) : M B :=
  match l with
  | [] => ret acc
  | x :: l' => bind (body acc x) (for_each l' body)
  end.
End Monad.
Arguments M : clear implicits.

Declare Scope py_scope.
Delimit Scope py_scope with py.
Notation "x <- m ;; k" := (bind m (fun x => k))
  (at level 100, m at next level, right associativity) : py_scope.
Notation "m ;; k" := (bind m (fun _ => k))
  (at level 100, right associativity) : py_scope.
Local Open Scope py_scope.

(* ===================================================================== *)
(** * [putData.py]: the static tables *)
(* ===================================================================== *)

(** [field_mappings] of [create_field_mapping]: for each table, the JSON
    field names and the Baserow field names they go to. *)
Definition field_mappings : odict (odict string) :=
  [ ("Location",
     [ ("location", "Name"); ("notes", "notes");
       ("latitude (N)", "latitude_n"); ("longitude (E)", "longitude_e");
       ("admin_level_country", "admin_level_country") ]);
    ("People",
     [ ("first_name", "Name"); ("last_name1", "last_name1");
       ("notes", "notes"); ("discursive_oil_id", "discursive_oil_id");
       ("discursive_oil_id1", "discursive_oil_id1");
       ("attachment", "attachment"); ("discursive_oil", "discursive_oil");
       ("discursive_oil_copy", "discursive_oil_copy") ]);
    ("Entity",
     [ ("name", "Name"); ("operating_locations", "operating_locations");
       ("entity_national_affiliation", "entity_national_affiliation");
       ("descriptive_name", "descriptive_name");
       ("entity_type (past)", "entity_type_past");
       ("established-date", "established_date");
       ("activity focus", "activity_focus"); ("notes", "notes");
       ("current status", "current_status"); ("Attachment", "attachment") ]);
    ("Role",
     [ ("role", "Name"); ("title", "title"); ("description", "description");
       ("department", "department"); ("subdepartment", "subdepartment");
       ("notes", "notes"); ("start_date", "start_date");
       ("end_date", "end_date") ]);
    ("Source",
     [ ("title", "Name"); ("unique-identifier", "unique_identifier");
       ("NB", "nb"); ("Source_date", "source_date"); ("author", "author");
       ("type-source", "type_source") ]);
    ("Infrastructure",
     [ ("infrastructure_name", "Name");
       ("infrastructure_type", "infrastructure_type"); ("notes", "notes");
       ("Attachment", "attachment"); ("status", "status") ]);
    ("Licenses",
     [ ("start-date", "start_date"); ("geographic_scope", "geographic_scope");
       ("Exploration License", "exploration_license") ]);
    ("Ecosystem",
     [ ("title", "Name"); ("consequence_type", "consequence_type");
       ("consequence_positive_negative", "consequence_positive_negative");
       ("consequence_communities", "consequence_communities");
       ("notes", "notes") ]);
    ("Transactions",
     [ ("Title", "Name"); ("Transaction type", "transaction_type");
       ("Date_recorded", "date_recorded"); ("notes", "notes");
       ("regulated-activity", "regulated_activity") ]);
    ("Actions-timeline",
     [ ("title", "Name"); ("start-date", "start_date");
       ("end-date", "end_date"); ("product", "product");
       ("type-of-action", "type_of_action") ]);
    ("Discursive-oil",
     [ ("Title", "Name"); ("communication_date", "communication_date");
       ("related_feeling", "related_feeling"); ("notes", "notes");
       ("obsidian_reference", "obsidian_reference");
       ("type of source", "type_of_source"); ("author", "author");
       ("recipient", "recipient") ]);
    ("Related-events",
     [ ("event_title", "Name"); ("event_date_start", "event_date_start");
       ("event_date_end", "event_date_end"); ("event_type", "event_type");
       ("source_obsidian", "source_obsidian"); ("notes", "notes") ]);
    ("Memory",
     [ ("memory_title", "Name"); ("memory_type", "memory_type");
       ("date_recorded", "date_recorded"); ("description", "description");
       ("notes", "notes") ]) ].

(** One entry of [relationship_mappings]: the keys ['field_name'] and
    ['source_table'] are always there, ['direct_id'] and ['id_field'] are
    there or not. *)
Record relationship_mapping : Type := RelMap {
  field_name : string;
  source_table : string;
  direct_id : option bool;
  id_field : option string
}.

Definition m2m (field_name source_table id_field : string) : relationship_mapping :=
  RelMap field_name source_table None (Some id_field).
Definition direct (field_name source_table : string) : relationship_mapping :=
  RelMap field_name source_table (Some true) None.

(** [relationship_mappings] of [map_relationships_to_baserow]. *)
Definition relationship_mappings : odict (odict relationship_mapping) :=
  [ ("Infrastructure",
     [ ("_nc_m2m_infrastructure_locations", m2m "linked_location" "Location" "location_id");
       ("_nc_m2m_entity_infrastructures", m2m "linked_entities" "Entity" "entity_id");
       ("_nc_m2m_infrastructure_discursive_oils",
        m2m "linked_discursive_oil" "Discursive-oil" "discursive_oil_id");
       ("_nc_m2m_ecosystem_conse_infrastructures",
        m2m "linked_ecosystem" "Ecosystem" "ecosystem_id");
       ("_nc_m2m_related_events_infrastructures",
        m2m "linked_related_events" "Related-events" "related_events_id") ]);
    ("Transactions",
     [ ("_nc_m2m_transactions_entities", m2m "linked_entities" "Entity" "entity_id");
       ("_nc_m2m_transactions_people", m2m "linked_people" "People" "people_id");
       ("_nc_m2m_transactions_primary_sources",
        m2m "linked_sources" "Source" "primary_sources_id");
       ("_nc_m2m_transactions_discursive_oils",
        m2m "linked_discursive_oil" "Discursive-oil" "discursive_oil_id") ]);
    ("Discursive-oil",
     [ ("object_author", direct "linked_author" "People");
       ("object_recipient", direct "linked_recipient" "People");
       ("_nc_m2m_discursive_oil_primary_sources",
        m2m "linked_sources" "Source" "primary_sources_id") ]);
    ("People",
     [ ("_nc_m2m_people_roles", m2m "linked_roles" "Role" "role_id");
       ("_nc_m2m_related_events_people",
        m2m "linked_related_events" "Related-events" "related_events_id");
       ("_nc_m2m_actions-timelin_people",
        m2m "linked_actions_timeline" "Actions-timeline" "actions_timeline_id");
       ("_nc_m2m_transactions_people",
        m2m "linked_transactions" "Transactions" "transactions_id") ]);
    ("Role",
     [ ("_nc_m2m_people_roles", m2m "linked_people" "People" "people_id");
       ("_nc_m2m_role_entities", m2m "linked_entities" "Entity" "entity_id");
       ("_nc_m2m_role_locations", m2m "linked_locations" "Location" "location_id") ]);
    ("Actions-timeline",
     [ ("_nc_m2m_actions-timelin_people", m2m "linked_people" "People" "people_id") ]);
    ("Related-events",
     [ ("_nc_m2m_related_events_people", m2m "linked_people" "People" "people_id");
       ("_nc_m2m_related_events_infrastructures",
        m2m "linked_infrastructures" "Infrastructure" "infrastructure_id") ]);
    ("Memory", []) ].

(** [skip_fields] of [transform_record_data]. *)
Definition skip_fields : list string := ["CreatedAt"; "UpdatedAt"; "Id"].

Definition date_indicators : list string :=
  ["date"; "established"; "start"; "end"; "createdat"; "updatedat"].

Definition ref_words : list string :=
  ["people"; "role"; "entity"; "source"; "infrastructure"; "location"].

(** [x in xs] for strings *)
Definition mem (x : string) (xs : list string) : bool :=
  existsb (String.eqb x) xs.

(* ===================================================================== *)
(** * [putData.py]: [CamillaMigrationManager] *)
(* ===================================================================== *)

Section CamillaMigrationManager.
Context {W : Type} (client : BaserowClient W).

(** [self.client.create_row(table_id, data)] *)
Definition client_create_row (table_id : Z) (data : gmap string value) : M W value :=
  fun st =>
    let '(r, w) := create_row client table_id data (world st) in
    (r, requested w (CreateRow table_id data r) st).

(** [self.client.update_row(table_id, row_id, data)] *)
Definition client_update_row (table_id : Z) (row_id : value)
    (data : gmap string (list value)) : M W value :=
  fun st =>
    let '(r, w) := update_row client table_id row_id data (world st) in
    (r, requested w (UpdateRow table_id row_id data r) st).

(** [self.client.clear_table(table_id)] *)
Definition client_clear_table (table_id : Z) : M W value :=
  fun st =>
    let '(r, w) := clear_table client table_id (world st) in
    (r, requested w (ClearTable table_id r) st).

(** Create mapping from JSON field names to Baserow field IDs. *)
Definition create_field_mapping (table_name : string) : M W (gmap string string) :=
  schemas <- gets table_schemas ;;
  match schemas !! table_name with
  | None => ret ∅
  | Some schema =>
      let base_mapping := default [] (assoc table_name field_mappings) in
      for_each base_mapping
        (fun (field_id_mapping : gmap string string) '(json_field, baserow_field_name) =>
           match TableSchema.get_field_by_name schema baserow_field_name with
           | Some field_info =>
               ret (<[json_field := field_ (FieldInfo.id field_info)]> field_id_mapping)
           | None =>
               print (LFieldNotFound baserow_field_name table_name) ;;
               ret field_id_mapping
           end)
        ∅
  end.

(** Check if a field should be treated as a date. *)
Definition _is_date_field (field_name : string) : bool :=
  existsb (fun indicator => Py.contains indicator (Py.lower field_name))
          date_indicators.

(** Normalize date values to YYYY-MM-DD format. *)
Definition _normalize_date (v : value) : M W (option string) :=
  if negb (truthy v) then ret None
  else
    let date_str := Py.strip (str v) in
    if Py.contains "T" date_str then
      ret (Some (Py.split_head "T" date_str))
    else if (String.length date_str =? 4)%nat && Py.isdigit date_str then
      ret (Some (date_str +:+ "-01-01"))
    else if (String.length date_str =? 10)%nat
            && (Py.count_char "-" date_str =? 2)%nat then
      ret (Some date_str)
    else
      print (LSkipInvalidDate date_str) ;;
      ret None.

(** Transform a single value based on its type and field name; [None] is
    Python's [None]. *)
Definition _transform_value (v : value) (field_name : string) : M W (option value) :=
  match v with
  | VNone | VStr "" => ret None
  | _ =>
      if _is_date_field field_name then
        d <- _normalize_date v ;; ret (VStr <$> d)
      else if is_bool v then ret (Some v)
      else ret (Some (VStr (str v)))
  end.

(** The body of the loop of [transform_record_data], for one item of the
    record: [cleaned_data] as it is after it. *)
Definition transform_field (field_mapping : gmap string string)
    (table_name : string) (cleaned_data : gmap string value)
    (item : string * value) : M W (gmap string value) :=
  let '(json_field, v) := item in
  if Py.startswith json_field "_nc_m2m_"
     || mem json_field skip_fields
     || (is_dict v && has_key "Id" v)
  then ret cleaned_data (* continue *)
  else
    schemas <- gets table_schemas ;;
    let schema := schemas !! table_name in
    (* [field_id], or [None] where the loop continues *)
    field_id <-
      match field_mapping !! json_field with
      | Some field_id =>
          match schema with
          | Some schema =>
              field_id_number <- lift (Py.int_of_str (Py.replace "field_" "" field_id)) ;;
              let field_info :=
                List.find (fun f => FieldInfo.id f =? field_id_number)
                          (TableSchema.fields schema) in
              match field_info with
              | Some field_info =>
                  if String.eqb (FieldInfo.type field_info) "link_row"
                  then ret None
                  else ret (Some field_id)
              | None => ret (Some field_id)
              end
          | None => ret (Some field_id)
          end
      | None =>
          match schema with
          | Some schema =>
              match TableSchema.get_field_by_name schema json_field with
              | Some field_info =>
                  if String.eqb (FieldInfo.type field_info) "link_row"
                  then ret None
                  else ret (Some (field_ (FieldInfo.id field_info)))
              | None =>
                  if is_int_or_str v && Py.isdigit (str v)
                     && existsb (fun ref_word =>
                                   Py.contains ref_word (Py.lower json_field))
                                ref_words
                  then ret None
                  else ret None
              end
          | None => ret None
          end
      end ;;
    match field_id with
    | None => ret cleaned_data
    | Some field_id =>
        transformed_value <- _transform_value v json_field ;;
        match transformed_value with
        | Some transformed_value =>
            ret (<[field_id := transformed_value]> cleaned_data)
        | None => ret cleaned_data
        end
    end.

(** Transform a record's core data (excluding relationships). *)
Definition transform_record_data (record : value)
    (field_mapping : gmap string string) (table_name : string)
    : M W (gmap string value) :=
  items <- lift (items_method record) ;;
  for_each items (transform_field field_mapping table_name) ∅.

(** Extract NocoDB relationship data from a record. *)
Definition extract_relationships (record : value) : outcome (odict (list value)) :=
  match items_method record with
  | Raise e => Raise e
  | Ok items =>
      Ok (fold_left
            (fun (relationships : odict (list value)) '(key, v) =>
               match v with
               | VList l =>
                   if Py.startswith key "_nc_m2m_"
                   then od_set key l relationships
                   else relationships
               | VDict d =>
                   match assoc "Id" d with
                   | Some i => od_set ("object_" +:+ key) [i] relationships
                   | None => relationships
                   end
               | _ => relationships
               end)
            items [])
  end.

(** [self.id_mappings.get(source_table, {}).get(old_id)]; a [list] or a
    [dict] as [old_id] cannot be hashed. *)
Definition lookup_id (source_table : string) (old_id : value) : M W value :=
  match to_key old_id with
  | None => raise TypeError
  | Some k =>
      ids <- gets id_mappings ;;
      ret (default VNone (default ∅ (ids !! source_table) !! k))
  end.

(** The two loops of [map_relationships_to_baserow] that fill [new_ids]. *)
Definition resolve_direct (source_table : string) (rel_data : list value)
    : M W (list value) :=
  for_each rel_data
    (fun new_ids old_id =>
       new_id <- lookup_id source_table old_id ;;
       if truthy new_id then ret (new_ids ++ [new_id]) else ret new_ids)
    [].

Definition resolve_m2m (source_table id_field : string) (rel_data : list value)
    : M W (list value) :=
  for_each rel_data
    (fun new_ids rel =>
       match rel with
       | VDict d =>
           let old_id := default VNone (assoc id_field d) in
           if truthy old_id then
             new_id <- lookup_id source_table old_id ;;
             if truthy new_id then ret (new_ids ++ [new_id]) else ret new_ids
           else ret new_ids
       | _ => ret new_ids
       end)
    [].

(** Convert NocoDB relationships to Baserow link field format. *)
Definition map_relationships_to_baserow (relationships : odict (list value))
    (table_name : string) : M W (gmap string (list value)) :=
  let table_mappings := default [] (assoc table_name relationship_mappings) in
  for_each relationships
    (fun (baserow_relationships : gmap string (list value)) '(rel_key, rel_data) =>
       match assoc rel_key table_mappings, rel_data with
       | None, _ | _, [] => ret baserow_relationships (* continue *)
       | Some mapping, _ =>
           schemas <- gets table_schemas ;;
           match schemas !! table_name with
           | None => ret baserow_relationships
           | Some schema =>
               match TableSchema.get_field_by_name schema (field_name mapping) with
               | None => ret baserow_relationships
               | Some field_info =>
                   let field_id := field_ (FieldInfo.id field_info) in
                   new_ids <-
                     match direct_id mapping with
                     | Some true => resolve_direct (source_table mapping) rel_data
                     | _ =>
                         match id_field mapping with
                         | None => raise KeyError
                         | Some id_field =>
                             resolve_m2m (source_table mapping) id_field rel_data
                         end
                     end ;;
                   match new_ids with
                   | [] => ret baserow_relationships
                   | _ => ret (<[field_id := new_ids]> baserow_relationships)
                   end
               end
           end
       end)
    ∅.

(** [if table_name not in self.id_mappings: self.id_mappings[table_name] = {}] *)
Definition ensure_table (table_name : string) (st : state W) : state W :=
  match id_mappings st !! table_name with
  | Some _ => st
  | None => set_id_mappings (<[table_name := ∅]> (id_mappings st)) st
  end.

(** [self.id_mappings[table_name][k] = new_id] *)
Definition store_id (table_name : string) (k : key) (new_id : value)
    (st : state W) : state W :=
  set_id_mappings
    (<[table_name := <[k := new_id]> (default ∅ (id_mappings st !! table_name))]>
       (id_mappings st)) st.

(** The block "Store ID mapping" of [import_table_data]. *)
Definition store_id_mapping (table_name : string) (old_id result : value)
    : M W unit :=
  if truthy old_id && truthy result then
    modify (ensure_table table_name) ;;
    new_id <- lift (subscript result "id") ;;
    match to_key old_id with
    | None => raise TypeError
    | Some k => modify (store_id table_name k new_id)
    end
  else ret tt.

(** The block "Handle relationships (in a second pass)". *)
Definition handle_relationships (table_id : Z) (table_name : string)
    (relationships_data : odict (list value)) (result : value) : M W unit :=
  match relationships_data with
  | [] => ret tt
  | _ =>
      if truthy result then
        baserow_relationships <-
          map_relationships_to_baserow relationships_data table_name ;;
        if bool_decide (baserow_relationships = ∅) then ret tt
        else
          row_id <- lift (subscript result "id") ;;
          client_update_row table_id row_id baserow_relationships ;;
          ret tt
      else ret tt
  end.

(** What the [try] of the loop of [import_table_data] runs once the
    record has data: create, register, patch, count. *)
Definition import_record (table_id : Z) (table_name : string) (n i : nat)
    (item : value) (relationships_data : odict (list value))
    (cleaned_data : gmap string value) : M W unit :=
  result <- client_create_row table_id cleaned_data ;;
  old_id <- lift (get_method item "Id") ;;
  store_id_mapping table_name old_id result ;;
  handle_relationships table_id table_name relationships_data result ;;
  modify (fun st => set_success_count (S (success_count st)) st) ;;
  shown <- lift (get_method result "id") ;;
  print (LRecordSuccess i n shown).

(** The body of the loop of [import_table_data] for the [i]-th of [n]
    items, with its [try] and [except]. *)
Definition process_item (table_id : Z) (table_name : string)
    (field_mapping : gmap string string) (n i : nat) (item : value) : M W unit :=
  try_except
    (relationships_data <- lift (extract_relationships item) ;;
     cleaned_data <- transform_record_data item field_mapping table_name ;;
     if bool_decide (cleaned_data = ∅) then
       modify (fun st => set_error_count (S (error_count st)) st) ;;
       print (LRecordNoData i n)
     else
       import_record table_id table_name n i item relationships_data cleaned_data)
    (fun e =>
       modify (fun st => set_error_count (S (error_count st)) st) ;;
       print (LRecordError i n e)).

(** [for i, item in enumerate(items, 1)] *)
Definition import_loop (table_id : Z) (table_name : string)
    (field_mapping : gmap string string) (n : nat) (items : list value)
    (start : nat) : M W nat :=
  for_each items
    (fun i item =>
       process_item table_id table_name field_mapping n i item ;; ret (S i))
    start.

(** The records of a decoded JSON file: the list itself, or what is under
    ['list']. *)
Definition records_of (json_data : value) : option value :=
  match json_data with
  | VList _ => Some json_data
  | VDict d => assoc "list" d
  | _ => None
  end.

(** Import data from JSON file to Baserow table. *)
Definition import_table_data (json_file_path table_name : string)
    (dry_run clear_table : bool) : M W bool :=
  print (LProcessing table_name) ;;
  tables <- gets table_mappings ;;
  match tables !! table_name with
  | None | Some 0 => print (LTableNotFound table_name) ;; ret false
  | Some table_id =>
      (if clear_table && negb dry_run then
         print LClearing ;;
         deleted_count <- client_clear_table table_id ;;
         print (LDeleted deleted_count)
       else ret tt) ;;
      fs <- gets files ;;
      match fs !! json_file_path with
      | None => print (LLoadError json_file_path) ;; ret false
      | Some json_data =>
          match records_of json_data with
          | None => print (LUnexpectedJSON json_file_path) ;; ret false
          | Some items =>
              n <- lift (len items) ;;
              print (LFound n) ;;
              if dry_run then print LDryRun ;; ret true
              else
                field_mapping <- create_field_mapping table_name ;;
                (if bool_decide (field_mapping = ∅)
                 then print (LNoFieldMapping table_name) else ret tt) ;;
                modify (set_success_count 0) ;;
                modify (set_error_count 0) ;;
                records <- lift (iterate items) ;;
                import_loop table_id table_name field_mapping n records 1 ;;
                success_count <- gets success_count ;;
                error_count <- gets error_count ;;
                modify (fun st =>
                          set_migration_stats
                            (<[table_name := Stats success_count error_count n]>
                               (migration_stats st)) st) ;;
                print (LSummary table_name success_count error_count n) ;;
                ret (0 <? success_count)%nat
          end
      end
  end.
End CamillaMigrationManager.

(* ===================================================================== *)
(** * [components/data_transformer.py]: [DataTransformer] *)
(* ===================================================================== *)

Module DataTransformer.

(** The regular expressions of [date_patterns] are sequences of [\d] and
    of literal characters, anchored at the start by [^] and [match], and
    some at the end by [$]. *)
Inductive atom : Type :=
| Digit
| Lit (c : ascii).

Record pattern : Type := Pattern { atoms : list atom; dollar : bool }.

Fixpoint match_atoms (p : list atom) (s : string) : option (string * string) :=
  match p with
  | [] => Some (EmptyString, s)
  | a :: p' =>
      match s with
      | EmptyString => None
      | String c s' =>
          if match a with Digit => Py.is_decimal c | Lit d => Ascii.eqb c d end
          then '(g, rest) ← match_atoms p' s'; Some (String c g, rest)
          else None
      end
  end.

(** [pattern.match(s)], giving [m.group()].  [$] matches at the end of the
    string and before a newline that ends it. *)
Definition re_match (p : pattern) (s : string) : option string :=
  '(g, rest) ← match_atoms (atoms p) s;
  if negb (dollar p) || String.eqb rest "" || String.eqb rest (String "010" "")
  then Some g else None.

Definition d4 : list atom := [Digit; Digit; Digit; Digit].
Definition ymd : list atom :=
  d4 ++ [Lit "-"; Digit; Digit; Lit "-"; Digit; Digit].

Definition date_patterns : list (pattern * (string -> string)) :=
  [ (Pattern d4 true, fun g => g +:+ "-01-01");          (* Year: "1961" *)
    (Pattern (ymd ++ [Lit "T"]) false, Py.take_chars 10); (* ISO *)
    (Pattern ymd true, fun g => g) ].                     (* Already formatted *)

(** [for pattern, formatter in patterns]: the formatter of the first
    pattern that matches [date_str], applied to what it matched. *)
Fixpoint first_match (patterns : list (pattern * (string -> string)))
    (date_str : string) : option string :=
  match patterns with
  | [] => None
  | (pattern, formatter) :: patterns' =>
      match re_match pattern date_str with
      | Some group => Some (formatter group)
      | None => first_match patterns' date_str
      end
  end.

Section Methods.
Context {W : Type}.
(** Python's [float(v)], for the values of this model. *)
Variable float : value -> outcome pyfloat.

(** Get field info by field_id string. *)
Definition _get_field_info_by_id (schema : TableSchema.t) (field_id : string)
    : outcome (option FieldInfo.t) :=
  match Py.int_of_str (Py.replace "field_" "" field_id) with
  | Raise e => Raise e
  | Ok field_number =>
      Ok (List.find (fun field => FieldInfo.id field =? field_number)
                    (TableSchema.fields schema))
  end.

(** Normalize date values to YYYY-MM-DD format. *)
Definition _normalize_date (v : value) : M W (option string) :=
  if negb (truthy v) then ret None
  else
    let date_str := Py.strip (str v) in
    match first_match date_patterns date_str with
    | Some formatted => ret (Some formatted)
    | None =>
        (* If no pattern matches, return None to skip invalid dates *)
        print (LInvalidDate (str v)) ;; ret None
    end.

(** Normalize boolean values. *)
Definition _normalize_boolean (v : value) : bool :=
  match v with
  | VBool b => b
  | _ => mem (Py.lower (str v)) ["true"; "1"; "yes"; "on"]
  end.

(** Normalize numeric values. *)
Definition _normalize_number (v : value) : outcome (option pyfloat) :=
  match v with
  | VStr "" => Ok None
  | _ =>
      match float v with
      | Ok f => Ok (Some f)
      | Raise ValueError | Raise TypeError => Ok None
      | Raise e => Raise e
      end
  end.

(** Transform value based on field type. *)
Definition _transform_value (v : value) (field_info : option FieldInfo.t)
    : M W (option value) :=
  match v with
  | VNone | VStr "" => ret None
  | _ =>
      match field_info with
      | None => ret (Some (VStr (str v)))
      | Some field_info =>
          if String.eqb (FieldInfo.type field_info) "date" then
            d <- _normalize_date v ;; ret (VStr <$> d)
          else if String.eqb (FieldInfo.type field_info) "boolean" then
            ret (Some (VBool (_normalize_boolean v)))
          else if String.eqb (FieldInfo.type field_info) "number" then
            f <- lift (_normalize_number v) ;; ret (VFloat <$> f)
          else ret (Some (VStr (str v)))
      end
  end.

(** What the loop of [transform_record] carries. *)
Record acc : Type := Acc {
  cleaned_data : gmap string value;
  relationships : odict value;
  errors : list (string * exn)
}.

(** Transform NocoDB record to Baserow format. *)
Definition transform_record (record : value)
    (field_mapping : gmap string string) (schema : TableSchema.t)
    : M W (gmap string value * odict value) :=
  items <- lift (items_method record) ;;
  a <- for_each items
         (fun (a : acc) '(json_field, v) =>
            if Py.startswith json_field "_nc_m2m_" then
              ret (Acc (cleaned_data a) (od_set json_field v (relationships a))
                       (errors a))
            else
              match field_mapping !! json_field with
              | None => ret a
              | Some baserow_field_id =>
                  field_info <- lift (_get_field_info_by_id schema baserow_field_id) ;;
                  try_except
                    (cleaned_value <- _transform_value v field_info ;;
                     match cleaned_value with
                     | Some cleaned_value =>
                         ret (Acc (<[baserow_field_id := cleaned_value]> (cleaned_data a))
                                  (relationships a) (errors a))
                     | None => ret a
                     end)
                    (fun e =>
                       ret (Acc (cleaned_data a) (relationships a)
                                (errors a ++ [(json_field, e)])))
              end)
         (Acc ∅ [] []) ;;
  (match errors a with
   | [] => ret tt
   | errs => print (LTransformErrors errs)
   end) ;;
  ret (cleaned_data a, relationships a).
End Methods.
End DataTransformer.

(* ===================================================================== *)
(** * [components/putData_enhanced.py]: [clean_data_for_baserow] *)
(* ===================================================================== *)

Module putData_enhanced.

(** [field_mapping] of [clean_field_name]. *)
Definition field_mapping : odict string :=
  [ ("last_name1", "last_name1"); ("first_name", "first_name");
    ("established-date", "established_date");
    ("entity_type (past)", "entity_type_past");
    ("activity focus", "activity_focus");
    ("operating locations", "operating_locations");
    ("current status", "current_status"); ("latitude (N)", "latitude_n");
    ("longitude (E)", "longitude_e");
    ("unique-identifier", "unique_identifier");
    ("type-source", "type_source"); ("Source_date", "source_date");
    ("NB", "nb"); ("Title", "title");
    ("Transaction type", "transaction_type");
    ("Date_recorded", "date_recorded");
    ("regulated-activity", "regulated_activity");
    ("start-date", "start_date"); ("end-date", "end_date");
    ("type-of-action", "type_of_action");
    ("type of source", "type_of_source");
    ("Exploration License", "exploration_license") ].

(** Clean field names to match Baserow field names. *)
Definition clean_field_name (field_name : string) : string :=
  default (Py.replace "-" "_" (Py.replace " " "_" (Py.lower field_name)))
          (assoc field_name field_mapping).

(** Check if a field should be treated as a date. *)
Definition is_date_field (field_name : string) : bool :=
  existsb (fun indicator => Py.contains indicator (Py.lower field_name))
          date_indicators.

(** [skip_fields] of [clean_data_for_baserow], as the set is written. *)
Definition skip_fields : list string :=
  [ "CreatedAt"; "UpdatedAt"; "Id"; "roles"; "transactions";
    "related_events"; "actions-timelines"; "discursive_oils"; "entities";
    "is-part-of"; "Infrastructure"; "concessions-grantee";
    "concessions-granter"; "locations"; "infrastructures"; "people";
    "primary-source"; "author-entity"; "parties_involved";
    "primary-source"; "People Involved"; "Writings about this";
    "concessions"; "action-timeline"; "infrastructure";
    "ecosystem-consequence"; "source"; "legal basis"; "people-involved";
    "entities-involved"; "related_people"; "discussions-around";
    "ecosystem_consequences"; "location (s)"; "entities"; "licenses";
    "related_events"; "actions- timeline"; "Affiliated-entity"; "location";
    "discursive_oils"; "exploration-drillings"; "exploration-productions";
    "granted_to"; "granted_by"; "convention"; "infrastructure_linked" ].

(** The body of the loop of [clean_data_for_baserow] for one item. *)
Definition clean_item (acc : gmap string value * odict (list value))
    (item : string * value) : gmap string value * odict (list value) :=
  let '(cleaned, relationships) := acc in
  let '(key, v) := item in
  if mem key skip_fields then acc
  else if Py.startswith key "_nc_m2m_" then
    match v with
    | VList (x :: l) => (cleaned, od_set key (x :: l) relationships)
    | _ => acc
    end
  else
    match (match v with VDict d => assoc "Id" d | _ => None end) with
    | Some i => (cleaned, od_set ("object_" +:+ key) [i] relationships)
    | None =>
        let clean_key := clean_field_name key in
        match v with
        | VNone => (<[clean_key := VStr ""]> cleaned, relationships)
        | VStr s =>
            if is_date_field key then
              (<[clean_key :=
                   VStr (if Py.contains "T" s then Py.split_head "T" s else s)]>
                 cleaned, relationships)
            else (<[clean_key := VStr (str v)]> cleaned, relationships)
        | VBool _ => (<[clean_key := v]> cleaned, relationships)
        | VList [] | VDict [] => acc
        | _ => (<[clean_key := VStr (str v)]> cleaned, relationships)
        end
    end.

(** Clean and transform data to match Baserow requirements.
    Returns: (cleaned_data, relationships_data). *)
Definition clean_data_for_baserow (data : value) (table_name : string)
    : outcome (gmap string value * odict (list value)) :=
  match items_method data with
  | Raise e => Raise e
  | Ok items => Ok (fold_left clean_item items (∅, []))
  end.
End putData_enhanced.

(* ===================================================================== *)
(** * Computations on a state, for the client and the setup of the manager *)
(* ===================================================================== *)

(** What the client and the setup of the manager print, one constructor
    for each [print], with the values interpolated in the message. *)
Inductive console : Type :=
| LAPIError (status_code : Z) (text : string)
| LDiscovering
| LFoundTable (table_name table_id : value)
| LMissingTables (missing_tables : list string)
| LRunCreateTables
| LFoundAll (n : nat)
| LDiscoverError (e : exn)
| LAnalyzing
| LSchemaLoaded (table_name : string) (n : nat)
| LSchemaError (table_name : string) (e : exn)
| LLoadedSchemas (n : nat).

Module St.
Section Defs.
Context {S : Type}.

(** A computation reads and writes a state [S], and returns or raises;
    the state written before an exception is raised is kept. *)
Definition t (A : Type) : Type := S -> outcome A * S.

Definition ret {A} (a : A) : t A := fun s => (Ok a, s).
Definition raise {A} (e : exn) : t A := fun s => (Raise e, s).
Definition bind {A B} (m : t A) (f : A -> t B) : t B :=
  fun s =>
    match m s with
    | (Ok a, s') => f a s'
    | (Raise e, s') => (Raise e, s')
    end.
Definition lift {A} (r : outcome A) : t A := fun s => (r, s).
Definition gets {A} (f : S -> A) : t A := fun s => (Ok (f s), s).
Definition modify (f : S -> S) : t unit := fun s => (Ok tt, f s).

(** [try: m; except Exception as e: h e] *)
Definition try_except {A} (m : t A) (h : exn -> t A) : t A :=
  fun s =>
    match m s with
    | (Ok a, s') => (Ok a, s')
    | (Raise e, s') => h e s'
    end.

(** A [for] loop whose body updates an accumulator. *)
Fixpoint for_each {A B} (l : list A) (body : B -> A -> t B) (acc : B) : t B :=
  match l with
  | [] => ret acc
  | x :: l' => bind (body acc x) (for_each l' body)
  end.
End Defs.
Arguments t : clear implicits.

(** A computation on a part [P] of the state, run on the whole. *)
Definition on {S P A : Type} (get : S -> P) (set : P -> S -> S) (m : t P A)
    : t S A :=
  fun s => let '(r, p) := m (get s) in (r, set p s).
End St.

Declare Scope st_scope.
Delimit Scope st_scope with st.
Notation "x <- m ;; k" := (St.bind m (fun x => k))
  (at level 100, m at next level, right associativity) : st_scope.
Notation "m ;; k" := (St.bind m (fun _ => k))
  (at level 100, right associativity) : st_scope.

(* ===================================================================== *)
(** * [components/baserow_client.py]: [BaserowClient] *)
(* ===================================================================== *)

Module baserow_client.
Import St.
Local Open Scope st_scope.

(** A [requests.Response], by what the client looks at: [ok] is false, and
    [raise_for_status()] raises, when the status is a client or a server
    error. *)
Record response : Type := Response {
  status_code : Z;
  text : string;
  json : outcome value
}.

Definition ok (r : response) : bool :=
  negb ((400 <=? status_code r) && (status_code r <? 600)).

(** The keyword arguments the client passes to [session.request]. *)
Inductive kwargs : Type :=
| NoKwargs
| Params (page size : Z)
| Json (data : value).

(** [session.request(method, url, **kwargs)] on the session with the API
    token or on the one with the JWT: a transition of the network [T], that
    answers or raises. *)
Definition transport (T : Type) : Type :=
  bool -> string -> string -> kwargs -> T -> outcome response * T.

(** A request that was sent, with what came back. *)
Record exchange : Type := Exchange {
  use_jwt : bool;
  method : string;
  url : string;
  kw : kwargs;
  reply : outcome response
}.

(** The client and its surroundings: the attribute [base_url], the
    network, the requests sent and what was printed. *)
Record client (T : Type) : Type := Client {
  base_url : string;
  net : T;
  sent : list exchange;
  stdout : list console
}.
Arguments Client {T} _ _ _ _.
Arguments base_url {T} _.
Arguments net {T} _.
Arguments sent {T} _.
Arguments stdout {T} _.

(** The methods of the client read and write the client, and may raise. *)
Definition C (T A : Type) : Type := St.t (client T) A.

Definition print {T : Type} (l : console) : C T unit :=
  modify (fun c => Client (base_url c) (net c) (sent c) (stdout c ++ [l])).

Section Methods.
Context {T : Type} (session_request : transport T).

(** [BaserowClient(base_url, token)] on a network *)
Definition __init__ (base_url : string) (net : T) : client T :=
  Client (Py.rstrip_chars "/" base_url) net [] [].

(** [f"{base_url}/api/{endpoint.lstrip('/')}"] *)
Definition api_url (base_url endpoint : string) : string :=
  base_url +:+ "/api/" +:+ Py.lstrip_chars "/" endpoint.

(** [session.request(method, url, **kwargs)], recorded *)
Definition session (use_jwt : bool) (method url : string) (kw : kwargs)
    : C T response :=
  fun c =>
    let '(r, t) := session_request use_jwt method url kw (net c) in
    (r, Client (base_url c) t (sent c ++ [Exchange use_jwt method url kw r])
               (stdout c)).

(** Make rate-limited API request with error handling.  (The pause is not
    modelled.) *)
Definition _make_request (method endpoint : string) (use_jwt : bool)
    (kw : kwargs) : C T response :=
  base_url <- gets base_url ;;
  let url := api_url base_url endpoint in
  response <- session use_jwt method url kw ;;
  if negb (ok response) then
    print (LAPIError (status_code response) (text response)) ;;
    raise HTTPError (* raise_for_status() *)
  else ret response.

(** Get all fields for a table. *)
Definition get_table_fields (table_id : value) : C T value :=
  response <- _make_request "GET"
                ("/database/fields/table/" +:+ str table_id +:+ "/") false NoKwargs ;;
  lift (json response).

(** Get rows from a table with pagination. *)
Definition get_table_rows (table_id : value) (page size : Z) : C T value :=
  response <- _make_request "GET"
                ("/database/rows/table/" +:+ str table_id +:+ "/") false
                (Params page size) ;;
  lift (json response).

(** Create a new row in a table. *)
Definition create_row (table_id : value) (data : value) : C T value :=
  response <- _make_request "POST"
                ("/database/rows/table/" +:+ str table_id +:+ "/") false (Json data) ;;
  lift (json response).

(** Update an existing row. *)
Definition update_row (table_id row_id : value) (data : value) : C T value :=
  response <- _make_request "PATCH"
                ("/database/rows/table/" +:+ str table_id +:+ "/"
                 +:+ str row_id +:+ "/") false (Json data) ;;
  lift (json response).

(** Delete a row. *)
Definition delete_row (table_id row_id : value) : C T bool :=
  try_except
    (_make_request "DELETE"
       ("/database/rows/table/" +:+ str table_id +:+ "/" +:+ str row_id +:+ "/")
       false NoKwargs ;;
     ret true)
    (fun _ => ret false).

(** The [for] loop of [clear_table] over the rows of a page. *)
Definition delete_rows (table_id : value) (rows : list value)
    (deleted_count : nat) : C T nat :=
  for_each rows
    (fun deleted_count row =>
       row_id <- lift (subscript row "id") ;;
       deleted <- delete_row table_id row_id ;;
       ret (if deleted then S deleted_count else deleted_count))
    deleted_count.

(** The [while True] loop of [clear_table], run for at most [fuel] rounds:
    [None] when the loop has not been left by then. *)
Fixpoint clear_table_loop (fuel : nat) (table_id : value) (page : Z)
    (deleted_count : nat) : C T (option nat) :=
  match fuel with
  | O => ret None
  | S fuel' =>
      data <- get_table_rows table_id page 200 ;;
      rows <- lift (get_default data "results" (VList [])) ;;
      if negb (truthy rows) then ret (Some deleted_count) (* break *)
      else
        rows <- lift (iterate rows) ;;
        deleted_count <- delete_rows table_id rows deleted_count ;;
        clear_table_loop fuel' table_id page deleted_count
  end.

(** Clear all rows from a table. *)
Definition clear_table (fuel : nat) (table_id : value) : C T (option nat) :=
  clear_table_loop fuel table_id 1 0.

(** Get all tables in a database. *)
Definition get_database_tables (database_id : value) : C T value :=
  response <- _make_request "GET"
                ("/database/tables/database/" +:+ str database_id +:+ "/") true
                NoKwargs ;;
  lift (json response).
End Methods.
End baserow_client.

(* ===================================================================== *)
(** * A small destination, for the examples *)
(* ===================================================================== *)

Module Demo.
Definition field (i : Z) (name type : string) : FieldInfo.t :=
  FieldInfo.Build i name type false false None.

(** A destination that numbers the rows it creates, from the number it
    is in. *)
Definition client : BaserowClient Z :=
  {| create_row := fun _ _ next => (Ok (VDict [("id", VInt next)]), next + 1);
     update_row := fun _ row_id _ next => (Ok (VDict [("id", row_id)]), next);
     clear_table := fun _ next => (Ok (VInt 0), next) |}.

Definition schemas : gmap string TableSchema.t :=
  list_to_map
    [ ("Location",
       TableSchema.Build 703 "Location"
         [field 1 "Name" "text"; field 2 "notes" "long_text"]);
      ("Role",
       TableSchema.Build 704 "Role"
         [field 20 "Name" "text"; field 21 "start_date" "date"]);
      ("People",
       TableSchema.Build 706 "People"
         [field 30 "Name" "text"; field 31 "roles" "number"]);
      ("Infrastructure",
       TableSchema.Build 708 "Infrastructure"
         [field 10 "Name" "text";
          FieldInfo.Build 11 "linked_location" "link_row" false false (Some 703)]) ].

Definition tables : gmap string Z :=
  list_to_map
    [("Location", 703); ("Role", 704); ("People", 706); ("Infrastructure", 708)].

Definition lagos : value :=
  VDict [("Id", VInt 1); ("location", VStr "Lagos"); ("notes", VStr "port city")].
Definition pipeline : value :=
  VDict [ ("Id", VInt 10); ("infrastructure_name", VStr "Pipeline");
          ("_nc_m2m_infrastructure_locations",
           VList [VDict [("location_id", VInt 1)]]) ].

(** A record whose row identifier is 0, and one that repeats the
    identifier of [lagos]. *)
Definition accra : value :=
  VDict [("Id", VInt 0); ("location", VStr "Accra")].
Definition lagos_again : value :=
  VDict [("Id", VInt 1); ("location", VStr "Lagos Island")].
(** A location whose notes are empty. *)
Definition abuja : value :=
  VDict [("Id", VInt 2); ("location", VStr "Abuja"); ("notes", VStr "")].
(** A record with nothing that maps. *)
Definition unmapped : value :=
  VDict [("Id", VInt 6); ("internal_code", VStr "x")].
(** A role whose start is not known yet. *)
Definition director : value :=
  VDict [("Id", VInt 5); ("role", VStr "Director"); ("start_date", VStr "TBD")].
(** A person, with the count of their roles. *)
Definition ada : value :=
  VDict [("Id", VInt 3); ("first_name", VStr "Ada"); ("roles", VInt 2)].

Definition json_files : gmap string value :=
  list_to_map
    [ ("Location_data.json", VList [lagos]);
      ("Infrastructure_data.json", VDict [("list", VList [pipeline])]) ].

(** The manager as [__init__], [discover_tables] and [initialize_schemas]
    leave it, the destination about to give row number 100. *)
Definition start : state Z :=
  State ∅ schemas tables ∅ 0 0 json_files 100 [] [].

Definition location_mapping : gmap string string :=
  list_to_map [("location", "field_1"); ("notes", "field_2")].
Definition role_mapping : gmap string string :=
  list_to_map [("role", "field_20"); ("start_date", "field_21")].
Definition people_mapping : gmap string string :=
  list_to_map [("first_name", "field_30")].
Definition infrastructure_mapping : gmap string string :=
  list_to_map [("infrastructure_name", "field_10")].

(** A [float] that converts nothing. *)
Definition no_float (_ : value) : outcome pyfloat := Raise TypeError.
End Demo.

(* ===================================================================== *)
(** * The vocabulary of the properties *)
(* ===================================================================== *)

(** [keeps R m]: whatever the state [m] starts in, and whether it returns
    or raises, the state it leaves is [R]-related to it. *)
Definition keeps {W : Type} (R : relation (state W)) {A : Type} (m : M W A)
    : Prop :=
  forall st, R st (m st).2.

(** [same f]: the component [f] of the state is what it was. *)
Definition same {W A : Type} (f : state W -> A) (st st' : state W) : Prop :=
  f st' = f st.

(** [printed st st']: [st'] is [st] with lines added to what was printed. *)
Definition printed {W : Type} (st st' : state W) : Prop :=
  exists out, st' = set_stdout (stdout st ++ out) st.

(** [self.id_mappings.get(table, {}).get(k)], [None] for an absent
    entry. *)
Definition registry_lookup {W : Type} (st : state W) (table : string) (k : key)
    : option value :=
  default ∅ (id_mappings st !! table) !! k.

(** [v] is a destination identifier the registry holds for a record of
    [source_table], and one that counts as true. *)
Definition registered {W : Type} (st : state W) (source_table : string)
    (v : value) : Prop :=
  truthy v = true /\ exists k, registry_lookup st source_table k = Some v.

(** The key under which a record would be registered. *)
Definition id_key (item : value) : option key :=
  match item with
  | VDict items => to_key (default VNone (assoc "Id" items))
  | _ => None
  end.

(** [registry_grows st st']: no entry of [st] is missing in [st']. *)
Definition registry_grows {W : Type} (st st' : state W) : Prop :=
  forall table k,
    is_Some (registry_lookup st table k) -> is_Some (registry_lookup st' table k).

(** A patch request is well formed when it carries at least one link field
    and no link field with an empty list. *)
Definition patch_ok (c : call) : Prop :=
  match c with
  | UpdateRow _ _ data _ =>
      data <> ∅ /\ forall field_id new_ids, data !! field_id = Some new_ids -> new_ids <> []
  | _ => True
  end.

(** [served st st']: from [st] to [st'] requests were made, and the patch
    requests among them are well formed. *)
Definition served {W : Type} (st st' : state W) : Prop :=
  exists new, calls st' = calls st ++ new /\ Forall patch_ok new.

(** A character of [str(n)] for an [int] [n]: a digit or the sign. *)
Definition plain (c : ascii) : bool :=
  Py.is_decimal c || Ascii.eqb c "-".

(** The items of a record without the keys in [skip]. *)
Definition without_keys (skip : list string) (items : list (string * value))
    : list (string * value) :=
  List.filter (fun item => negb (mem item.1 skip)) items.

(** The destination field a source field of the orchestrator goes to: the
    one of the static mapping, else the one the name matches. *)
Definition destination {W : Type} (st : state W)
    (field_mapping : gmap string string) (table_name json_field : string)
    : option string :=
  match field_mapping !! json_field with
  | Some field_id => Some field_id
  | None =>
      schema ← table_schemas st !! table_name;
      field_info ← TableSchema.get_field_by_name schema json_field;
      Some (field_ (FieldInfo.id field_info))
  end.

(** [None] or the empty string. *)
Definition null_or_empty (v : value) : Prop := v = VNone \/ v = VStr "".

(** The shapes of the date contract, on a string [s]: [^\d{4}$] is
    [is_year]; [date_prefix] takes a leading [\d{4}-\d{2}-\d{2}] off, so
    that [^\d{4}-\d{2}-\d{2}T.*] is [is_datetime] and [^\d{4}-\d{2}-\d{2}$]
    is [is_date]. *)
Definition is_year (s : string) : bool :=
  match s with
  | String a (String b (String c (String d EmptyString))) =>
      forallb Py.is_decimal [a; b; c; d]
  | _ => false
  end.

Definition date_prefix (s : string) : option string :=
  match s with
  | String a (String b (String c (String d (String m (String e (String f
      (String n (String g (String h rest))))))))) =>
      if forallb Py.is_decimal [a; b; c; d; e; f; g; h]
         && Ascii.eqb m "-" && Ascii.eqb n "-"
      then Some rest else None
  | _ => None
  end.

Definition is_datetime (s : string) : bool :=
  match date_prefix s with
  | Some (String t _) => Ascii.eqb t "T"
  | _ => false
  end.

Definition is_date (s : string) : bool :=
  match date_prefix s with
  | Some EmptyString => true
  | _ => false
  end.

(** The contract of date normalization as the specification words it, on
    the string form [s] of the value: the year with [-01-01], the first ten
    characters of a date and time, a date as it is, and nothing for any
    other string. *)
Definition date_contract (s : string) : option string :=
  if is_year s then Some (s +:+ "-01-01")
  else if is_datetime s then Some (Py.take_chars 10 s)
  else if is_date s then Some s
  else None.

(** The name of a field, case folded as [get_field_by_name] compares it. *)
Definition folded_name (field : FieldInfo.t) : string :=
  Py.lower (FieldInfo.name field).

(** The Baserow field name the static table [field_mappings] gives for a
    JSON field of a table. *)
Definition static_field_name (table_name json_field : string) : option string :=
  base_mapping ← assoc table_name field_mappings; assoc json_field base_mapping.

(** An item of a record that [extract_relationships] takes: a list under a
    key that starts with [_nc_m2m_], or a dict that has an ['Id']. *)
Definition is_relationship (item : string * value) : bool :=
  (Py.startswith item.1 "_nc_m2m_" && is_list item.2)
  || (is_dict item.2 && has_key "Id" item.2).

(** The records [import_table_data] has counted so far, as successes or as
    errors. *)
Definition counted {W : Type} (st : state W) : nat :=
  (success_count st + error_count st)%nat.

(** The destination answers a creation with a JSON object. *)
Definition creates_objects {W : Type} (client : BaserowClient W) : Prop :=
  forall table_id data w result w',
    create_row client table_id data w = (Ok result, w') -> is_dict result = true.

(** [counts_once m st]: run from [st], [m] counts one record more if it
    returns, and none if it raises. *)
Definition counts_once {W A : Type} (m : M W A) (st : state W) : Prop :=
  match m st with
  | (Ok _, st') => counted st' = S (counted st)
  | (Raise _, st') => counted st' = counted st
  end.

(** Every destination of [field_mapping] is an identifier string
    [field_<n>]. *)
Definition field_ids_only (field_mapping : gmap string string) : Prop :=
  forall json_field field_id,
    field_mapping !! json_field = Some field_id -> exists n, field_id = field_ n.

(** The reply to a request is a response that is [ok]. *)
Definition accepted (reply : outcome baserow_client.response) : bool :=
  match reply with
  | Ok r => baserow_client.ok r
  | Raise _ => false
  end.

(** A deletion that the destination accepted. *)
Definition accepted_deletion (x : baserow_client.exchange) : bool :=
  String.eqb (baserow_client.method x) "DELETE" && accepted (baserow_client.reply x).

(** The rows in the answer to a request for a page: [rows] of
    [clear_table]. *)
Definition rows_of_reply (reply : outcome baserow_client.response) : outcome value :=
  match reply with
  | Ok r =>
      if baserow_client.ok r then
        match baserow_client.json r with
        | Ok data => get_default data "results" (VList [])
        | Raise e => Raise e
        end
      else Raise HTTPError
  | Raise e => Raise e
  end.

(** [sends c c' new]: from [c] to [c'] the client has sent the requests of
    the exchanges [new], and it has the base URL it had. *)
Definition sends {T : Type} (c c' : baserow_client.client T)
    (new : list baserow_client.exchange) : Prop :=
  baserow_client.base_url c' = baserow_client.base_url c /\
  baserow_client.sent c' = baserow_client.sent c ++ new.

(** The endpoints of the rows of a table, and of one row. *)
Definition rows_endpoint (table_id : value) : string :=
  "/database/rows/table/" +:+ str table_id +:+ "/".
Definition row_endpoint (table_id row_id : value) : string :=
  "/database/rows/table/" +:+ str table_id +:+ "/" +:+ str row_id +:+ "/".

(** The requests of [clear_table] on the table [table_id], for a client
    whose base URL is [base]. *)
Definition page_url (base : string) (table_id : value) : string :=
  baserow_client.api_url base (rows_endpoint table_id).
Definition row_url (base : string) (table_id : value) (row_id : Z) : string :=
  baserow_client.api_url base (row_endpoint table_id (VInt row_id)).

(** The answer to a request for a page gives the rows [page], by their
    identifiers. *)
Definition gives_page (r : baserow_client.response) (page_ids : list Z) : Prop :=
  baserow_client.ok r = true /\
  exists data page,
    baserow_client.json r = Ok data /\
    get_default data "results" (VList []) = Ok (VList page) /\
    Forall2 (fun row i => subscript row "id" = Ok (VInt i)) page page_ids.

(** A destination that cooperates in the clearing of a table whose rows
    have distinct identifiers, [ids t] in the state [t]: asked for a page
    it gives some of the rows, and at least one when there is one; asked to
    delete a row of the table it does. *)
Record cooperative {T : Type} (session_request : baserow_client.transport T)
    (base : string) (table_id : value) (ids : T -> list Z) : Prop := Cooperative {
  page_of_rows :
    forall t, exists r t' page_ids,
      session_request false "GET" (page_url base table_id)
        (baserow_client.Params 1 200) t = (Ok r, t') /\
      gives_page r page_ids /\
      page_ids `sublist_of` ids t /\ (page_ids = [] -> ids t = []) /\
      ids t' = ids t;
  row_deleted :
    forall t i, NoDup (ids t) -> i ∈ ids t ->
      exists r t',
        session_request false "DELETE" (row_url base table_id i)
          baserow_client.NoKwargs t = (Ok r, t') /\
        baserow_client.ok r = true /\ ids t ≡ₚ i :: ids t'
}.

(** A destination on which the clearing of a table makes no progress:
    whatever it is asked, a page of the table still has a row. *)
Definition never_empty {T : Type} (session_request : baserow_client.transport T)
    (base : string) (table_id : value) : Prop :=
  forall t, exists r t' data rows row_list,
    session_request false "GET" (page_url base table_id)
      (baserow_client.Params 1 200) t = (Ok r, t') /\
    baserow_client.ok r = true /\ baserow_client.json r = Ok data /\
    get_default data "results" (VList []) = Ok rows /\
    truthy rows = true /\ iterate rows = Ok row_list /\
    Forall (fun row => exists row_id, subscript row "id" = Ok row_id) row_list.

(** ** Two destinations, for the examples *)

Module Destination.
Import St baserow_client.

(** A destination with one table, kept as the identifiers of its rows: it
    gives the first 200 rows for a page and deletes the row whose URL it is
    given. *)
Definition rows_server (base : string) (table_id : value) : transport (list Z) :=
  fun _ method url _ rows =>
    if String.eqb method "GET" then
      (Ok (Response 200 ""
             (Ok (VDict [("count", VInt (Z.of_nat (length rows)));
                         ("results",
                          VList ((fun i => VDict [("id", VInt i)]) <$> take 200 rows))]))),
       rows)
    else
      let rows' :=
        List.filter (fun i => negb (String.eqb url (row_url base table_id i))) rows in
      if (length rows' <? length rows)%nat
      then (Ok (Response 204 "" (Raise ValueError)), rows')
      else (Ok (Response 404 "" (Raise ValueError)), rows).

(** A destination with a row, that lets the token read and not write:
    every deletion is refused. *)
Definition read_only_server : transport unit :=
  fun _ method url _ _ =>
    if String.eqb method "GET" then
      (Ok (Response 200 "" (Ok (VDict [("results", VList [VDict [("id", VInt 1)]])]))),
       tt)
    else (Ok (Response 403 "Forbidden" (Raise ValueError)), tt).
End Destination.

(* ===================================================================== *)
(** * Properties *)
(* ===================================================================== *)

(** ** The model on examples *)

Example lower_mixed_case : Py.lower "Linked_Location" = "linked_location".
Proof. reflexivity. Qed.

Example strip_padded_year : Py.strip " 1961 " = "1961".
Proof. reflexivity. Qed.

Example replace_field_prefix : Py.replace "field_" "" "field_6882" = "6882".
Proof. reflexivity. Qed.

Example replace_does_not_overlap : Py.replace "ab" "x" "aababb" = "axxb".
Proof. reflexivity. Qed.

Example int_of_grouped_digits : Py.int_of_str " -1_000 " = Ok (-1000).
Proof. reflexivity. Qed.

Example int_of_doubled_underscore : Py.int_of_str "1__0" = Raise ValueError.
Proof. reflexivity. Qed.

Example str_of_negative : Py.str_of_int (-42) = "-42".
Proof. reflexivity. Qed.

Example repr_of_nested_value :
  repr (VList [VInt 1; VStr "it's"; VDict [("a", VNone); ("b", VBool true)]])
  = "[1, " +:+ String "034" "it's" +:+ String "034" ", {'a': None, 'b': True}]".
Proof. reflexivity. Qed.

Example repr_of_control_characters :
  repr (VStr (String "010" (String "127" "a"))) = "'\n\x7fa'".
Proof. reflexivity. Qed.

Example true_and_one_are_one_key : to_key (VBool true) = to_key (VInt 1).
Proof. reflexivity. Qed.

(** Scenarios 1 and 2 of the specification: [Location] is imported, then
    [Infrastructure]; the pipeline is created as row 101 and patched with
    its [linked_location] set to the row of Lagos. *)
Example location_then_infrastructure :
  let after :=
    (import_table_data Demo.client "Location_data.json" "Location" false false ;;
     import_table_data Demo.client "Infrastructure_data.json" "Infrastructure"
       false false) Demo.start in
  after.1 = Ok true /\
  calls after.2 =
    [ CreateRow 703 {[ "field_1" := VStr "Lagos"; "field_2" := VStr "port city" ]}
        (Ok (VDict [("id", VInt 100)]));
      CreateRow 708 {[ "field_10" := VStr "Pipeline" ]}
        (Ok (VDict [("id", VInt 101)]));
      UpdateRow 708 (VInt 101) {[ "field_11" := [VInt 100] ]}
        (Ok (VDict [("id", VInt 101)])) ] /\
  registry_lookup after.2 "Location" (KInt 1) = Some (VInt 100) /\
  registry_lookup after.2 "Infrastructure" (KInt 10) = Some (VInt 101) /\
  migration_stats after.2 !! "Infrastructure" = Some (Stats 1 0 1).
Proof. vm_compute. repeat split. Qed.

(** ** Running a computation *)

Section Run.
Context {W : Type}.
Implicit Types st : state W.

Lemma run_bind {A B} (m : M W A) (f : A -> M W B) st :
  bind m f st =
  match m st with
  | (Ok a, st') => f a st'
  | (Raise e, st') => (Raise e, st')
  end.
Proof. reflexivity. Qed.

Lemma run_bind_ok {A B} (m : M W A) (f : A -> M W B) st a st' :
  m st = (Ok a, st') -> bind m f st = f a st'.
Proof. intros H. by rewrite run_bind, H. Qed.

Lemma run_bind_raise {A B} (m : M W A) (f : A -> M W B) st e st' :
  m st = (Raise e, st') -> bind m f st = (Raise e, st').
Proof. intros H. by rewrite run_bind, H. Qed.

Lemma for_each_cons {A B} (x : A) (l : list A) (body : B -> A -> M W B) acc :
  for_each (x :: l) body acc = bind (body acc x) (for_each l body).
Proof. reflexivity. Qed.

Lemma for_each_app {A B} (l1 l2 : list A) (body : B -> A -> M W B) acc st :
  for_each (l1 ++ l2) body acc st =
  bind (for_each l1 body acc) (for_each l2 body) st.
Proof.
  revert acc st. induction l1 as [|x l1 IH]; intros acc st; [done|].
  simpl. rewrite !run_bind. destruct (body acc x st) as [[b|e] st1]; [|done].
  rewrite IH. by rewrite run_bind.
Qed.

(** An invariant of the accumulator and the state of a loop that ends
    without raising. *)
Lemma for_each_invariant {A B} (I : B -> state W -> Prop)
    (l : list A) (body : B -> A -> M W B) acc st r st' :
  (forall b x s b' s', x ∈ l -> I b s -> body b x s = (Ok b', s') -> I b' s') ->
  I acc st ->
  for_each l body acc st = (Ok r, st') ->
  I r st'.
Proof.
  revert acc st. induction l as [|x l IH]; intros acc st Hbody Hacc Hrun.
  - injection Hrun as <- <-. done.
  - rewrite for_each_cons, run_bind in Hrun.
    destruct (body acc x st) as [[b|e] st1] eqn:Hx; [|done].
    eapply IH; [|eapply Hbody; [|done..]|done]; [|left].
    intros ??????. eapply Hbody. by right.
Qed.
End Run.

(** ** What a computation may change

    [keeps R m]: whatever the state [m] starts in, and whether it returns
    or raises, the state it leaves is [R]-related to it. *)

Section Keeps.
Context {W : Type} (R : relation (state W)) `{!PreOrder R}.

Lemma keeps_ret {A} (a : A) : keeps R (ret a).
Proof. intros st. done. Qed.

Lemma keeps_raise {A} e : keeps R (raise (A:=A) e).
Proof. intros st. done. Qed.

Lemma keeps_lift {A} (r : outcome A) : keeps R (lift r).
Proof. intros st. done. Qed.

Lemma keeps_gets {A} (f : state W -> A) : keeps R (gets f).
Proof. intros st. done. Qed.

Lemma keeps_bind {A B} (m : M W A) (f : A -> M W B) :
  keeps R m -> (forall a, keeps R (f a)) -> keeps R (bind m f).
Proof.
  intros Hm Hf st. rewrite run_bind. specialize (Hm st).
  destruct (m st) as [[a|e] st1]; [|done].
  etrans; [exact Hm|apply Hf].
Qed.

Lemma keeps_try_except {A} (m : M W A) (h : exn -> M W A) :
  keeps R m -> (forall e, keeps R (h e)) -> keeps R (try_except m h).
Proof.
  intros Hm Hh st. unfold try_except. specialize (Hm st).
  destruct (m st) as [[a|e] st1]; [done|].
  etrans; [exact Hm|apply Hh].
Qed.

Lemma keeps_for_each {A B} (l : list A) (body : B -> A -> M W B) acc :
  (forall b x, keeps R (body b x)) -> keeps R (for_each l body acc).
Proof.
  intros Hbody. revert acc. induction l as [|x l IH]; intros acc.
  - apply keeps_ret.
  - rewrite for_each_cons. by apply keeps_bind.
Qed.

Lemma keeps_for_each_in {A B} (l : list A) (body : B -> A -> M W B) acc :
  (forall b x, x ∈ l -> keeps R (body b x)) -> keeps R (for_each l body acc).
Proof.
  revert acc. induction l as [|x l IH]; intros acc Hbody.
  - apply keeps_ret.
  - rewrite for_each_cons. apply keeps_bind; [apply Hbody; by left|].
    intros b. apply IH. intros ???. apply Hbody. by right.
Qed.

Lemma keeps_modify (f : state W -> state W) :
  (forall st, R st (f st)) -> keeps R (modify f).
Proof. intros Hf st. apply Hf. Qed.

Lemma keeps_print (l : line) :
  (forall st out, R st (set_stdout out st)) -> keeps R (print l).
Proof. intros Hf st. apply Hf. Qed.

(** The continuation may be examined only after a run of [m] that
    returned. *)
Lemma keeps_bind_ok {A B} (m : M W A) (f : A -> M W B) :
  keeps R m ->
  (forall st a st', m st = (Ok a, st') -> R st' (f a st').2) ->
  keeps R (bind m f).
Proof.
  intros Hm Hf st. rewrite run_bind. specialize (Hm st).
  destruct (m st) as [[a|e] st1] eqn:Hrun; [|done].
  etrans; [exact Hm|by eapply Hf].
Qed.
End Keeps.

Lemma keeps_weaken {W : Type} (R R' : relation (state W)) {A} (m : M W A) :
  (forall st st', R st st' -> R' st st') -> keeps R m -> keeps R' m.
Proof. intros HR Hm st. apply HR, Hm. Qed.

Global Instance same_preorder {W A : Type} (f : state W -> A) : PreOrder (same f).
Proof.
  split; [by intros st|].
  intros st1 st2 st3 H12 H23. unfold same in *. congruence.
Qed.

Create HintDb keeps discriminated.

(** The structural steps of a proof of [keeps]; the lemmas on the methods
    already treated are taken from the hint database. *)
Ltac keeps_step :=
  first
    [ apply keeps_ret | apply keeps_raise | apply keeps_lift | apply keeps_gets
    | apply keeps_bind | apply keeps_try_except | apply keeps_for_each
    | apply keeps_print; intros; reflexivity
    | apply keeps_modify; intros; reflexivity ];
  try tc_solve; intros.

Ltac keeps_auto :=
  repeat first [ solve [auto with keeps] | keeps_step | case_match ].

(** ** Relationship resolution reads, and writes nothing *)

Section ReadOnly.
Context {W : Type}.

Lemma lookup_id_reads source_table old_id :
  keeps (W:=W) eq (lookup_id source_table old_id).
Proof. unfold lookup_id. keeps_auto. Qed.
Hint Resolve lookup_id_reads : keeps.

Lemma resolve_direct_reads source_table rel_data :
  keeps (W:=W) eq (resolve_direct source_table rel_data).
Proof. unfold resolve_direct. keeps_auto. Qed.

Lemma resolve_m2m_reads source_table id_field rel_data :
  keeps (W:=W) eq (resolve_m2m source_table id_field rel_data).
Proof. unfold resolve_m2m. keeps_auto. Qed.
Hint Resolve resolve_direct_reads resolve_m2m_reads : keeps.

Lemma map_relationships_to_baserow_reads relationships table_name :
  keeps (W:=W) eq (map_relationships_to_baserow relationships table_name).
Proof. unfold map_relationships_to_baserow. keeps_auto. Qed.
End ReadOnly.

(** C4. Resolving the relationships of a record changes nothing in the
    state of the manager -- neither the Identifier Registry [id_mappings]
    nor the schemas [table_schemas] -- and, the state being what it was, a
    second resolution of the same payload for the same table returns (or
    raises) what the first did. *)
Theorem map_relationships_to_baserow_idempotent
    {W : Type} (relationships : odict (list value)) (table_name : string)
    (st : state W) :
  let first := map_relationships_to_baserow relationships table_name st in
  let second := map_relationships_to_baserow relationships table_name first.2 in
  first.2 = st /\
  id_mappings first.2 = id_mappings st /\
  table_schemas first.2 = table_schemas st /\
  second.1 = first.1 /\
  second.2 = st.
Proof.
  simpl.
  pose proof (map_relationships_to_baserow_reads relationships table_name st) as H.
  rewrite <- H. rewrite <- H. done.
Qed.

(** ** The plain-field transform only prints *)

Global Instance printed_preorder {W : Type} : PreOrder (@printed W).
Proof.
  split.
  - intros st. exists []. destruct st. unfold set_stdout. simpl.
    by rewrite app_nil_r.
  - intros st1 st2 st3 [o1 ->] [o2 ->]. exists (o1 ++ o2).
    unfold set_stdout. simpl. by rewrite app_assoc.
Qed.

Section Prints.
Context {W : Type}.

Lemma print_prints (l : line) : keeps (W:=W) printed (print l).
Proof. intros st. by exists [l]. Qed.
Hint Resolve print_prints : keeps.

Lemma _normalize_date_prints v : keeps (W:=W) printed (_normalize_date v).
Proof. unfold _normalize_date. keeps_auto. Qed.
Hint Resolve _normalize_date_prints : keeps.

Lemma _transform_value_prints v field_name :
  keeps (W:=W) printed (_transform_value v field_name).
Proof. unfold _transform_value. keeps_auto. Qed.
Hint Resolve _transform_value_prints : keeps.

Lemma transform_field_prints field_mapping table_name cleaned_data item :
  keeps (W:=W) printed (transform_field field_mapping table_name cleaned_data item).
Proof. unfold transform_field. keeps_auto. Qed.
Hint Resolve transform_field_prints : keeps.

Lemma transform_record_data_prints record field_mapping table_name :
  keeps (W:=W) printed (transform_record_data record field_mapping table_name).
Proof. unfold transform_record_data. keeps_auto. Qed.

Lemma create_field_mapping_prints table_name :
  keeps (W:=W) printed (create_field_mapping table_name).
Proof. unfold create_field_mapping. keeps_auto. Qed.

Lemma printed_frame (st st' : state W) :
  printed st st' ->
  id_mappings st' = id_mappings st /\ table_schemas st' = table_schemas st /\
  table_mappings st' = table_mappings st /\
  migration_stats st' = migration_stats st /\
  success_count st' = success_count st /\ error_count st' = error_count st /\
  files st' = files st /\ world st' = world st /\ calls st' = calls st.
Proof. by intros [out ->]. Qed.
End Prints.

Lemma transform_ok_is_record {W : Type} record field_mapping table_name
    (st st' : state W) cleaned :
  transform_record_data record field_mapping table_name st = (Ok cleaned, st') ->
  exists items, record = VDict items.
Proof.
  unfold transform_record_data. rewrite run_bind.
  destruct record; simpl; try done. eauto.
Qed.

(** C7. A record whose transformation yields no plain field (empty
    [cleaned_data]) is not created: no request is made to the destination,
    the error counter of the table goes up by exactly one (the success
    counter and the registry stay), and the loop goes on with the next
    record. *)
Theorem empty_record_counts_as_error
    {W : Type} (client : BaserowClient W) (table_id : Z) (table_name : string)
    (field_mapping : gmap string string) (n i : nat) (item : value)
    (rest : list value) (st st1 : state W) :
  transform_record_data item field_mapping table_name st = (Ok ∅, st1) ->
  let after := process_item client table_id table_name field_mapping n i item st in
  after.1 = Ok tt /\
  calls after.2 = calls st /\
  world after.2 = world st /\
  error_count after.2 = S (error_count st) /\
  success_count after.2 = success_count st /\
  id_mappings after.2 = id_mappings st /\
  stdout after.2 = stdout st1 ++ [LRecordNoData i n] /\
  import_loop client table_id table_name field_mapping n (item :: rest) i st =
  import_loop client table_id table_name field_mapping n rest (S i) after.2.
Proof.
  intros Ht.
  destruct (transform_ok_is_record _ _ _ _ _ _ Ht) as [items ->].
  pose proof (transform_record_data_prints (VDict items) field_mapping table_name st) as Hp.
  rewrite Ht in Hp. apply printed_frame in Hp. simpl in Hp.
  destruct Hp as (Hids & _ & _ & _ & Hs & He & _ & Hw & Hc).
  assert (process_item client table_id table_name field_mapping n i (VDict items) st
          = (Ok tt, set_stdout (stdout st1 ++ [LRecordNoData i n])
                               (set_error_count (S (error_count st1)) st1))) as Hrun.
  { unfold process_item, try_except. simpl.
    rewrite run_bind. simpl. rewrite run_bind, Ht. simpl. done. }
  simpl. unfold import_loop. rewrite for_each_cons, run_bind.
  rewrite (run_bind_ok _ _ _ _ _ Hrun), Hrun. simpl.
  by rewrite Hids, Hs, He, Hw, Hc.
Qed.

Lemma import_table_data_dry_run_prints {W : Type} (client : BaserowClient W)
    json_file_path table_name clear :
  keeps printed (import_table_data client json_file_path table_name true clear).
Proof.
  unfold import_table_data. rewrite andb_false_r.
  keeps_step; [apply print_prints|]. keeps_step; [keeps_step|].
  repeat first [ apply print_prints | keeps_step | case_match ].
Qed.

(** C8. With [dry_run] on, [import_table_data] makes no request to the
    destination -- no create, no patch, no clear, whatever [clear_table]
    says -- and leaves the Identifier Registry (and the statistics) as they
    were; for a table that is known and whose file holds [N] records it
    returns [True] after printing that [N] records were found. *)
Theorem dry_run_makes_no_request
    {W : Type} (client : BaserowClient W) (json_file_path table_name : string)
    (clear : bool) (st : state W)
    (table_id : Z) (json_data items : value) (records : list value) :
  table_mappings st !! table_name = Some table_id -> table_id <> 0 ->
  files st !! json_file_path = Some json_data ->
  records_of json_data = Some items ->
  iterate items = Ok records ->
  let after := import_table_data client json_file_path table_name true clear st in
  calls after.2 = calls st /\
  world after.2 = world st /\
  id_mappings after.2 = id_mappings st /\
  migration_stats after.2 = migration_stats st /\
  after.1 = Ok true /\
  stdout after.2 =
    stdout st ++ [LProcessing table_name; LFound (length records); LDryRun].
Proof.
  intros Htable Hnz Hfile Hrecords Hiter. simpl.
  pose proof (import_table_data_dry_run_prints client json_file_path table_name
                clear st) as Hp.
  apply printed_frame in Hp. destruct Hp as (Hids & _ & _ & Hstats & _ & _ & _ & Hw & Hc).
  repeat (split; [done|]).
  unfold import_table_data. rewrite andb_false_r.
  rewrite run_bind. simpl. rewrite run_bind. simpl. rewrite Htable.
  destruct table_id as [|p|p]; [done| |];
    (rewrite run_bind; simpl; rewrite run_bind; simpl; rewrite Hfile, Hrecords;
     rewrite run_bind; unfold len; rewrite Hiter; simpl;
     by rewrite <- !app_assoc).
Qed.

(** Without the hypotheses on the table and its file a dry run still makes
    no request and leaves the registry alone. *)
Lemma dry_run_frame {W : Type} (client : BaserowClient W)
    json_file_path table_name clear (st : state W) :
  let after := import_table_data client json_file_path table_name true clear st in
  calls after.2 = calls st /\ world after.2 = world st /\
  id_mappings after.2 = id_mappings st.
Proof.
  simpl.
  pose proof (import_table_data_dry_run_prints client json_file_path table_name
                clear st) as Hp.
  apply printed_frame in Hp.
  by destruct Hp as (-> & _ & _ & _ & _ & _ & _ & -> & ->).
Qed.

(** ** What relationship resolution returns *)

Section Resolved.
Context {W : Type}.
Implicit Types st : state W.

Lemma lookup_id_ok source_table old_id st v st' :
  lookup_id source_table old_id st = (Ok v, st') ->
  st' = st /\
  exists k, to_key old_id = Some k /\
    v = default VNone (registry_lookup st source_table k).
Proof.
  unfold lookup_id. destruct (to_key old_id) as [k|]; [|done].
  intros [= <- <-]. eauto.
Qed.

Lemma lookup_id_registered source_table old_id st v st' :
  lookup_id source_table old_id st = (Ok v, st') ->
  truthy v = true -> registered st source_table v.
Proof.
  intros (-> & k & _ & ->)%lookup_id_ok Ht. split; [done|]. exists k.
  destruct (registry_lookup st source_table k); done.
Qed.

Lemma resolve_direct_registered source_table rel_data st new_ids st' :
  resolve_direct source_table rel_data st = (Ok new_ids, st') ->
  st' = st /\ Forall (registered st source_table) new_ids.
Proof.
  intros Hrun.
  apply (for_each_invariant
           (fun ids s => s = st /\ Forall (registered st source_table) ids))
    in Hrun; [done| |done].
  intros b x s b' s' _ [-> Hb]. rewrite run_bind.
  destruct (lookup_id source_table x st) as [[v|e] s1] eqn:Hl; [|done].
  pose proof (lookup_id_ok _ _ _ _ _ Hl) as [-> _].
  destruct (truthy v) eqn:Hv; intros [= <- <-]; split; try done.
  apply Forall_app. split; [done|]. apply Forall_singleton.
  by eapply lookup_id_registered.
Qed.

Lemma resolve_m2m_registered source_table id_field rel_data st new_ids st' :
  resolve_m2m source_table id_field rel_data st = (Ok new_ids, st') ->
  st' = st /\ Forall (registered st source_table) new_ids.
Proof.
  intros Hrun.
  apply (for_each_invariant
           (fun ids s => s = st /\ Forall (registered st source_table) ids))
    in Hrun; [done| |done].
  intros b x s b' s' _ [-> Hb].
  destruct x as [| | | | |?|d]; try (by intros [= <- <-]).
  simpl. destruct (truthy _); [|by intros [= <- <-]].
  rewrite run_bind.
  destruct (lookup_id _ _ st) as [[v|e] s1] eqn:Hl; [|done].
  pose proof (lookup_id_ok _ _ _ _ _ Hl) as [-> _].
  destruct (truthy v) eqn:Hv; intros [= <- <-]; split; try done.
  apply Forall_app. split; [done|]. apply Forall_singleton.
  by eapply lookup_id_registered.
Qed.

(** Every list in the output is non-empty and made of identifiers the
    registry holds. *)
Lemma map_relationships_to_baserow_resolved relationships table_name st out st' :
  map_relationships_to_baserow relationships table_name st = (Ok out, st') ->
  forall field_id new_ids, out !! field_id = Some new_ids ->
    new_ids <> [] /\
    exists source_table, Forall (registered st source_table) new_ids.
Proof.
  intros Hrun.
  apply (for_each_invariant
           (fun (out : gmap string (list value)) s =>
              s = st /\
              forall field_id new_ids, out !! field_id = Some new_ids ->
                new_ids <> [] /\
                exists source_table, Forall (registered st source_table) new_ids))
    in Hrun; [by destruct Hrun| |done].
  intros b [rel_key rel_data] s b' s' _ [-> Hb].
  destruct (assoc rel_key _) as [mapping|]; [|by intros [= <- <-]].
  destruct rel_data as [|x rel_data]; [by intros [= <- <-]|].
  rewrite run_bind. simpl.
  destruct (table_schemas st !! table_name) as [schema|]; [|by intros [= <- <-]].
  destruct (TableSchema.get_field_by_name _ _) as [fi|]; [|by intros [= <- <-]].
  rewrite run_bind.
  match goal with |- context [match ?m st with _ => _ end] =>
    destruct (m st) as [[ids|e] s1] eqn:Hids end; [|done].
  assert (s1 = st /\ Forall (registered st (source_table mapping)) ids) as [-> Hreg].
  { destruct (direct_id mapping) as [[]|];
      first [ by eapply resolve_direct_registered
            | destruct (id_field mapping); [by eapply resolve_m2m_registered|done] ]. }
  destruct ids as [|v ids]; intros [= <- <-]; [done|]. split; [done|].
  intros field_id new_ids. rewrite lookup_insert.
  case_decide; [|by apply Hb]. intros [= <-]. eauto.
Qed.
End Resolved.

(** ** The requests of the orchestrator *)

Global Instance served_preorder {W : Type} : PreOrder (@served W).
Proof.
  split.
  - intros st. exists []. by rewrite app_nil_r.
  - intros st1 st2 st3 (n1 & H1 & F1) (n2 & H2 & F2). exists (n1 ++ n2).
    rewrite H2, H1, app_assoc. split; [done|]. by apply Forall_app.
Qed.

Lemma same_calls_served {W : Type} (st st' : state W) :
  same calls st st' -> served st st'.
Proof. intros H. exists []. by rewrite app_nil_r. Qed.

Lemma eq_same {W A : Type} (f : state W -> A) (st st' : state W) :
  st = st' -> same f st st'.
Proof. by intros ->. Qed.

Lemma printed_same_calls {W : Type} (st st' : state W) :
  printed st st' -> same calls st st'.
Proof. by intros [out ->]. Qed.

Section Requests.
Context {W : Type} (client : BaserowClient W).
Implicit Types st : state W.

Lemma store_id_mapping_same_calls table_name old_id result :
  keeps (W:=W) (same calls) (store_id_mapping table_name old_id result).
Proof.
  unfold store_id_mapping. keeps_auto.
  apply keeps_modify. intros st. unfold ensure_table. by case_match.
Qed.

Lemma store_id_mapping_same_world table_name old_id result :
  keeps (W:=W) (same world) (store_id_mapping table_name old_id result).
Proof.
  unfold store_id_mapping. keeps_auto.
  apply keeps_modify. intros st. unfold ensure_table. by case_match.
Qed.

Lemma handle_relationships_served table_id table_name relationships_data result :
  keeps served
    (handle_relationships client table_id table_name relationships_data result).
Proof.
  unfold handle_relationships.
  destruct relationships_data as [|rel rels]; [keeps_step|].
  destruct (truthy result); [|keeps_step].
  apply keeps_bind_ok; [tc_solve| |].
  - eapply keeps_weaken; [|apply map_relationships_to_baserow_reads].
    intros st st' ->. reflexivity.
  - intros st out st' Hmap. case_bool_decide as Hout; [reflexivity|].
    rewrite run_bind. simpl. destruct (subscript result "id") as [row_id|e];
      [|reflexivity].
    rewrite run_bind. unfold client_update_row.
    destruct (update_row _ _ _ _ _) as [r w]. eexists [_]. split.
    + by destruct r.
    + apply Forall_singleton. split; [done|].
      intros field_id new_ids Hl.
      by destruct (map_relationships_to_baserow_resolved _ _ _ _ _ Hmap _ _ Hl).
Qed.

(** When nothing resolves, the second pass asks nothing of the
    destination. *)
Lemma handle_relationships_unresolved table_id table_name relationships_data
    result st :
  (map_relationships_to_baserow relationships_data table_name st).1 = Ok ∅ ->
  handle_relationships client table_id table_name relationships_data result st
  = (Ok tt, st).
Proof.
  intros Hmap. unfold handle_relationships.
  destruct relationships_data as [|rel rels]; [done|].
  destruct (truthy result); [|done]. rewrite run_bind.
  pose proof (map_relationships_to_baserow_reads (rel :: rels) table_name st) as Hst.
  destruct (map_relationships_to_baserow _ _ st) as [r st']. simpl in *.
  by subst.
Qed.

Lemma client_create_row_served table_id data :
  keeps served (client_create_row client table_id data).
Proof.
  intros st. unfold client_create_row. destruct (create_row _ _ _ _) as [r w].
  eexists [_]. split; [reflexivity|]. by apply Forall_singleton.
Qed.

Lemma client_clear_table_served table_id :
  keeps served (client_clear_table client table_id).
Proof.
  intros st. unfold client_clear_table. destruct (clear_table _ _ _) as [r w].
  eexists [_]. split; [reflexivity|]. by apply Forall_singleton.
Qed.

Lemma import_record_served table_id table_name n i item relationships_data
    cleaned_data :
  keeps served
    (import_record client table_id table_name n i item relationships_data
       cleaned_data).
Proof.
  unfold import_record.
  keeps_step; [apply client_create_row_served|]. keeps_step; [keeps_step|].
  keeps_step.
  { eapply keeps_weaken; [apply same_calls_served|].
    apply store_id_mapping_same_calls. }
  keeps_step; [apply handle_relationships_served|].
  eapply keeps_weaken; [apply same_calls_served|]. keeps_auto.
Qed.

Lemma process_item_served table_id table_name field_mapping n i item :
  keeps served (process_item client table_id table_name field_mapping n i item).
Proof.
  unfold process_item. keeps_step.
  - keeps_step; [keeps_step|]. keeps_step.
    + eapply keeps_weaken; [|apply transform_record_data_prints].
      intros st st' H. by apply same_calls_served, printed_same_calls.
    + case_bool_decide; [|apply import_record_served].
      eapply keeps_weaken; [apply same_calls_served|]. keeps_auto.
  - eapply keeps_weaken; [apply same_calls_served|]. keeps_auto.
Qed.
End Requests.

(** ** The steps of one record *)

Section OneRecord.
Context {W : Type} (client : BaserowClient W).
Implicit Types st : state W.

Lemma extract_relationships_record items :
  exists rels, extract_relationships (VDict items) = Ok rels.
Proof. unfold extract_relationships. simpl. eauto. Qed.

(** The run of [process_item] on a record with data, up to the creation
    request. *)
Lemma process_item_with_data table_id table_name field_mapping n i items rels
    st cleaned st1 :
  extract_relationships (VDict items) = Ok rels ->
  transform_record_data (VDict items) field_mapping table_name st
    = (Ok cleaned, st1) ->
  cleaned <> ∅ ->
  process_item client table_id table_name field_mapping n i (VDict items) st =
  try_except
    (import_record client table_id table_name n i (VDict items) rels cleaned)
    (fun e =>
       modify (fun st => set_error_count (S (error_count st)) st) ;;
       print (LRecordError i n e)) st1.
Proof.
  intros Hx Ht Hne. unfold process_item, try_except.
  rewrite run_bind, Hx. simpl. rewrite run_bind, Ht.
  by rewrite bool_decide_eq_false_2.
Qed.

(** The run of [import_record] once the destination has created the
    row. *)
Lemma import_record_created table_id table_name n i items rels cleaned st1
    result w :
  create_row client table_id cleaned (world st1) = (Ok result, w) ->
  import_record client table_id table_name n i (VDict items) rels cleaned st1 =
  (store_id_mapping table_name (default VNone (assoc "Id" items)) result ;;
   handle_relationships client table_id table_name rels result ;;
   modify (fun st => set_success_count (S (success_count st)) st) ;;
   shown <- lift (get_method result "id") ;;
   print (LRecordSuccess i n shown))
    (requested w (CreateRow table_id cleaned (Ok result)) st1).
Proof.
  intros Hc. unfold import_record. rewrite run_bind.
  unfold client_create_row at 1. rewrite Hc. by rewrite run_bind.
Qed.

Lemma count_and_print_same {A} (f : state W -> A) n i result :
  (forall st k, f (set_success_count k st) = f st) ->
  (forall st out, f (set_stdout out st) = f st) ->
  keeps (same f)
    (modify (fun st => set_success_count (S (success_count st)) st) ;;
     shown <- lift (get_method result "id") ;;
     print (LRecordSuccess i n shown)).
Proof.
  intros H1 H2. keeps_step; [apply keeps_modify; intros; apply H1|].
  keeps_step; [keeps_step|]. apply keeps_print. intros. apply H2.
Qed.

Lemma error_handler_same {A} (f : state W -> A) n i e :
  (forall st k, f (set_error_count k st) = f st) ->
  (forall st out, f (set_stdout out st) = f st) ->
  keeps (same f)
    (modify (fun st => set_error_count (S (error_count st)) st) ;;
     print (LRecordError i n e)).
Proof.
  intros H1 H2. keeps_step; [apply keeps_modify; intros; apply H1|].
  apply keeps_print. intros. apply H2.
Qed.

(** Scenario 3 of the specification, in general: the record is created,
    nothing resolves, and the creation is the only request. *)
Lemma created_without_patch table_id table_name field_mapping n i items rels
    st cleaned st1 result w :
  extract_relationships (VDict items) = Ok rels ->
  transform_record_data (VDict items) field_mapping table_name st
    = (Ok cleaned, st1) ->
  cleaned <> ∅ ->
  create_row client table_id cleaned (world st1) = (Ok result, w) ->
  (map_relationships_to_baserow rels table_name
     (store_id_mapping table_name (default VNone (assoc "Id" items)) result
        (requested w (CreateRow table_id cleaned (Ok result)) st1)).2).1 = Ok ∅ ->
  calls (process_item client table_id table_name field_mapping n i (VDict items) st).2
  = calls st ++ [CreateRow table_id cleaned (Ok result)].
Proof.
  intros Hx Ht Hne Hc Hmap.
  rewrite (process_item_with_data _ _ _ _ _ _ _ _ _ _ Hx Ht Hne).
  unfold try_except. rewrite (import_record_created _ _ _ _ _ _ _ _ _ _ Hc).
  pose proof (transform_record_data_prints (VDict items) field_mapping table_name st) as Hp.
  rewrite Ht in Hp. apply printed_same_calls in Hp. simpl in Hp.
  set (created := requested w _ st1) in *.
  assert (calls created = calls st ++ [CreateRow table_id cleaned (Ok result)]) as Hcreated
    by (by unfold created; simpl; rewrite Hp).
  pose proof (store_id_mapping_same_calls table_name
                (default VNone (assoc "Id" items)) result created) as Hs.
  unfold same in Hs. rewrite run_bind.
  destruct (store_id_mapping _ _ _ created) as [[[]|e] st2] eqn:Hstore;
    cbn [fst snd] in *.
  - rewrite run_bind, (handle_relationships_unresolved _ _ _ _ _ _ Hmap).
    pose proof (count_and_print_same calls n i result
                  ltac:(done) ltac:(done) st2) as Hk.
    unfold same in Hk.
    destruct (bind _ _ st2) as [[[]|e] st3]; cbn [fst snd] in *.
    + by rewrite Hk, Hs.
    + pose proof (error_handler_same calls n i e ltac:(done) ltac:(done) st3) as He.
      unfold same in He. by rewrite He, Hk, Hs.
  - pose proof (error_handler_same calls n i e ltac:(done) ltac:(done) st2) as He.
    unfold same in He. by rewrite He, Hs.
Qed.
End OneRecord.

(** An element whose identifier the registry does not hold is passed over,
    and nothing is raised. *)
Lemma resolve_m2m_skips_unregistered {W : Type} source_table id_field d rel_data
    (st : state W) k :
  to_key (default VNone (assoc id_field d)) = Some k ->
  registry_lookup st source_table k = None ->
  resolve_m2m source_table id_field (VDict d :: rel_data) st
  = resolve_m2m source_table id_field rel_data st.
Proof.
  intros Hk Hnone. unfold registry_lookup in Hnone. unfold resolve_m2m. rewrite for_each_cons, run_bind. simpl.
  destruct (truthy _); [|done].
  rewrite run_bind. unfold lookup_id. rewrite Hk. simpl.
unfold registry_lookup in Hnone. by rewrite Hnone.
Qed.

Lemma resolve_direct_skips_unregistered {W : Type} source_table old_id rel_data
    (st : state W) k :
  to_key old_id = Some k ->
  registry_lookup st source_table k = None ->
  resolve_direct source_table (old_id :: rel_data) st
  = resolve_direct source_table rel_data st.
Proof.
  intros Hk Hnone. unfold registry_lookup in Hnone. unfold resolve_direct. rewrite for_each_cons, run_bind.
  rewrite run_bind. unfold lookup_id. rewrite Hk. simpl.
unfold registry_lookup in Hnone. by rewrite Hnone.
Qed.

(** C2. Relationship resolution is best effort.  The output of
    [map_relationships_to_baserow] has a link field only with a non-empty
    list of identifiers the registry holds; an element whose identifier is
    not registered is passed over without an error; every patch request the
    orchestrator makes for a record carries a non-empty output; and when
    nothing resolves the record is still created and the creation is the
    only request. *)
Theorem best_effort_relationship_resolution
    {W : Type} (client : BaserowClient W) :
  (forall relationships table_name (st st' : state W) out,
     map_relationships_to_baserow relationships table_name st = (Ok out, st') ->
     forall field_id new_ids, out !! field_id = Some new_ids ->
       new_ids <> [] /\
       exists source_table, Forall (registered st source_table) new_ids) /\
  (forall source_table id_field d rel_data (st : state W) k,
     to_key (default VNone (assoc id_field d)) = Some k ->
     registry_lookup st source_table k = None ->
     resolve_m2m source_table id_field (VDict d :: rel_data) st
     = resolve_m2m source_table id_field rel_data st) /\
  (forall source_table old_id rel_data (st : state W) k,
     to_key old_id = Some k ->
     registry_lookup st source_table k = None ->
     resolve_direct source_table (old_id :: rel_data) st
     = resolve_direct source_table rel_data st) /\
  (forall table_id table_name field_mapping n i item (st : state W),
     exists new,
       calls (process_item client table_id table_name field_mapping n i item st).2
       = calls st ++ new /\
       Forall patch_ok new) /\
  (forall table_id table_name field_mapping n i items rels (st st1 : state W)
          cleaned result w,
     extract_relationships (VDict items) = Ok rels ->
     transform_record_data (VDict items) field_mapping table_name st
       = (Ok cleaned, st1) ->
     cleaned <> ∅ ->
     create_row client table_id cleaned (world st1) = (Ok result, w) ->
     (map_relationships_to_baserow rels table_name
        (store_id_mapping table_name (default VNone (assoc "Id" items)) result
           (requested w (CreateRow table_id cleaned (Ok result)) st1)).2).1 = Ok ∅ ->
     calls (process_item client table_id table_name field_mapping n i (VDict items) st).2
     = calls st ++ [CreateRow table_id cleaned (Ok result)]).
Proof.
  split; [|split; [|split; [|split]]].
  - intros *. apply map_relationships_to_baserow_resolved.
  - intros *. apply resolve_m2m_skips_unregistered.
  - intros *. apply resolve_direct_skips_unregistered.
  - intros *. apply process_item_served.
  - intros *. apply created_without_patch.
Qed.

(** ** The Identifier Registry *)

Global Instance registry_grows_preorder {W : Type} : PreOrder (@registry_grows W).
Proof. split; [by intros st t k|]. intros st1 st2 st3 H12 H23 t k H. eauto. Qed.

Lemma same_ids_grows {W : Type} (st st' : state W) :
  same id_mappings st st' -> registry_grows st st'.
Proof. intros H t k. unfold registry_lookup. by rewrite H. Qed.

Section Registry.
Context {W : Type} (client : BaserowClient W).
Implicit Types st : state W.

Lemma registry_lookup_ensure_table table_name st table k :
  registry_lookup (ensure_table table_name st) table k = registry_lookup st table k.
Proof.
  unfold ensure_table, registry_lookup.
  destruct (id_mappings st !! table_name) eqn:Ht; [done|]. simpl.
  destruct (decide (table = table_name)) as [->|Hne].
  - by rewrite lookup_insert_eq, Ht.
  - by rewrite lookup_insert_ne.
Qed.

Lemma registry_lookup_store_id table_name k0 new_id st table k :
  registry_lookup (store_id table_name k0 new_id st) table k =
  if decide (table = table_name /\ k = k0) then Some new_id
  else registry_lookup st table k.
Proof.
  unfold store_id, registry_lookup. simpl.
  destruct (decide (table = table_name)) as [->|Hne].
  - rewrite lookup_insert_eq. simpl.
    destruct (decide (k = k0)) as [->|Hk].
    + rewrite lookup_insert_eq. by rewrite decide_True.
    + rewrite lookup_insert_ne by done. rewrite decide_False; [done|by intros [_ ?]].
  - rewrite lookup_insert_ne by done. rewrite decide_False; [done|by intros [? _]].
Qed.

(** The block "Store ID mapping", when everything it needs is there. *)
Lemma store_id_mapping_registers table_name old_id result st k new_id :
  truthy old_id = true -> truthy result = true ->
  to_key old_id = Some k -> subscript result "id" = Ok new_id ->
  store_id_mapping table_name old_id result st
  = (Ok tt, store_id table_name k new_id (ensure_table table_name st)).
Proof.
  intros Ho Hr Hk Hs. unfold store_id_mapping. rewrite Ho, Hr. simpl.
  rewrite run_bind. simpl. rewrite run_bind, Hs. simpl. by rewrite Hk.
Qed.

(** ... and in general: an entry that changes is the entry of [old_id],
    now holding the ['id'] of [result]. *)
Lemma store_id_mapping_entry table_name old_id result st table k :
  let after := (store_id_mapping table_name old_id result st).2 in
  registry_lookup after table k = registry_lookup st table k \/
  (table = table_name /\ to_key old_id = Some k /\
   truthy old_id = true /\ truthy result = true /\
   exists new_id, subscript result "id" = Ok new_id /\
     registry_lookup after table k = Some new_id).
Proof.
  simpl. unfold store_id_mapping.
  destruct (truthy old_id) eqn:Ho; [|by left].
  destruct (truthy result) eqn:Hr; [|by left]. simpl.
  rewrite run_bind. simpl. rewrite run_bind.
  destruct (subscript result "id") as [new_id|e] eqn:Hs; simpl.
  2:{ left. apply registry_lookup_ensure_table. }
  destruct (to_key old_id) as [k0|] eqn:Hk; simpl.
  2:{ left. apply registry_lookup_ensure_table. }
  rewrite registry_lookup_store_id. case_decide as Hd.
  - destruct Hd as [-> ->]. right. eauto 10.
  - left. apply registry_lookup_ensure_table.
Qed.

Lemma store_id_mapping_falsy table_name old_id result st :
  truthy old_id = false ->
  store_id_mapping table_name old_id result st = (Ok tt, st).
Proof. intros Ho. unfold store_id_mapping. by rewrite Ho. Qed.

Lemma store_id_mapping_grows table_name old_id result :
  keeps (W:=W) registry_grows (store_id_mapping table_name old_id result).
Proof.
  intros st table k Hsome.
  destruct (store_id_mapping_entry table_name old_id result st table k)
    as [->|(_ & _ & _ & _ & new_id & _ & ->)]; eauto.
Qed.

Lemma client_update_row_same_ids table_id row_id data :
  keeps (same id_mappings) (client_update_row client table_id row_id data).
Proof.
  intros st. unfold client_update_row. by destruct (update_row _ _ _ _ _).
Qed.

Lemma client_create_row_same_ids table_id data :
  keeps (same id_mappings) (client_create_row client table_id data).
Proof.
  intros st. unfold client_create_row. by destruct (create_row _ _ _ _).
Qed.

Lemma client_clear_table_same_ids table_id :
  keeps (same id_mappings) (client_clear_table client table_id).
Proof.
  intros st. unfold client_clear_table. by destruct (clear_table _ _ _).
Qed.

Lemma handle_relationships_same_ids table_id table_name rels result :
  keeps (same id_mappings)
    (handle_relationships client table_id table_name rels result).
Proof.
  unfold handle_relationships. destruct rels; [keeps_step|].
  destruct (truthy result); [|keeps_step]. keeps_step.
  - eapply keeps_weaken; [|apply map_relationships_to_baserow_reads].
    by intros st st' ->.
  - case_bool_decide; [keeps_step|]. keeps_step; [keeps_step|].
    keeps_step; [apply client_update_row_same_ids|keeps_step].
Qed.

(** After the block "Store ID mapping" the registry is not written
    again while the record is processed. *)
Lemma process_item_registry table_id table_name field_mapping n i items st
    cleaned st1 result w :
  transform_record_data (VDict items) field_mapping table_name st
    = (Ok cleaned, st1) ->
  cleaned <> ∅ ->
  create_row client table_id cleaned (world st1) = (Ok result, w) ->
  id_mappings (process_item client table_id table_name field_mapping n i
                 (VDict items) st).2
  = id_mappings
      (store_id_mapping table_name (default VNone (assoc "Id" items)) result
         (requested w (CreateRow table_id cleaned (Ok result)) st1)).2.
Proof.
  intros Ht Hne Hc.
  destruct (extract_relationships_record items) as [rels Hx].
  rewrite (process_item_with_data _ _ _ _ _ _ _ _ _ _ _ Hx Ht Hne).
  unfold try_except. rewrite (import_record_created _ _ _ _ _ _ _ _ _ _ _ Hc).
  set (created := requested w _ st1). rewrite run_bind.
  destruct (store_id_mapping _ _ _ created) as [[[]|e] st2]; cbn [fst snd].
  - pose proof (handle_relationships_same_ids table_id table_name rels result st2) as Hh.
    unfold same in Hh. rewrite run_bind.
    destruct (handle_relationships _ _ _ _ _ st2) as [[[]|e] st3]; cbn [fst snd] in *.
    + pose proof (count_and_print_same id_mappings n i result
                    ltac:(done) ltac:(done) st3) as Hk.
      unfold same in Hk.
      destruct (bind _ _ st3) as [[[]|e] st4]; cbn [fst snd] in *.
      * by rewrite Hk, Hh.
      * pose proof (error_handler_same id_mappings n i e
                      ltac:(done) ltac:(done) st4) as He.
        unfold same in He. by rewrite He, Hk, Hh.
    + pose proof (error_handler_same id_mappings n i e
                    ltac:(done) ltac:(done) st3) as He.
      unfold same in He. by rewrite He, Hh.
  - pose proof (error_handler_same id_mappings n i e
                  ltac:(done) ltac:(done) st2) as He.
    unfold same in He. by rewrite He.
Qed.
End Registry.

Section RegistryOfARun.
Context {W : Type} (client : BaserowClient W).
Implicit Types st : state W.

Lemma registry_lookup_ext st st' table k :
  id_mappings st' = id_mappings st ->
  registry_lookup st' table k = registry_lookup st table k.
Proof. unfold registry_lookup. by intros ->. Qed.

(** The requests of a record that was created start with its creation. *)
Lemma process_item_calls_created table_id table_name field_mapping n i items
    st cleaned st1 result w :
  transform_record_data (VDict items) field_mapping table_name st
    = (Ok cleaned, st1) ->
  cleaned <> ∅ ->
  create_row client table_id cleaned (world st1) = (Ok result, w) ->
  exists rest,
    calls (process_item client table_id table_name field_mapping n i
             (VDict items) st).2
    = calls st ++ CreateRow table_id cleaned (Ok result) :: rest.
Proof.
  intros Ht Hne Hc.
  pose proof (process_item_served client table_id table_name field_mapping n i
                (VDict items) st) as (new & Hnew & _).
  destruct (extract_relationships_record items) as [rels Hx].
  pose proof (transform_record_data_prints (VDict items) field_mapping table_name st) as Hp.
  rewrite Ht in Hp. apply printed_same_calls in Hp. unfold same in Hp. simpl in Hp.
  rewrite (process_item_with_data _ _ _ _ _ _ _ _ _ _ _ Hx Ht Hne) in Hnew |- *.
  assert (keeps served
            (try_except
               (store_id_mapping table_name (default VNone (assoc "Id" items)) result ;;
                handle_relationships client table_id table_name rels result ;;
                modify (fun st => set_success_count (S (success_count st)) st) ;;
                shown <- lift (get_method result "id") ;;
                print (LRecordSuccess i n shown))
               (fun e =>
                  modify (fun st => set_error_count (S (error_count st)) st) ;;
                  print (LRecordError i n e)))) as Htail.
  { keeps_step.
    - keeps_step.
      { eapply keeps_weaken; [apply same_calls_served|].
        apply store_id_mapping_same_calls. }
      keeps_step; [apply handle_relationships_served|].
      eapply keeps_weaken; [apply same_calls_served|]. keeps_auto.
    - eapply keeps_weaken; [apply same_calls_served|]. keeps_auto. }
  specialize (Htail (requested w (CreateRow table_id cleaned (Ok result)) st1)).
  destruct Htail as (rest & Hrest & _).
  exists rest. unfold try_except in *.
  rewrite (import_record_created _ _ _ _ _ _ _ _ _ _ _ Hc).
  rewrite Hrest. simpl. by rewrite Hp, <- app_assoc.
Qed.

(** What one record does to one entry of the registry: nothing, or the
    record was created and the entry is its own. *)
Lemma process_item_entry table_id table_name field_mapping n i item st table k :
  let after := (process_item client table_id table_name field_mapping n i item st).2 in
  registry_lookup after table k = registry_lookup st table k \/
  (table = table_name /\ id_key item = Some k /\
   exists items old_id cleaned result new_id rest,
     item = VDict items /\ assoc "Id" items = Some old_id /\
     truthy old_id = true /\ truthy result = true /\
     subscript result "id" = Ok new_id /\
     calls after = calls st ++ CreateRow table_id cleaned (Ok result) :: rest /\
     registry_lookup after table k = Some new_id).
Proof.
  simpl.
  destruct item as [| | | | | |items]; try (by left).
  destruct (transform_record_data (VDict items) field_mapping table_name st)
    as [[cleaned|e] st1] eqn:Ht.
  2:{ left. apply registry_lookup_ext.
      pose proof (transform_record_data_prints (VDict items) field_mapping
                    table_name st) as Hp.
      rewrite Ht in Hp. apply printed_frame in Hp as [Hids _].
      unfold process_item, try_except. rewrite run_bind. simpl.
      rewrite run_bind, Ht. done. }
  pose proof (transform_record_data_prints (VDict items) field_mapping
                table_name st) as Hp.
  rewrite Ht in Hp. apply printed_frame in Hp as [Hids _]. simpl in Hids.
  destruct (decide (cleaned = ∅)) as [->|Hne].
  { left. apply registry_lookup_ext.
    unfold process_item, try_except. rewrite run_bind. simpl.
    rewrite run_bind, Ht. done. }
  destruct (create_row client table_id cleaned (world st1)) as [[result|e] w] eqn:Hc.
  2:{ left. apply registry_lookup_ext.
      destruct (extract_relationships_record items) as [rels Hx].
      rewrite (process_item_with_data _ _ _ _ _ _ _ _ _ _ _ Hx Ht Hne).
      unfold try_except, import_record. rewrite run_bind.
      unfold client_create_row at 1. rewrite Hc. done. }
  pose proof (process_item_registry client table_id table_name field_mapping
                n i items st cleaned st1 result w Ht Hne Hc) as Hreg.
  destruct (process_item_calls_created table_id table_name field_mapping
              n i items st cleaned st1 result w Ht Hne Hc) as [rest Hcalls].
  set (created := requested w _ st1) in *.
  destruct (store_id_mapping_entry table_name (default VNone (assoc "Id" items))
              result created table k)
    as [Hsame|(-> & Hk & Ho & Hr & new_id & Hs & Hnew)].
  - left. rewrite (registry_lookup_ext _ _ _ _ Hreg), Hsame.
    by apply registry_lookup_ext.
  - right. split; [done|]. split; [done|].
    destruct (assoc "Id" items) as [old_id|] eqn:Hid; [|done].
    exists items, old_id, cleaned, result, new_id, rest.
    repeat (split; [done|]).
    by rewrite (registry_lookup_ext _ _ _ _ Hreg).
Qed.

Lemma process_item_grows table_id table_name field_mapping n i item :
  keeps registry_grows
    (process_item client table_id table_name field_mapping n i item).
Proof.
  intros st table k Hsome.
  destruct (process_item_entry table_id table_name field_mapping n i item st
              table k) as [->|(_ & _ & H)]; [done|].
  destruct H as (? & ? & ? & ? & ? & ? & _ & _ & _ & _ & _ & _ & ->). eauto.
Qed.

(** Entries are never removed during a run of [import_table_data]. *)
Lemma import_table_data_grows json_file_path table_name dry_run clear :
  keeps registry_grows
    (import_table_data client json_file_path table_name dry_run clear).
Proof.
  assert (forall A (m : M W A), keeps (same id_mappings) m -> keeps registry_grows m)
    as Hsame by (intros A m; apply keeps_weaken, same_ids_grows).
  assert (forall A (m : M W A), keeps printed m -> keeps registry_grows m)
    as Hprinted.
  { intros A m. apply keeps_weaken. intros st st' Hp. apply same_ids_grows.
    by apply printed_frame in Hp as [? _]. }
  unfold import_table_data.
  repeat first
    [ apply Hprinted, create_field_mapping_prints
    | apply Hprinted, print_prints
    | apply Hsame, keeps_modify; intros; reflexivity
    | apply Hsame, client_clear_table_same_ids
    | apply process_item_grows
    | unfold import_loop at 1
    | keeps_step
    | case_match ].
Qed.

(** Records with other identifiers leave the entry of [k] alone. *)
Lemma import_loop_other_ids table_id table_name field_mapping n records start
    table k :
  (forall item, item ∈ records -> id_key item <> Some k) ->
  keeps (same (fun st => registry_lookup st table k))
    (import_loop client table_id table_name field_mapping n records start).
Proof.
  intros Hother. unfold import_loop. apply keeps_for_each_in; [tc_solve|].
  intros i item Hin. keeps_step; [|keeps_step].
  intros st. unfold same.
  destruct (process_item_entry table_id table_name field_mapping n i item st
              table k) as [->|(_ & Hk & _)]; [done|].
  by apply Hother in Hin.
Qed.
End RegistryOfARun.

(** C1 (as amended). The Identifier Registry during a run.
    - A record whose ['Id'] is a true, hashable value [S], once the
      destination has created it and returned a true result with ['id']
      [D]: right after the block "Store ID mapping" the registry maps
      [(T, S)] to [D], and it still does when the processing of the record
      ends.
    - Entries are never removed during [import_table_data].
    - An entry that one record changes or adds is its own: the record was
      created, its ['Id'] is the key, and the entry holds the ['id'] of the
      result; so records with other identifiers leave an absent entry
      absent.
    - A record whose ['Id'] is missing or false (null, 0, empty) is created
      without any entry being written. *)
Theorem identifier_registry
    {W : Type} (client : BaserowClient W) :
  (forall table_id T field_mapping n i items (st st1 : state W) cleaned result w
          S k D,
     transform_record_data (VDict items) field_mapping T st = (Ok cleaned, st1) ->
     cleaned <> ∅ ->
     create_row client table_id cleaned (world st1) = (Ok result, w) ->
     assoc "Id" items = Some S -> truthy S = true -> to_key S = Some k ->
     truthy result = true -> subscript result "id" = Ok D ->
     registry_lookup
       (store_id_mapping T S result
          (requested w (CreateRow table_id cleaned (Ok result)) st1)).2 T k = Some D /\
     registry_lookup
       (process_item client table_id T field_mapping n i (VDict items) st).2 T k
     = Some D) /\
  (forall json_file_path T dry_run clear (st : state W) table k,
     is_Some (registry_lookup st table k) ->
     is_Some (registry_lookup
                (import_table_data client json_file_path T dry_run clear st).2
                table k)) /\
  (forall table_id T field_mapping n i item (st : state W) table k,
     let after := (process_item client table_id T field_mapping n i item st).2 in
     registry_lookup after table k <> registry_lookup st table k ->
     table = T /\ id_key item = Some k /\
     exists items S cleaned result D rest,
       item = VDict items /\ assoc "Id" items = Some S /\
       truthy S = true /\ truthy result = true /\ subscript result "id" = Ok D /\
       calls after = calls st ++ CreateRow table_id cleaned (Ok result) :: rest /\
       registry_lookup after table k = Some D) /\
  (forall table_id T field_mapping n records start (st : state W) table k,
     (forall item, item ∈ records -> id_key item <> Some k) ->
     registry_lookup
       (import_loop client table_id T field_mapping n records start st).2 table k
     = registry_lookup st table k) /\
  (forall table_id T field_mapping n i items (st st1 : state W) cleaned result w,
     transform_record_data (VDict items) field_mapping T st = (Ok cleaned, st1) ->
     cleaned <> ∅ ->
     create_row client table_id cleaned (world st1) = (Ok result, w) ->
     truthy (default VNone (assoc "Id" items)) = false ->
     id_mappings (process_item client table_id T field_mapping n i (VDict items) st).2
     = id_mappings st).
Proof.
  split; [|split; [|split; [|split]]].
  - intros * Ht Hne Hc Hid HS Hk Hr HD.
    pose proof (process_item_registry client table_id T field_mapping n i items
                  st cleaned st1 result w Ht Hne Hc) as Hreg.
    rewrite Hid in Hreg. simpl in Hreg.
    rewrite (registry_lookup_ext _ _ _ _ Hreg).
    rewrite (store_id_mapping_registers _ _ _ _ _ _ HS Hr Hk HD).
    cbn [snd]. rewrite registry_lookup_store_id. by rewrite decide_True.
  - intros *. apply import_table_data_grows.
  - intros * Hchanged.
    destruct (process_item_entry client table_id T field_mapping n i item st
                table k) as [Hsame|H]; [done|]. exact H.
  - intros * Hother. by apply (import_loop_other_ids client).
  - intros * Ht Hne Hc Hfalsy.
    rewrite (process_item_registry client table_id T field_mapping n i items
               st cleaned st1 result w Ht Hne Hc).
    rewrite store_id_mapping_falsy by done. simpl.
    pose proof (transform_record_data_prints (VDict items) field_mapping T st) as Hp.
    rewrite Ht in Hp. by apply printed_frame in Hp as [? _].
Qed.

(** C1 as the specification has it fails twice.  A record with row
    identifier 0 is created (one creation request, answered with row 100,
    and counted as a success) and yet [(Location, 0)] has no entry
    afterwards; and when a second record repeats the identifier of the
    first, the entry is there before the second record is created. *)
Lemma identifier_registry_counterexample :
  (let after :=
     (process_item Demo.client 703 "Location" Demo.location_mapping 1 1
        Demo.accra Demo.start).2 in
   calls after
   = [CreateRow 703 {[ "field_1" := VStr "Accra" ]} (Ok (VDict [("id", VInt 100)]))] /\
   success_count after = 1%nat /\
   registry_lookup after "Location" (KInt 0) = None) /\
  (let first :=
     (process_item Demo.client 703 "Location" Demo.location_mapping 2 1
        Demo.lagos Demo.start).2 in
   let second :=
     (process_item Demo.client 703 "Location" Demo.location_mapping 2 2
        Demo.lagos_again first).2 in
   registry_lookup first "Location" (KInt 1) = Some (VInt 100) /\
   registry_lookup second "Location" (KInt 1) = Some (VInt 101)).
Proof. vm_compute. repeat split. Qed.

(** ** Field identifiers: [f"field_{n}"] and back *)

Section FieldIds.
Local Open Scope string_scope.

Lemma decimal_string_of_uint d :
  Py.all_chars Py.is_decimal (NilEmpty.string_of_uint d) = true.
Proof. induction d; simpl; by rewrite ?IHd. Qed.

Lemma all_chars_impl (p q : ascii -> bool) s :
  (forall c, p c = true -> q c = true) ->
  Py.all_chars p s = true -> Py.all_chars q s = true.
Proof.
  intros Hpq. induction s as [|c s IH]; simpl; [done|].
  intros [Hc Hs]%andb_prop. by rewrite Hpq, IH.
Qed.

Lemma plain_not_space c : plain c = true -> Py.is_space c = false.
Proof. destruct c as [[] [] [] [] [] [] [] []]; by vm_compute. Qed.

Lemma plain_not_f : plain "f" = false.
Proof. reflexivity. Qed.

Lemma lstrip_plain s : Py.all_chars plain s = true -> Py.lstrip s = s.
Proof.
  destruct s as [|c s]; simpl; [done|].
  intros [Hc _]%andb_prop. by rewrite plain_not_space.
Qed.

Lemma rstrip_plain s : Py.all_chars plain s = true -> Py.rstrip s = s.
Proof.
  induction s as [|c s IH]; simpl; [done|].
  intros [Hc Hs]%andb_prop. rewrite IH by done.
  destruct s; [by rewrite plain_not_space|done].
Qed.

Lemma strip_plain s : Py.all_chars plain s = true -> Py.strip s = s.
Proof. intros H. unfold Py.strip. by rewrite lstrip_plain, rstrip_plain. Qed.

(** No occurrence of a word in [f] starts in a string of digits and
    [-]. *)
Lemma prefix_cons_ne a b s1 s2 :
  a <> b -> String.prefix (String a s1) (String b s2) = false.
Proof.
  intros Hne.
  change (String.prefix (String a s1) (String b s2))
    with (if ascii_dec a b then String.prefix s1 s2 else false).
  by destruct (ascii_dec a b).
Qed.

Lemma replace_plain old new s :
  Py.all_chars plain s = true ->
  Py.replace_from (String "f" old) new s 0 = s.
Proof.
  induction s as [|c s IH]; [done|].
  cbn [Py.all_chars Py.replace_from]. intros [Hc Hs]%andb_prop.
  rewrite prefix_cons_ne, IH; [done..|].
  intros <-. by rewrite plain_not_f in Hc.
Qed.

Lemma ungroup_decimal s b :
  Py.all_chars Py.is_decimal s = true ->
  (s = "" -> b = true) ->
  Py.ungroup s b = Some s.
Proof.
  revert b. induction s as [|c s IH]; intros b; simpl.
  - intros _ Hb. by rewrite Hb.
  - intros [Hc Hs]%andb_prop _.
    assert (Ascii.eqb c "_" = false) as ->.
    { destruct c as [[] [] [] [] [] [] [] []]; by vm_compute. }
    rewrite Hc, IH; done.
Qed.

Lemma string_of_uint_nonempty d : d <> Nil -> NilEmpty.string_of_uint d <> "".
Proof. by destruct d. Qed.

Lemma nat_literal_string_of_uint d :
  d <> Nil ->
  Py.nat_literal (NilEmpty.string_of_uint d) = Some (Z.of_uint d).
Proof.
  intros Hd. unfold Py.nat_literal.
  rewrite ungroup_decimal;
    [|apply decimal_string_of_uint
     |by intros ?%string_of_uint_nonempty].
  simpl. by rewrite NilEmpty.usu.
Qed.

Lemma plain_str_of_int n : Py.all_chars plain (Py.str_of_int n) = true.
Proof.
  unfold Py.str_of_int.
  destruct (Z.to_int n) as [d|d]; simpl;
    (eapply all_chars_impl; [|apply decimal_string_of_uint]);
    intros c Hc; unfold plain; by rewrite Hc.
Qed.

Lemma to_int_nonnil n :
  match Z.to_int n with Decimal.Pos d | Decimal.Neg d => d <> Nil end.
Proof.
  destruct n as [|p|p]; simpl; [done| |];
    apply DecimalPos.Unsigned.to_uint_nonnil.
Qed.

(** [int(str(n)) == n] *)
Lemma int_of_str_of_int n : Py.int_of_str (Py.str_of_int n) = Ok n.
Proof.
  unfold Py.int_of_str. rewrite strip_plain by apply plain_str_of_int.
  pose proof (DecimalZ.of_to n) as Hn. pose proof (to_int_nonnil n) as Hd.
  unfold Py.str_of_int. destruct (Z.to_int n) as [d|d]; simpl in *.
  - assert (match NilEmpty.string_of_uint d with
            | String "-" s' => Z.opp <$> Py.nat_literal s'
            | String "+" s' => Py.nat_literal s'
            | s' => Py.nat_literal s'
            end = Py.nat_literal (NilEmpty.string_of_uint d)) as ->
      by (by destruct d).
    rewrite nat_literal_string_of_uint by done. by rewrite <- Hn.
  - rewrite nat_literal_string_of_uint by done. by rewrite <- Hn.
Qed.

Lemma prefix_append p s : String.prefix p (p +:+ s) = true.
Proof.
  induction p as [|c p IH]; [by destruct s|].
  change (String.prefix (String c p) (String c p +:+ s))
    with (if ascii_dec c c then String.prefix p (p +:+ s) else false).
  destruct (ascii_dec c c) as [_|Hne]; [exact IH|by destruct Hne].
Qed.

Lemma replace_from_skip old new s1 s2 :
  Py.replace_from old new (s1 +:+ s2) (String.length s1)
  = Py.replace_from old new s2 0.
Proof. induction s1 as [|c s1 IH]; [done|]. exact IH. Qed.

(** An occurrence at the head is replaced. *)
Lemma replace_head c old new s :
  Py.replace_from (String c old) new (String c old +:+ s) 0
  = new +:+ Py.replace_from (String c old) new s 0.
Proof.
  change (String c old +:+ s) with (String c (old +:+ s)).
  cbn [Py.replace_from].
  change (String c (old +:+ s)) with (String c old +:+ s).
  rewrite prefix_append.
  change (String.length (String c old) - 1)%nat with (String.length old - 0)%nat.
  by rewrite Nat.sub_0_r, replace_from_skip.
Qed.

(** [int(f"field_{n}".replace('field_', '')) == n] *)
Lemma field_number n :
  Py.int_of_str (Py.replace "field_" "" (field_ n)) = Ok n.
Proof.
  unfold field_, Py.replace. rewrite replace_head.
  rewrite replace_plain by apply plain_str_of_int.
  apply int_of_str_of_int.
Qed.

Lemma field_inj n m : field_ n = field_ m -> n = m.
Proof.
  intros H. pose proof (field_number n) as Hn. rewrite H, field_number in Hn.
  by injection Hn.
Qed.
End FieldIds.

(** ** Link fields and the plain-field path *)

Lemma unique_field_id (fields : list FieldInfo.t) f g :
  NoDup (FieldInfo.id <$> fields) ->
  f ∈ fields -> g ∈ fields -> FieldInfo.id f = FieldInfo.id g -> f = g.
Proof.
  induction fields as [|h fields IH]; [by intros _ ?%elem_of_nil|].
  rewrite fmap_cons. intros [Hh Hnd]%list.NoDup_cons Hf Hg Hid.
  apply elem_of_cons in Hf as [->|Hf]; apply elem_of_cons in Hg as [->|Hg].
  - done.
  - destruct Hh. rewrite Hid. by apply list_elem_of_fmap_2.
  - destruct Hh. rewrite <- Hid. by apply list_elem_of_fmap_2.
  - by apply IH.
Qed.

Section LinkFields.
Context {W : Type}.
Implicit Types st : state W.

(** The identifier the loop of [transform_record_data] writes to, if it
    writes, is not that of a link field. *)
Lemma transform_field_no_link field_mapping table_name cleaned item st schema
    cleaned' st' :
  table_schemas st !! table_name = Some schema ->
  NoDup (FieldInfo.id <$> TableSchema.fields schema) ->
  transform_field field_mapping table_name cleaned item st = (Ok cleaned', st') ->
  forall field,
    field ∈ TableSchema.fields schema -> FieldInfo.type field = "link_row" ->
    cleaned !! field_ (FieldInfo.id field) = None ->
    cleaned' !! field_ (FieldInfo.id field) = None.
Proof.
  intros Hschema Hnd Hrun field Hin Hlink Hclean.
  destruct item as [json_field v]. unfold transform_field in Hrun.
  destruct (_ || _ || _); [by injection Hrun as <- _|].
  rewrite run_bind in Hrun. unfold gets at 1 in Hrun. rewrite Hschema in Hrun.
  rewrite run_bind in Hrun.
  (* once the identifier is chosen: it is written to, or nothing is *)
  assert (forall (field_id : string) (s s' : state W),
            field_id <> field_ (FieldInfo.id field) ->
            bind (_transform_value v json_field)
              (fun transformed_value =>
                 match transformed_value with
                 | Some transformed_value =>
                     ret (<[field_id := transformed_value]> cleaned)
                 | None => ret cleaned
                 end) s = (Ok cleaned', s') ->
            cleaned' !! field_ (FieldInfo.id field) = None) as Hwrite.
  { intros field_id s s' Hne. rewrite run_bind.
    destruct (_transform_value v json_field s) as [[[tv|]|e] s1]; [| |done];
      intros [= <- _]; [|done].
    by rewrite lookup_insert_ne. }
  destruct (field_mapping !! json_field) as [field_id|] eqn:Hmap.
  - rewrite run_bind in Hrun. unfold lift at 1 in Hrun.
    destruct (Py.int_of_str _) as [number|e] eqn:Hnum; [|done].
    destruct (find _ _) as [field_info|] eqn:Hfind.
    + apply find_some in Hfind as [Hfi Hid]. apply Z.eqb_eq in Hid.
      apply list_elem_of_In in Hfi.
      destruct (String.eqb _ _) eqn:Htype; [by injection Hrun as <- _|].
      apply (Hwrite field_id st st'); [|exact Hrun].
      intros ->. rewrite field_number in Hnum. injection Hnum as <-.
      assert (field_info = field) as -> by by eapply unique_field_id.
      apply String.eqb_neq in Htype. done.
    + apply (Hwrite field_id st st'); [|exact Hrun].
      intros ->. rewrite field_number in Hnum. injection Hnum as <-.
      eapply find_none in Hfind; [|by apply list_elem_of_In].
      by rewrite Z.eqb_refl in Hfind.
  - unfold TableSchema.get_field_by_name in Hrun.
    destruct (find _ _) as [field_info|] eqn:Hfind.
    + apply find_some in Hfind as [Hfi _]. apply list_elem_of_In in Hfi.
      destruct (String.eqb _ _) eqn:Htype; [by injection Hrun as <- _|].
      apply (Hwrite (field_ (FieldInfo.id field_info)) st st'); [|exact Hrun].
      intros Heq%field_inj.
      assert (field_info = field) as -> by by eapply unique_field_id.
      apply String.eqb_neq in Htype. done.
    + destruct (_ && _ && _); by injection Hrun as <- _.
Qed.
End LinkFields.

(** C5. The plain-field path never writes a link field.  The schema of the
    table having its field identifiers distinct, the data
    [transform_record_data] returns has no entry under the identifier of a
    field of type [link_row] -- whether the source field is in the static
    mapping or matched by name. *)
Theorem link_fields_never_written
    {W : Type} (record : value) (field_mapping : gmap string string)
    (table_name : string) (st st' : state W) (schema : TableSchema.t)
    (cleaned_data : gmap string value) (field : FieldInfo.t) :
  table_schemas st !! table_name = Some schema ->
  NoDup (FieldInfo.id <$> TableSchema.fields schema) ->
  transform_record_data record field_mapping table_name st = (Ok cleaned_data, st') ->
  field ∈ TableSchema.fields schema ->
  FieldInfo.type field = "link_row" ->
  cleaned_data !! field_ (FieldInfo.id field) = None.
Proof.
  intros Hschema Hnd Hrun Hin Hlink.
  unfold transform_record_data in Hrun. rewrite run_bind in Hrun.
  destruct (items_method record) as [items|e]; [|done]. simpl in Hrun.
  apply (for_each_invariant
           (fun (cleaned : gmap string value) s =>
              table_schemas s = table_schemas st /\
              cleaned !! field_ (FieldInfo.id field) = None))
    in Hrun; [by destruct Hrun| |done].
  intros cleaned item s cleaned' s' _ [Hs Hclean] Hstep. split.
  - pose proof (transform_field_prints field_mapping table_name cleaned item s) as Hp.
    rewrite Hstep in Hp. apply printed_frame in Hp as (_ & Ht & _). simpl in Ht.
    congruence.
  - eapply transform_field_no_link; [by rewrite Hs|done..].
Qed.

(** ** Metadata keys *)

Lemma for_each_without {W : Type} {A B} (p : A -> bool) (l : list A)
    (body : B -> A -> M W B) acc (st : state W) :
  (forall b x s, p x = false -> body b x s = (Ok b, s)) ->
  for_each l body acc st = for_each (List.filter p l) body acc st.
Proof.
  intros Hskip. revert acc st. induction l as [|x l IH]; intros acc st; [done|].
  simpl. destruct (p x) eqn:Hp.
  - rewrite for_each_cons, !run_bind.
    destruct (body acc x st) as [[b|e] s]; [apply IH|done].
  - rewrite run_bind, Hskip by done. apply IH.
Qed.

Lemma transform_field_skips {W : Type} field_mapping table_name cleaned
    json_field v (st : state W) :
  mem json_field skip_fields = true ->
  transform_field field_mapping table_name cleaned (json_field, v) st
  = (Ok cleaned, st).
Proof.
  intros Hskip. unfold transform_field. rewrite Hskip.
  by rewrite orb_true_r.
Qed.

Lemma clean_item_skips acc key v :
  mem key putData_enhanced.skip_fields = true ->
  putData_enhanced.clean_item acc (key, v) = acc.
Proof.
  intros Hskip. unfold putData_enhanced.clean_item. destruct acc.
  by rewrite Hskip.
Qed.

Lemma fold_left_without {A B} (p : A -> bool) (f : B -> A -> B) (l : list A) acc :
  (forall b x, p x = false -> f b x = b) ->
  fold_left f l acc = fold_left f (List.filter p l) acc.
Proof.
  intros Hskip. revert acc. induction l as [|x l IH]; intros acc; [done|].
  simpl. destruct (p x) eqn:Hp; simpl; [apply IH|].
  rewrite Hskip by done. apply IH.
Qed.

(** C6 (as amended). Metadata dropping.  In the orchestrator the keys
    ['CreatedAt'], ['UpdatedAt'] and ['Id'] of a record contribute nothing:
    [transform_record_data] returns, prints and leaves what it would
    without them.  The larger set, with the computed and count fields, is
    the one of [clean_data_for_baserow] in [putData_enhanced.py], which
    returns what it would without the keys of that set. *)
Theorem metadata_keys_dropped
    {W : Type} (items : list (string * value)) (field_mapping : gmap string string)
    (table_name : string) (st : state W) :
  transform_record_data (VDict items) field_mapping table_name st
  = transform_record_data (VDict (without_keys skip_fields items))
      field_mapping table_name st /\
  putData_enhanced.clean_data_for_baserow (VDict items) table_name
  = putData_enhanced.clean_data_for_baserow
      (VDict (without_keys putData_enhanced.skip_fields items)) table_name.
Proof.
  split.
  - unfold transform_record_data. rewrite !run_bind. simpl.
    apply for_each_without. intros b [k v] s Hk.
    apply transform_field_skips. by apply negb_false_iff in Hk.
  - unfold putData_enhanced.clean_data_for_baserow. simpl. f_equal.
    apply fold_left_without. intros b [k v] Hk.
    apply clean_item_skips. by apply negb_false_iff in Hk.
Qed.

(** C6 as the specification has it fails in the orchestrator: ['roles'], a
    count field of the fixed set, is written to the destination field of
    that name, and ['location'], another key of the set, is the static
    source of the primary field of [Location]. *)
Lemma metadata_keys_counterexample :
  mem "roles" putData_enhanced.skip_fields = true /\
  (transform_record_data Demo.ada Demo.people_mapping "People" Demo.start).1
  = Ok {[ "field_30" := VStr "Ada"; "field_31" := VStr "2" ]} /\
  mem "location" putData_enhanced.skip_fields = true /\
  (transform_record_data Demo.lagos Demo.location_mapping "Location" Demo.start).1
  = Ok {[ "field_1" := VStr "Lagos"; "field_2" := VStr "port city" ]}.
Proof. vm_compute. repeat split. Qed.

(** ** Null and empty values *)

Section NullValues.
Context {W : Type}.
Implicit Types st : state W.

Lemma _transform_value_null v field_name st :
  null_or_empty v -> _transform_value v field_name st = (Ok None, st).
Proof. by intros [-> | ->]. Qed.

Lemma _transform_value_some v field_name st x st' :
  _transform_value v field_name st = (Ok (Some x), st') -> ~ null_or_empty v.
Proof. intros Hrun Hnull. by rewrite _transform_value_null in Hrun. Qed.

Lemma DataTransformer_transform_value_null float v field_info st :
  null_or_empty v ->
  DataTransformer._transform_value float v field_info st = (Ok None, st).
Proof. by intros [-> | ->]. Qed.

(** One item of the record leaves [cleaned_data] as it is, or writes a
    value that is not null under the destination of its field. *)
Lemma transform_field_writes field_mapping table_name cleaned json_field v st
    cleaned' st' :
  transform_field field_mapping table_name cleaned (json_field, v) st
    = (Ok cleaned', st') ->
  cleaned' = cleaned \/
  exists field_id x,
    destination st field_mapping table_name json_field = Some field_id /\
    ~ null_or_empty v /\
    cleaned' = <[field_id := x]> cleaned.
Proof.
  unfold transform_field, destination.
  destruct (_ || _ || _); [intros [= <- _]; by left|].
  rewrite run_bind. unfold gets at 1.
  assert (forall (field_id : string) (s s' : state W),
            bind (_transform_value v json_field)
              (fun transformed_value =>
                 match transformed_value with
                 | Some transformed_value =>
                     ret (<[field_id := transformed_value]> cleaned)
                 | None => ret cleaned
                 end) s = (Ok cleaned', s') ->
            cleaned' = cleaned \/
            exists x, ~ null_or_empty v /\ cleaned' = <[field_id := x]> cleaned)
    as Hwrite.
  { intros field_id s s'. rewrite run_bind.
    destruct (_transform_value v json_field s) as [[[tv|]|e] s1] eqn:Htv;
      [| |done]; intros [= <- _]; [right|by left].
    exists tv. split; [|done]. by eapply _transform_value_some. }
  rewrite run_bind.
  destruct (field_mapping !! json_field) as [field_id|].
  - assert (forall s s' : state W,
              (match (Ok (Some field_id) : outcome (option string), s) with
               | (Ok a, st'0) =>
                   match a with
                   | Some field_id =>
                       transformed_value <- _transform_value v json_field ;;
                       match transformed_value with
                       | Some transformed_value =>
                           ret (<[field_id := transformed_value]> cleaned)
                       | None => ret cleaned
                       end
                   | None => ret cleaned
                   end st'0
               | (Raise e, st'0) => (Raise e, st'0)
               end) = (Ok cleaned', s') ->
              cleaned' = cleaned \/
              exists field_id0 x,
                Some field_id = Some field_id0 /\ ~ null_or_empty v /\
                cleaned' = <[field_id0 := x]> cleaned) as Hchosen.
    { intros s s' [Hsame|(x & ? & ?)]%Hwrite; [by left|right; eauto]. }
    destruct (table_schemas st !! table_name) as [schema|]; [|apply Hchosen].
    rewrite run_bind. unfold lift at 1.
    destruct (Py.int_of_str _); [|done].
    destruct (find _ _) as [field_info|]; [|apply Hchosen].
    destruct (String.eqb _ _); [intros [= <- _]; by left|apply Hchosen].
  - destruct (table_schemas st !! table_name) as [schema|]; simpl;
      [|intros [= <- _]; by left].
    destruct (TableSchema.get_field_by_name schema json_field) as [field_info|];
      simpl.
    + destruct (String.eqb _ _); [intros [= <- _]; by left|].
      intros [Hsame|(x & ? & ?)]%Hwrite; [by left|right; eauto].
    + destruct (_ && _ && _); intros [= <- _]; by left.
Qed.

(** A field identifier in the data of the orchestrator was written for a
    source field that goes to it, of a value that is not null. *)
Lemma transform_record_data_written items field_mapping table_name st
    cleaned st' field_id :
  transform_record_data (VDict items) field_mapping table_name st
    = (Ok cleaned, st') ->
  is_Some (cleaned !! field_id) ->
  exists json_field v,
    (json_field, v) ∈ items /\
    destination st field_mapping table_name json_field = Some field_id /\
    ~ null_or_empty v.
Proof.
  unfold transform_record_data. rewrite run_bind. simpl. intros Hrun.
  apply (for_each_invariant
           (fun (cleaned : gmap string value) s =>
              table_schemas s = table_schemas st /\
              (is_Some (cleaned !! field_id) ->
               exists json_field v,
                 (json_field, v) ∈ items /\
                 destination st field_mapping table_name json_field = Some field_id /\
                 ~ null_or_empty v)))
    in Hrun; [by destruct Hrun| |].
  2:{ split; [done|]. rewrite lookup_empty. by intros [? ?]. }
  intros b [json_field v] s b' s' Hin [Hs Hb] Hstep. split.
  - pose proof (transform_field_prints field_mapping table_name b
                  (json_field, v) s) as Hp.
    rewrite Hstep in Hp. apply printed_frame in Hp as (_ & Ht & _).
    simpl in Ht. congruence.
  - apply transform_field_writes in Hstep as [->|(fid & x & Hd & Hv & ->)];
      [done|].
    destruct (decide (fid = field_id)) as [->|Hne].
    + intros _. exists json_field, v. split; [done|]. split; [|done].
      unfold destination in *. by rewrite <- Hs.
    + by rewrite lookup_insert_ne.
Qed.
End NullValues.

Section NullValuesComponent.
Context {W : Type} (float : value -> outcome pyfloat).
Implicit Types st : state W.

(** A field identifier in the data of [DataTransformer.transform_record]
    was written for a source field mapped to it whose value transformed
    to something other than [None]. *)
Lemma transform_record_written items field_mapping schema st cleaned rels st'
    field_id :
  DataTransformer.transform_record float (VDict items) field_mapping schema st
    = (Ok (cleaned, rels), st') ->
  is_Some (cleaned !! field_id) ->
  exists json_field v field_info (s s' : state W) x,
    (json_field, v) ∈ items /\
    field_mapping !! json_field = Some field_id /\
    DataTransformer._get_field_info_by_id schema field_id = Ok field_info /\
    DataTransformer._transform_value float v field_info s = (Ok (Some x), s').
Proof.
  unfold DataTransformer.transform_record. rewrite run_bind. simpl.
  rewrite run_bind.
  destruct (for_each items _ _ st) as [[a|e] s1] eqn:Hloop; [|done].
  intros Hrun.
  assert (cleaned = DataTransformer.cleaned_data a) as ->.
  { rewrite run_bind in Hrun.
    destruct (DataTransformer.errors a); simpl in Hrun; by injection Hrun. }
  clear Hrun.
  revert Hloop.
  apply (for_each_invariant
           (fun (a : DataTransformer.acc) (_ : state W) =>
              is_Some (DataTransformer.cleaned_data a !! field_id) ->
              exists json_field v field_info (s s' : state W) x,
                (json_field, v) ∈ items /\
                field_mapping !! json_field = Some field_id /\
                DataTransformer._get_field_info_by_id schema field_id
                  = Ok field_info /\
                DataTransformer._transform_value float v field_info s
                  = (Ok (Some x), s'))).
  2:{ simpl. rewrite lookup_empty. by intros [? ?]. }
  intros b [json_field v] s b' s' Hin Hb.
  destruct (Py.startswith json_field "_nc_m2m_"); [by intros [= <- _]|].
  destruct (field_mapping !! json_field) as [fid|] eqn:Hmap; [|by intros [= <- _]].
  rewrite run_bind. unfold lift at 1.
  destruct (DataTransformer._get_field_info_by_id schema fid) as [fi|e] eqn:Hfi;
    [|done].
  unfold try_except. rewrite run_bind.
  destruct (DataTransformer._transform_value float v fi s) as [[[x|]|e] s2] eqn:Hv;
    intros [= <- _]; simpl; try done.
  destruct (decide (fid = field_id)) as [->|Hne].
  - intros _. exists json_field, v, fi, s, s2, x. done.
  - by rewrite lookup_insert_ne.
Qed.
End NullValuesComponent.

(** C9. Null and empty values are omitted, not sent empty.  Both
    [_transform_value] give [None] for [None] and for the empty string.  In
    the orchestrator, a destination field all of whose source fields in the
    record are [None] or empty is absent from the data that is created; in
    [DataTransformer.transform_record], so is a destination field all of
    whose source fields transform to [None]. *)
Theorem null_and_empty_values_omitted
    {W : Type} (float : value -> outcome pyfloat) :
  (forall v field_name field_info (st : state W),
     null_or_empty v ->
     _transform_value v field_name st = (Ok None, st) /\
     DataTransformer._transform_value float v field_info st = (Ok None, st)) /\
  (forall items field_mapping table_name (st st' : state W) cleaned field_id,
     transform_record_data (VDict items) field_mapping table_name st
       = (Ok cleaned, st') ->
     (forall json_field v,
        (json_field, v) ∈ items ->
        destination st field_mapping table_name json_field = Some field_id ->
        null_or_empty v) ->
     cleaned !! field_id = None) /\
  (forall items field_mapping schema (st st' : state W) cleaned rels field_id,
     DataTransformer.transform_record float (VDict items) field_mapping schema st
       = (Ok (cleaned, rels), st') ->
     (forall json_field v field_info (s : state W),
        (json_field, v) ∈ items ->
        field_mapping !! json_field = Some field_id ->
        DataTransformer._get_field_info_by_id schema field_id = Ok field_info ->
        (DataTransformer._transform_value float v field_info s).1 = Ok None) ->
     cleaned !! field_id = None).
Proof.
  split; [|split].
  - intros * Hnull. split.
    + by apply _transform_value_null.
    + by apply DataTransformer_transform_value_null.
  - intros * Hrun Hall.
    destruct (cleaned !! field_id) as [x|] eqn:Hx; [|done].
    destruct (transform_record_data_written _ _ _ _ _ _ field_id Hrun)
      as (json_field & v & Hin & Hd & Hv); [by rewrite Hx|].
    destruct Hv. by eapply Hall.
  - intros * Hrun Hall.
    destruct (cleaned !! field_id) as [x|] eqn:Hx; [|done].
    destruct (transform_record_written float _ _ _ _ _ _ _ field_id Hrun)
      as (json_field & v & fi & s & s' & y & Hin & Hm & Hfi & Hv); [by rewrite Hx|].
    specialize (Hall json_field v fi s Hin Hm Hfi). by rewrite Hv in Hall.
Qed.

(** ** Dates *)

(** C3. The date contract is not met by [_normalize_date] of the
    orchestrator: ["TBD"] and ["not-a-date"] have none of the three shapes,
    yet the first gives the empty string and the second is returned as it
    is, with no diagnostic; [DataTransformer._normalize_date] gives [None]
    for both and prints the diagnostic. *)
Theorem normalize_date_accepts_non_dates {W : Type} (st : state W) :
  _normalize_date (VStr "TBD") st = (Ok (Some ""), st) /\
  _normalize_date (VStr "not-a-date") st = (Ok (Some "not-a-date"), st) /\
  DataTransformer._normalize_date (VStr "TBD") st
  = (Ok None, set_stdout (stdout st ++ [LInvalidDate "TBD"]) st) /\
  DataTransformer._normalize_date (VStr "not-a-date") st
  = (Ok None, set_stdout (stdout st ++ [LInvalidDate "not-a-date"]) st).
Proof. repeat split. Qed.

Section DateHeuristic.
Context {W : Type}.
Implicit Types st : state W.

(** A field with a date-like name goes through [_normalize_date],
    whatever the type of the destination field: the type is not even
    looked at. *)
Lemma date_named_field_normalized v field_name st :
  _is_date_field field_name = true -> ~ null_or_empty v ->
  _transform_value v field_name st
  = (d <- _normalize_date v ;; ret (VStr <$> d)) st.
Proof.
  intros Hdate Hv. unfold _transform_value. rewrite Hdate.
  destruct v as [| | | |[|c s]| |];
    first [ done | destruct Hv; by left | destruct Hv; by right ].
Qed.

(** A field with another name never does: its value is kept, as a
    [bool] or as its [str]. *)
Lemma other_field_not_normalized v field_name st :
  _is_date_field field_name = false -> ~ null_or_empty v ->
  _transform_value v field_name st
  = (Ok (Some (if is_bool v then v else VStr (str v))), st).
Proof.
  intros Hdate Hv. unfold _transform_value. rewrite Hdate.
  destruct v as [| | | |[|c s]| |];
    first [ done | destruct Hv; by left | destruct Hv; by right ].
Qed.
End DateHeuristic.

(** C10. The name heuristic sends every value of a date-named field
    through [_normalize_date], and there the claim fails: the role whose
    ['start_date'] is ["TBD"] is created with the empty string in the date
    field instead of without the field. *)
Theorem date_named_field_keeps_non_date :
  _is_date_field "start_date" = true /\
  (transform_record_data Demo.director Demo.role_mapping "Role" Demo.start).1
  = Ok {[ "field_20" := VStr "Director"; "field_21" := VStr "" ]}.
Proof. vm_compute. repeat split. Qed.

(** ** The theorems at work on the small destination *)

Lemma empty_record_counts_as_error_witness :
  transform_record_data Demo.unmapped Demo.role_mapping "Role" Demo.start
  = (Ok ∅, Demo.start) /\
  calls (process_item Demo.client 704 "Role" Demo.role_mapping 1 1
           Demo.unmapped Demo.start).2 = [] /\
  error_count (process_item Demo.client 704 "Role" Demo.role_mapping 1 1
                 Demo.unmapped Demo.start).2 = 1%nat.
Proof.
  assert (transform_record_data Demo.unmapped Demo.role_mapping "Role" Demo.start
          = (Ok ∅, Demo.start)) as H by (vm_compute; reflexivity).
  split; [exact H|].
  pose proof (empty_record_counts_as_error Demo.client 704 "Role"
                Demo.role_mapping 1 1 Demo.unmapped [] Demo.start Demo.start H)
    as (_ & Hcalls & _ & Herrors & _).
  exact (conj Hcalls Herrors).
Defined.

Lemma dry_run_makes_no_request_witness :
  let after :=
    import_table_data Demo.client "Location_data.json" "Location" true true
      Demo.start in
  calls after.2 = [] /\
  id_mappings after.2 = ∅ /\
  after.1 = Ok true /\
  stdout after.2 = [LProcessing "Location"; LFound 1; LDryRun].
Proof.
  pose proof (dry_run_makes_no_request Demo.client "Location_data.json"
                "Location" true Demo.start 703 (VList [Demo.lagos])
                (VList [Demo.lagos]) [Demo.lagos]
                ltac:(reflexivity) ltac:(discriminate) ltac:(reflexivity)
                ltac:(reflexivity) ltac:(reflexivity))
    as (Hcalls & _ & Hids & _ & Hret & Hout).
  exact (conj Hcalls (conj Hids (conj Hret Hout))).
Defined.

Lemma link_fields_never_written_witness :
  transform_record_data Demo.pipeline Demo.infrastructure_mapping
    "Infrastructure" Demo.start
  = (Ok {[ "field_10" := VStr "Pipeline" ]}, Demo.start) /\
  ({[ "field_10" := VStr "Pipeline" ]} : gmap string value) !! field_ 11 = None.
Proof.
  assert (transform_record_data Demo.pipeline Demo.infrastructure_mapping
            "Infrastructure" Demo.start
          = (Ok {[ "field_10" := VStr "Pipeline" ]}, Demo.start)) as Hrun
    by (vm_compute; reflexivity).
  split; [exact Hrun|].
  apply (link_fields_never_written Demo.pipeline Demo.infrastructure_mapping
           "Infrastructure" Demo.start Demo.start
           (TableSchema.Build 708 "Infrastructure"
              [Demo.field 10 "Name" "text";
               FieldInfo.Build 11 "linked_location" "link_row" false false (Some 703)])
           {[ "field_10" := VStr "Pipeline" ]}
           (FieldInfo.Build 11 "linked_location" "link_row" false false (Some 703))).
  - reflexivity.
  - apply (bool_decide_unpack _). by vm_compute.
  - exact Hrun.
  - simpl. apply elem_of_cons. right. apply elem_of_cons. by left.
  - reflexivity.
Defined.

Lemma null_and_empty_values_omitted_witness :
  transform_record_data Demo.abuja Demo.location_mapping "Location" Demo.start
  = (Ok {[ "field_1" := VStr "Abuja" ]}, Demo.start) /\
  DataTransformer.transform_record Demo.no_float Demo.abuja Demo.location_mapping
    (TableSchema.Build 703 "Location"
       [Demo.field 1 "Name" "text"; Demo.field 2 "notes" "long_text"])
    Demo.start
  = (Ok ({[ "field_1" := VStr "Abuja" ]}, []), Demo.start) /\
  ({[ "field_1" := VStr "Abuja" ]} : gmap string value) !! "field_2" = None.
Proof.
  assert (transform_record_data Demo.abuja Demo.location_mapping "Location"
            Demo.start
          = (Ok {[ "field_1" := VStr "Abuja" ]}, Demo.start)) as Hrun
    by (vm_compute; reflexivity).
  assert (DataTransformer.transform_record Demo.no_float Demo.abuja
            Demo.location_mapping
            (TableSchema.Build 703 "Location"
               [Demo.field 1 "Name" "text"; Demo.field 2 "notes" "long_text"])
            Demo.start
          = (Ok ({[ "field_1" := VStr "Abuja" ]}, []), Demo.start)) as Hcomp
    by (vm_compute; reflexivity).
  split; [exact Hrun|]. split; [exact Hcomp|].
  destruct (null_and_empty_values_omitted (W:=Z) Demo.no_float)
    as (_ & Horchestrator & Hcomponent).
  assert (({[ "field_1" := VStr "Abuja" ]} : gmap string value) !! "field_2" = None)
    as Hcomponent_absent.
  { apply (Hcomponent _ _ _ _ _ _ _ "field_2" Hcomp).
    intros json_field v field_info s Hin Hmap Hfi.
    repeat (apply elem_of_cons in Hin as [[= -> ->]|Hin]; [done|]).
    by apply elem_of_nil in Hin. }
  apply (Horchestrator _ _ _ _ _ _ "field_2" Hrun).
  intros json_field v Hin Hdest.
  repeat (apply elem_of_cons in Hin as [[= -> ->]|Hin]; [first [done|by right]|]).
  by apply elem_of_nil in Hin.
Defined.

(** Scenarios 2 and 3 of the specification: the location of the pipeline
    resolves once the location was imported, and without it the pipeline is
    created and nothing is patched. *)
Lemma best_effort_relationship_resolution_witness :
  (let imported :=
     (process_item Demo.client 703 "Location" Demo.location_mapping 1 1
        Demo.lagos Demo.start).2 in
   map_relationships_to_baserow
     [("_nc_m2m_infrastructure_locations", [VDict [("location_id", VInt 1)]])]
     "Infrastructure" imported
   = (Ok {[ "field_11" := [VInt 100] ]}, imported) /\
   [VInt 100] <> []) /\
  calls (process_item Demo.client 708 "Infrastructure"
           Demo.infrastructure_mapping 1 1 Demo.pipeline Demo.start).2
  = [CreateRow 708 {[ "field_10" := VStr "Pipeline" ]}
       (Ok (VDict [("id", VInt 100)]))].
Proof.
  destruct (best_effort_relationship_resolution Demo.client)
    as (Hresolved & _ & _ & _ & Hcreated).
  split.
  - assert (map_relationships_to_baserow
              [("_nc_m2m_infrastructure_locations", [VDict [("location_id", VInt 1)]])]
              "Infrastructure"
              (process_item Demo.client 703 "Location" Demo.location_mapping 1 1
                 Demo.lagos Demo.start).2
            = (Ok {[ "field_11" := [VInt 100] ]},
               (process_item Demo.client 703 "Location" Demo.location_mapping 1 1
                  Demo.lagos Demo.start).2)) as Hrun
      by (vm_compute; reflexivity).
    split; [exact Hrun|].
    by destruct (Hresolved _ _ _ _ _ Hrun "field_11" [VInt 100] ltac:(reflexivity)).
  - apply (Hcreated 708 "Infrastructure" Demo.infrastructure_mapping 1%nat 1%nat
             [ ("Id", VInt 10); ("infrastructure_name", VStr "Pipeline");
               ("_nc_m2m_infrastructure_locations",
                VList [VDict [("location_id", VInt 1)]]) ]
             [("_nc_m2m_infrastructure_locations", [VDict [("location_id", VInt 1)]])]
             Demo.start Demo.start {[ "field_10" := VStr "Pipeline" ]}
             (VDict [("id", VInt 100)]) 101).
    + reflexivity.
    + by vm_compute.
    + intros H. apply (f_equal (fun m => m !! "field_10")) in H.
      by vm_compute in H.
    + reflexivity.
    + by vm_compute.
Defined.

(** Scenario 1 of the specification: the location is created as row 100
    and the registry maps [(Location, 1)] to 100. *)
Lemma identifier_registry_witness :
  registry_lookup
    (process_item Demo.client 703 "Location" Demo.location_mapping 1 1
       Demo.lagos Demo.start).2 "Location" (KInt 1) = Some (VInt 100) /\
  (forall table k,
     is_Some (registry_lookup Demo.start table k) ->
     is_Some (registry_lookup
                (import_table_data Demo.client "Location_data.json" "Location"
                   false false Demo.start).2 table k)).
Proof.
  destruct (identifier_registry Demo.client) as (Hregistered & Hgrows & _).
  split.
  - apply (Hregistered 703 "Location" Demo.location_mapping 1%nat 1%nat
             [("Id", VInt 1); ("location", VStr "Lagos"); ("notes", VStr "port city")]
             Demo.start Demo.start
             {[ "field_1" := VStr "Lagos"; "field_2" := VStr "port city" ]}
             (VDict [("id", VInt 100)]) 101 (VInt 1) (KInt 1) (VInt 100)).
    + by vm_compute.
    + intros H. apply (f_equal (fun m => m !! "field_1")) in H.
      by vm_compute in H.
    + reflexivity.
    + reflexivity.
    + reflexivity.
    + reflexivity.
    + reflexivity.
    + reflexivity.
  - intros table k. apply Hgrows.
Defined.

(** ** The date contract on the accepted shapes *)

Section DateShapes.
Local Open Scope string_scope.

Lemma decimal_not_T c : Py.is_decimal c = true -> "T"%char <> c.
Proof. destruct c as [[] [] [] [] [] [] [] []]; by vm_compute. Qed.

Lemma decimal_not_dash c : Py.is_decimal c = true -> Ascii.eqb "-" c = false.
Proof. destruct c as [[] [] [] [] [] [] [] []]; by vm_compute. Qed.

Lemma decimal_is_digit c : Py.is_decimal c = true -> Py.is_digit_char c = true.
Proof. intros H. unfold Py.is_digit_char. by rewrite H. Qed.

Lemma contains_cons_ne a c s :
  a <> c -> Py.contains (String a "") (String c s) = Py.contains (String a "") s.
Proof. intros Hne. cbn [Py.contains]. by rewrite prefix_cons_ne. Qed.

Lemma contains_cons_eq a s : Py.contains (String a "") (String a s) = true.
Proof.
  cbn [Py.contains].
  change (String a s) with (String a "" +:+ s). by rewrite prefix_append.
Qed.

Lemma split_head_cons_ne a c s :
  a <> c -> Py.split_head a (String c s) = String c (Py.split_head a s).
Proof.
  intros Hne. cbn [Py.split_head]. by rewrite (proj2 (Ascii.eqb_neq a c)).
Qed.

Lemma split_head_cons_eq a s : Py.split_head a (String a s) = "".
Proof. cbn [Py.split_head]. by rewrite Ascii.eqb_refl. Qed.

(** What a string that starts as a date is made of. *)
Lemma date_prefix_inv s rest :
  date_prefix s = Some rest ->
  exists a b c d e f g h,
    s = String a (String b (String c (String d (String "-" (String e (String f
          (String "-" (String g (String h rest))))))))) /\
    Py.is_decimal a = true /\ Py.is_decimal b = true /\
    Py.is_decimal c = true /\ Py.is_decimal d = true /\
    Py.is_decimal e = true /\ Py.is_decimal f = true /\
    Py.is_decimal g = true /\ Py.is_decimal h = true.
Proof.
  unfold date_prefix.
  destruct s as [|a [|b [|c [|d [|m [|e [|f [|n [|g [|h r]]]]]]]]]]; try done.
  destruct (forallb _ _ && _ && _) eqn:Hok; [|done]. intros [= <-].
  apply andb_prop in Hok as [[Hdec Hm%Ascii.eqb_eq]%andb_prop Hn%Ascii.eqb_eq].
  subst m n. exists a, b, c, d, e, f, g, h. split; [done|].
  cbn [forallb] in Hdec.
  repeat (apply andb_prop in Hdec as [? Hdec]). done.
Qed.

Lemma is_year_inv s :
  is_year s = true ->
  exists a b c d,
    s = String a (String b (String c (String d ""))) /\
    Py.is_decimal a = true /\ Py.is_decimal b = true /\
    Py.is_decimal c = true /\ Py.is_decimal d = true.
Proof.
  unfold is_year. destruct s as [|a [|b [|c [|d [|e r]]]]]; try done.
  cbn [forallb]. intros Hdec. exists a, b, c, d. split; [done|].
  repeat (apply andb_prop in Hdec as [? Hdec]). done.
Qed.

(** X9. The orchestrator meets the contract where the contract accepts. *)
Lemma _normalize_date_accepted {W : Type} v (st : state W) r :
  truthy v = true ->
  date_contract (Py.strip (str v)) = Some r ->
  _normalize_date v st = (Ok (Some r), st).
Proof.
  intros Ht. unfold _normalize_date, date_contract. rewrite Ht. cbn [negb].
  generalize (Py.strip (str v)). intros s.
  destruct (is_year s) eqn:Hyear.
  { apply is_year_inv in Hyear as (a & b & c & d & -> & Ha & Hb & Hc & Hd).
    intros [= <-].
    rewrite !contains_cons_ne by by apply decimal_not_T.
    cbn [Py.contains String.prefix orb String.length Nat.eqb andb Py.isdigit
         Py.all_chars].
    by rewrite !decimal_is_digit. }
  unfold is_datetime, is_date.
  destruct (date_prefix s) as [rest|] eqn:Hprefix; [|done].
  apply date_prefix_inv in Hprefix
    as (a & b & c & d & e & f & g & h & -> & Ha & Hb & Hc & Hd & He & Hf & Hg & Hh).
  destruct rest as [|t rest].
  - intros [= <-].
    rewrite !contains_cons_ne by first [by apply decimal_not_T | done].
    cbn [Py.contains String.prefix orb String.length Nat.eqb andb Py.count_char].
    rewrite (decimal_not_dash a), (decimal_not_dash b), (decimal_not_dash c),
      (decimal_not_dash d), (decimal_not_dash e), (decimal_not_dash f),
      (decimal_not_dash g), (decimal_not_dash h) by done.
    done.
  - destruct (Ascii.eqb_spec t "T") as [->|Hne]; [|done]. intros [= <-].
    rewrite !contains_cons_ne by first [by apply decimal_not_T | done].
    rewrite contains_cons_eq.
    rewrite !split_head_cons_ne by first [by apply decimal_not_T | done].
    by rewrite split_head_cons_eq.
Qed.

Lemma rstrip_no_trailing_space y g c :
  Py.rstrip y = g +:+ String c "" -> Py.is_space c = false.
Proof.
  revert g. induction y as [|x y IH]; intros g; cbn [Py.rstrip].
  - by destruct g.
  - destruct (Py.rstrip y) as [|r0 r] eqn:Hr.
    + destruct (Py.is_space x) eqn:Hx; [by destruct g|].
      destruct g as [|g0 [|g1 g]]; intros [= -> ]; done.
    + destruct g as [|g0 g]; [by intros [= -> ]|].
      intros [= -> Hg]. by eapply IH.
Qed.

Lemma take_chars_take n s : Py.take_chars n (Py.take_chars (S n) s) = Py.take_chars n s.
Proof.
  revert s. induction n as [|n IH]; intros s; [by destruct s|].
  destruct s as [|c s]; [done|]. cbn [Py.take_chars]. f_equal. apply IH.
Qed.

(** Case analysis on the digit tests that are left in the goal. *)
Ltac decimal_cases :=
  repeat match goal with
         | |- context [Py.is_decimal ?c] =>
             destruct (Py.is_decimal c); simpl; try done
         end.

(** [$] after a match: at the end of a stripped string. *)
Lemma dollar_stripped y g rest :
  Py.rstrip y = g +:+ rest ->
  String.eqb rest "" || String.eqb rest (String "010" "") = String.eqb rest "".
Proof.
  intros Hs. destruct (String.eqb_spec rest (String "010" "")) as [->|Hne].
  - by apply rstrip_no_trailing_space in Hs.
  - by rewrite orb_false_r.
Qed.

Lemma re_match_year y :
  DataTransformer.re_match (DataTransformer.Pattern DataTransformer.d4 true)
    (Py.rstrip y)
  = if is_year (Py.rstrip y) then Some (Py.rstrip y) else None.
Proof.
  pose proof (dollar_stripped y) as Hdollar.
  unfold DataTransformer.re_match, is_year.
  destruct (Py.rstrip y) as [|a [|b [|c [|d r]]]]; simpl; decimal_cases;
    try done; try (by destruct r).
  rewrite (Hdollar (String a (String b (String c (String d "")))) r) by done.
  by destruct r.
Qed.

Lemma re_match_date y :
  DataTransformer.re_match (DataTransformer.Pattern DataTransformer.ymd true)
    (Py.rstrip y)
  = if is_date (Py.rstrip y) then Some (Py.rstrip y) else None.
Proof.
  pose proof (dollar_stripped y) as Hdollar.
  unfold DataTransformer.re_match, is_date, date_prefix.
  destruct (Py.rstrip y) as [|a [|b [|c [|d [|m [|e [|f [|n [|g [|h r]]]]]]]]]];
    simpl; decimal_cases; try done; try (by destruct r).
  all: try (destruct (Ascii.eqb_spec m "-") as [->|]; simpl; try done).
  all: try (destruct (Ascii.eqb_spec n "-") as [->|]; simpl; try done).
  all: try (rewrite (Hdollar
              (String a (String b (String c (String d (String "-" (String e
                 (String f (String "-" (String g (String h "")))))))))) r)
              by done; by destruct r).
Qed.

Lemma re_match_datetime s :
  DataTransformer.re_match
    (DataTransformer.Pattern (DataTransformer.ymd ++ [DataTransformer.Lit "T"]) false) s
  = if is_datetime s then Some (Py.take_chars 11 s) else None.
Proof.
  unfold DataTransformer.re_match, is_datetime, date_prefix.
  destruct s as [|a [|b [|c [|d [|m [|e [|f [|n [|g [|h [|t r]]]]]]]]]]];
    simpl; decimal_cases; try done.
  all: try (destruct (Ascii.eqb_spec m "-") as [->|]; simpl; try done).
  all: try (destruct (Ascii.eqb_spec n "-") as [->|]; simpl; try done).
  all: try (destruct (Ascii.eqb_spec t "T") as [->|]; simpl; try done).
Qed.

(** X10. [DataTransformer._normalize_date] is the contract, on the stripped
    string form of a value that counts as true; what has no accepted shape
    gives [None] and the diagnostic. *)
Lemma DataTransformer_normalize_date_contract {W : Type} v (st : state W) :
  truthy v = true ->
  DataTransformer._normalize_date v st
  = match date_contract (Py.strip (str v)) with
    | Some r => (Ok (Some r), st)
    | None => (Ok None, set_stdout (stdout st ++ [LInvalidDate (str v)]) st)
    end.
Proof.
  intros Ht. unfold DataTransformer._normalize_date, date_contract.
  rewrite Ht. cbn [negb]. unfold DataTransformer.date_patterns, Py.strip.
  cbn [DataTransformer.first_match].
  rewrite re_match_year, re_match_datetime, re_match_date.
  generalize (Py.rstrip (Py.lstrip (str v))). intros s.
  destruct (is_year s); [done|].
  destruct (is_datetime s); [by rewrite take_chars_take|].
  destruct (is_date s); done.
Qed.

(** Both give [None], and print nothing, for a value that counts as
    false. *)
Lemma normalize_date_falsy {W : Type} v (st : state W) :
  truthy v = false ->
  _normalize_date v st = (Ok None, st) /\
  DataTransformer._normalize_date v st = (Ok None, st).
Proof.
  intros Ht. unfold _normalize_date, DataTransformer._normalize_date.
  by rewrite Ht.
Qed.
End DateShapes.

(* ===================================================================== *)
(** * More of the orchestrator and of the transformer *)
(* ===================================================================== *)

Section SchemaLookups.

Lemma get_field_by_name_found schema name f :
  TableSchema.get_field_by_name schema name = Some f ->
  f ∈ TableSchema.fields schema /\ folded_name f = Py.lower name.
Proof.
  unfold TableSchema.get_field_by_name. intros H.
  apply find_some in H as [Hin Heq]. split; [by apply list_elem_of_In|].
  by apply String.eqb_eq in Heq.
Qed.

Lemma get_field_by_name_none schema name :
  TableSchema.get_field_by_name schema name = None ->
  forall f, f ∈ TableSchema.fields schema -> folded_name f <> Py.lower name.
Proof.
  unfold TableSchema.get_field_by_name. intros H f Hin Heq.
  apply list_elem_of_In in Hin.
  pose proof (find_none _ _ H f Hin) as Hf. simpl in Hf.
  apply String.eqb_neq in Hf. by destruct Hf.
Qed.

Lemma unique_folded_name (fields : list FieldInfo.t) f g :
  NoDup (folded_name <$> fields) ->
  f ∈ fields -> g ∈ fields -> folded_name f = folded_name g -> f = g.
Proof.
  induction fields as [|h fields IH]; [by intros _ ?%elem_of_nil|].
  rewrite fmap_cons. intros [Hh Hnd]%list.NoDup_cons Hf Hg Hid.
  apply elem_of_cons in Hf as [->|Hf]; apply elem_of_cons in Hg as [->|Hg].
  - done.
  - destruct Hh. rewrite Hid. by apply list_elem_of_fmap_2.
  - destruct Hh. rewrite <- Hid. by apply list_elem_of_fmap_2.
  - by apply IH.
Qed.

Lemma get_field_by_name_unique schema name f :
  NoDup (folded_name <$> TableSchema.fields schema) ->
  f ∈ TableSchema.fields schema -> Py.lower name = folded_name f ->
  TableSchema.get_field_by_name schema name = Some f.
Proof.
  intros Hnd Hin Hname.
  destruct (TableSchema.get_field_by_name schema name) as [g|] eqn:Hg.
  - apply get_field_by_name_found in Hg as [Hgin Hgname]. f_equal.
    apply (unique_folded_name (TableSchema.fields schema)); congruence.
  - by destruct (get_field_by_name_none _ _ Hg f Hin).
Qed.

Lemma field_name_to_id_other (fields : list FieldInfo.t) (d : gmap string string) name :
  name ∉ FieldInfo.name <$> fields ->
  fold_left
    (fun (d : gmap string string) field =>
       <[FieldInfo.name field := field_ (FieldInfo.id field)]> d) fields d !! name
  = d !! name.
Proof.
  revert d. induction fields as [|f fields IH]; intros d Hnot; [done|].
  rewrite fmap_cons, not_elem_of_cons in Hnot. destruct Hnot as [Hne Hnot].
  cbn [fold_left]. rewrite IH by done. by rewrite lookup_insert_ne.
Qed.

Lemma field_name_to_id_field (fields : list FieldInfo.t) (d : gmap string string) f :
  NoDup (folded_name <$> fields) -> f ∈ fields ->
  fold_left
    (fun (d : gmap string string) field =>
       <[FieldInfo.name field := field_ (FieldInfo.id field)]> d) fields d
    !! FieldInfo.name f
  = Some (field_ (FieldInfo.id f)).
Proof.
  revert d. induction fields as [|h fields IH]; intros d; [by intros _ ?%elem_of_nil|].
  rewrite fmap_cons. intros [Hh Hnd]%list.NoDup_cons Hin. cbn [fold_left].
  apply elem_of_cons in Hin as [->|Hin]; [|by apply IH].
  rewrite field_name_to_id_other; [by rewrite lookup_insert_eq|].
  intros (g & Hname & Hg)%list_elem_of_fmap. destruct Hh.
  apply list_elem_of_fmap. exists g. split; [|done]. unfold folded_name.
  by rewrite Hname.
Qed.

End SchemaLookups.

(** X1. Looking a field up by name.  When no two fields of the table have the
    same name up to case, [get_field_by_name] finds each field under any
    casing of its name, and [field_name_to_id] gives the identifier of that
    same field under its name. *)
Theorem field_lookup_by_name (schema : TableSchema.t) (f : FieldInfo.t)
    (name : string) :
  NoDup (folded_name <$> TableSchema.fields schema) ->
  f ∈ TableSchema.fields schema ->
  Py.lower name = Py.lower (FieldInfo.name f) ->
  TableSchema.get_field_by_name schema name = Some f /\
  field_name_to_id schema !! FieldInfo.name f = Some (field_ (FieldInfo.id f)).
Proof.
  intros Hnd Hin Hname. split; [by apply get_field_by_name_unique|].
  by apply field_name_to_id_field.
Qed.

Lemma assoc_elem_of {V} k (d : odict V) v : assoc k d = Some v -> (k, v) ∈ d.
Proof.
  induction d as [|[k' v'] d IH]; [done|]. simpl.
  destruct (String.eqb_spec k k') as [->|Hne].
  - intros [= ->]. by left.
  - intros H. right. by apply IH.
Qed.

Lemma assoc_not_in {V} k (d : odict V) : k ∉ d.*1 -> assoc k d = None.
Proof.
  induction d as [|[k' v'] d IH]; [done|]. simpl.
  rewrite not_elem_of_cons. intros [Hne Hnot].
  destruct (String.eqb_spec k k') as [->|_]; [done|]. by apply IH.
Qed.

Lemma assoc_unique {V} k (d : odict V) v :
  NoDup d.*1 -> (k, v) ∈ d -> assoc k d = Some v.
Proof.
  induction d as [|[k' v'] d IH]; [by intros _ ?%elem_of_nil|].
  rewrite fmap_cons. intros [Hk Hnd]%list.NoDup_cons Hin. simpl.
  apply elem_of_cons in Hin as [[= -> ->]|Hin].
  - by rewrite String.eqb_refl.
  - destruct (String.eqb_spec k k') as [->|_]; [|by apply IH].
    destruct Hk. apply list_elem_of_fmap. by exists (k', v).
Qed.

Lemma field_mappings_keys table_name base_mapping :
  assoc table_name field_mappings = Some base_mapping -> NoDup base_mapping.*1.
Proof.
  intros Hin%assoc_elem_of.
  assert (Forall (fun p : string * odict string => NoDup p.2.*1) field_mappings)
    as Hall by (apply (bool_decide_unpack _); by vm_compute).
  rewrite List.Forall_forall in Hall. apply list_elem_of_In in Hin.
  apply (Hall _ Hin).
Qed.

Section FieldMapping.
Context {W : Type}.
Implicit Types st : state W.

Lemma create_field_mapping_loop schema table_name (base_mapping : odict string)
    (acc : gmap string string) st :
  NoDup base_mapping.*1 ->
  exists r st',
    for_each base_mapping
      (fun (field_id_mapping : gmap string string) '(json_field, baserow_field_name) =>
         match TableSchema.get_field_by_name schema baserow_field_name with
         | Some field_info =>
             ret (<[json_field := field_ (FieldInfo.id field_info)]> field_id_mapping)
         | None =>
             print (LFieldNotFound baserow_field_name table_name) ;;
             ret field_id_mapping
         end) acc st = (Ok r, st') /\
    stdout st' =
      stdout st ++
      omap (fun '(_, baserow_field_name) =>
              match TableSchema.get_field_by_name schema baserow_field_name with
              | Some _ => None
              | None => Some (LFieldNotFound baserow_field_name table_name)
              end) base_mapping /\
    forall json_field,
      r !! json_field =
      match assoc json_field base_mapping
              ≫= TableSchema.get_field_by_name schema with
      | Some field_info => Some (field_ (FieldInfo.id field_info))
      | None => acc !! json_field
      end.
Proof.
  revert acc st.
  induction base_mapping as [|[k b] l IH]; intros acc st Hnd.
  { exists acc, st. simpl. by rewrite app_nil_r. }
  rewrite fmap_cons in Hnd. apply list.NoDup_cons in Hnd as [Hk Hnd].
  rewrite for_each_cons, run_bind.
  destruct (TableSchema.get_field_by_name schema b) as [fi|] eqn:Hb.
  - cbn [ret]. destruct (IH (<[k := field_ (FieldInfo.id fi)]> acc) st Hnd)
      as (r & st' & -> & Hout & Hr).
    exists r, st'. split; [done|]. split; [rewrite Hout; simpl; by rewrite Hb|].
    intros json_field. rewrite Hr. cbn [assoc].
    destruct (String.eqb_spec json_field k) as [->|Hne].
    + rewrite assoc_not_in by done. simpl. rewrite Hb. by rewrite lookup_insert_eq.
    + by rewrite lookup_insert_ne.
  - rewrite run_bind. cbn [print modify ret].
    destruct (IH acc (set_stdout (stdout st ++ [LFieldNotFound b table_name]) st) Hnd)
      as (r & st' & -> & Hout & Hr).
    exists r, st'. split; [done|]. split.
    + rewrite Hout. simpl. rewrite Hb. by rewrite <- app_assoc.
    + intros json_field. rewrite Hr. cbn [assoc].
      destruct (String.eqb_spec json_field k) as [->|Hne]; [|done].
      rewrite assoc_not_in by done. simpl. by rewrite Hb.
Qed.

Lemma create_field_mapping_returns table_name st :
  exists field_id_mapping st',
    create_field_mapping table_name st = (Ok field_id_mapping, st').
Proof.
  unfold create_field_mapping. rewrite run_bind. cbn [gets].
  destruct (table_schemas st !! table_name) as [schema|]; [|by eexists _, _].
  assert (NoDup (default [] (assoc table_name field_mappings)).*1) as Hnd.
  { destruct (assoc table_name field_mappings) as [base|] eqn:Hbase.
    - by eapply field_mappings_keys.
    - constructor. }
  destruct (create_field_mapping_loop schema table_name _ ∅ st Hnd)
    as (r & st' & Hrun & _). eauto.
Qed.
End FieldMapping.

Lemma create_field_mapping_run {W : Type} (table_name : string)
    (schema : TableSchema.t) (st : state W) :
  table_schemas st !! table_name = Some schema ->
  exists field_id_mapping out,
    create_field_mapping table_name st
    = (Ok field_id_mapping, set_stdout (stdout st ++ out) st) /\
    (forall json_field,
       field_id_mapping !! json_field =
       (baserow_field_name ← static_field_name table_name json_field;
        field_info ← TableSchema.get_field_by_name schema baserow_field_name;
        Some (field_ (FieldInfo.id field_info)))) /\
    (forall l, l ∈ out <->
       exists json_field baserow_field_name,
         static_field_name table_name json_field = Some baserow_field_name /\
         TableSchema.get_field_by_name schema baserow_field_name = None /\
         l = LFieldNotFound baserow_field_name table_name).
Proof.
  intros Hschema.
  pose proof (create_field_mapping_prints table_name st) as [out Hout].
  unfold create_field_mapping, static_field_name in *.
  rewrite run_bind in *. cbn [gets] in *. rewrite Hschema in *.
  assert (NoDup (default [] (assoc table_name field_mappings)).*1) as Hnd.
  { destruct (assoc table_name field_mappings) as [base|] eqn:Hbase.
    - by eapply field_mappings_keys.
    - constructor. }
  revert Hout Hnd. generalize (assoc table_name field_mappings).
  intros base_mapping Hout Hnd.
  destruct (create_field_mapping_loop schema table_name _ ∅ st Hnd)
    as (r & st' & Hrun & Hprinted & Hr).
  rewrite Hrun in *. cbn [snd] in Hout. subst st'.
  exists r, out. split; [done|].
  cbn [stdout set_stdout] in Hprinted. apply app_inv_head in Hprinted. subst out.
  destruct base_mapping as [base|]; cbn [default from_option id mbind option_bind] in *.
  2:{ split; [intros json_field; rewrite Hr; apply lookup_empty|].
      intros l. split; [simpl; by intros ?%elem_of_nil|]. by intros (? & ? & ? & _). }
  split.
  - intros json_field. rewrite Hr.
    destruct (assoc json_field base) as [b|]; cbn [mbind option_bind];
      [|apply lookup_empty].
    destruct (TableSchema.get_field_by_name schema b); [done|apply lookup_empty].
  - intros l. rewrite list_elem_of_omap. split.
    + intros ([k b] & Hin & Hl).
      destruct (TableSchema.get_field_by_name schema b) eqn:Hb; [done|].
      injection Hl as <-. exists k, b. split; [|done]. by apply assoc_unique.
    + intros (k & b & Hs & Hb & ->).
      exists (k, b). split; [by apply assoc_elem_of|]. by rewrite Hb.
Qed.

(** X2. [create_field_mapping] on a table whose schema is loaded returns, and
    maps a JSON field exactly when the static table names a Baserow field
    for it and the schema has a field of that name, up to case: to the
    identifier of the first such field.  It asks nothing of the destination
    and changes nothing but what is printed: a line for each Baserow field
    name of the static table that the schema does not have. *)
Theorem create_field_mapping_entries {W : Type} (table_name : string)
    (schema : TableSchema.t) (st : state W) :
  table_schemas st !! table_name = Some schema ->
  exists field_id_mapping out,
    create_field_mapping table_name st
    = (Ok field_id_mapping, set_stdout (stdout st ++ out) st) /\
    (forall json_field,
       field_id_mapping !! json_field =
       (baserow_field_name ← static_field_name table_name json_field;
        field_info ← TableSchema.get_field_by_name schema baserow_field_name;
        Some (field_ (FieldInfo.id field_info)))) /\
    (forall l, l ∈ out <->
       exists json_field baserow_field_name,
         static_field_name table_name json_field = Some baserow_field_name /\
         TableSchema.get_field_by_name schema baserow_field_name = None /\
         l = LFieldNotFound baserow_field_name table_name).
Proof. apply create_field_mapping_run. Qed.

(** ** What the plain path sends *)

Section PlainValues.
Context {W : Type}.
Implicit Types st : state W.

Lemma _transform_value_result v field_name st x st' :
  _transform_value v field_name st = (Ok (Some x), st') ->
  if _is_date_field field_name then exists d, x = VStr d
  else x = if is_bool v then v else VStr (str v).
Proof.
  intros Hrun. pose proof (_transform_value_some _ _ _ _ _ Hrun) as Hv.
  destruct (_is_date_field field_name) eqn:Hdate.
  - rewrite date_named_field_normalized in Hrun by done.
    rewrite run_bind in Hrun.
    destruct (_normalize_date v st) as [[[d|]|e] s]; [|done..].
    injection Hrun as <- _. by exists d.
  - rewrite other_field_not_normalized in Hrun by done. by injection Hrun as <- _.
Qed.

(** One item of the record leaves [cleaned_data] as it is, or writes under
    the destination of its field what [_transform_value] made of its
    value. *)
Lemma transform_field_sends field_mapping table_name cleaned json_field v st
    cleaned' st' :
  transform_field field_mapping table_name cleaned (json_field, v) st
    = (Ok cleaned', st') ->
  cleaned' = cleaned \/
  exists field_id x (s s' : state W),
    destination st field_mapping table_name json_field = Some field_id /\
    _transform_value v json_field s = (Ok (Some x), s') /\
    cleaned' = <[field_id := x]> cleaned.
Proof.
  unfold transform_field, destination.
  destruct (_ || _ || _); [intros [= <- _]; by left|].
  rewrite run_bind. unfold gets at 1.
  assert (forall (field_id : string) (s s' : state W),
            bind (_transform_value v json_field)
              (fun transformed_value =>
                 match transformed_value with
                 | Some transformed_value =>
                     ret (<[field_id := transformed_value]> cleaned)
                 | None => ret cleaned
                 end) s = (Ok cleaned', s') ->
            cleaned' = cleaned \/
            exists x (s s' : state W),
              _transform_value v json_field s = (Ok (Some x), s') /\
              cleaned' = <[field_id := x]> cleaned)
    as Hwrite.
  { intros field_id s s'. rewrite run_bind.
    destruct (_transform_value v json_field s) as [[[tv|]|e] s1] eqn:Htv;
      [| |done]; intros [= <- _]; [right|by left].
    by exists tv, s, s1. }
  rewrite run_bind.
  destruct (field_mapping !! json_field) as [field_id|].
  - assert (forall s s' : state W,
              (match (Ok (Some field_id) : outcome (option string), s) with
               | (Ok a, st'0) =>
                   match a with
                   | Some field_id =>
                       transformed_value <- _transform_value v json_field ;;
                       match transformed_value with
                       | Some transformed_value =>
                           ret (<[field_id := transformed_value]> cleaned)
                       | None => ret cleaned
                       end
                   | None => ret cleaned
                   end st'0
               | (Raise e, st'0) => (Raise e, st'0)
               end) = (Ok cleaned', s') ->
              cleaned' = cleaned \/
              exists field_id0 x (s s' : state W),
                Some field_id = Some field_id0 /\
                _transform_value v json_field s = (Ok (Some x), s') /\
                cleaned' = <[field_id0 := x]> cleaned) as Hchosen.
    { intros s s' [Hsame|(x & s1 & s2 & ? & ?)]%Hwrite; [by left|right].
      by exists field_id, x, s1, s2. }
    destruct (table_schemas st !! table_name) as [schema|]; [|apply Hchosen].
    rewrite run_bind. unfold lift at 1.
    destruct (Py.int_of_str _); [|done].
    destruct (find _ _) as [field_info|]; [|apply Hchosen].
    destruct (String.eqb _ _); [intros [= <- _]; by left|apply Hchosen].
  - destruct (table_schemas st !! table_name) as [schema|]; simpl;
      [|intros [= <- _]; by left].
    destruct (TableSchema.get_field_by_name schema json_field) as [field_info|];
      simpl.
    + destruct (String.eqb _ _); [intros [= <- _]; by left|].
      intros [Hsame|(x & s1 & s2 & ? & ?)]%Hwrite; [by left|right].
      by exists (field_ (FieldInfo.id field_info)), x, s1, s2.
    + destruct (_ && _ && _); intros [= <- _]; by left.
Qed.
End PlainValues.

(** X4. What the plain path sends.  Every value in the data that
    [transform_record_data] returns was made from the value of a source
    field of the record that goes to that destination field and is neither
    [None] nor empty: a string from the date normalizer when the name of the
    source field looks like a date, and otherwise the value itself when it
    is a boolean and its [str] when it is anything else.  So only strings
    and booleans are sent; a number goes as its decimal string. *)
Theorem plain_value_sent {W : Type} (items : list (string * value))
    (field_mapping : gmap string string) (table_name : string)
    (st st' : state W) (cleaned : gmap string value) (field_id : string)
    (x : value) :
  transform_record_data (VDict items) field_mapping table_name st
    = (Ok cleaned, st') ->
  cleaned !! field_id = Some x ->
  exists json_field v,
    (json_field, v) ∈ items /\
    destination st field_mapping table_name json_field = Some field_id /\
    ~ null_or_empty v /\
    (if _is_date_field json_field then exists d, x = VStr d
     else x = if is_bool v then v else VStr (str v)) /\
    (is_bool x = true \/ exists s, x = VStr s).
Proof.
  unfold transform_record_data. rewrite run_bind. simpl. intros Hrun.
  revert x.
  apply (for_each_invariant
           (fun (cleaned : gmap string value) s =>
              table_schemas s = table_schemas st /\
              forall x, cleaned !! field_id = Some x ->
               exists json_field v,
                 (json_field, v) ∈ items /\
                 destination st field_mapping table_name json_field = Some field_id /\
                 ~ null_or_empty v /\
                 (if _is_date_field json_field then exists d, x = VStr d
                  else x = if is_bool v then v else VStr (str v)) /\
                 (is_bool x = true \/ exists s, x = VStr s)))
    in Hrun; [by destruct Hrun| |].
  2:{ split; [done|]. intros x. by rewrite lookup_empty. }
  intros b [json_field v] s b' s' Hin [Hs Hb] Hstep. split.
  - pose proof (transform_field_prints field_mapping table_name b
                  (json_field, v) s) as Hp.
    rewrite Hstep in Hp. apply printed_frame in Hp as (_ & Ht & _).
    simpl in Ht. congruence.
  - apply transform_field_sends in Hstep
      as [->|(fid & y & s1 & s2 & Hd & Hv & ->)]; [done|].
    intros x. destruct (decide (fid = field_id)) as [->|Hne].
    + rewrite lookup_insert_eq. intros [= ->]. exists json_field, v.
      split; [done|]. split; [unfold destination in *; by rewrite <- Hs|].
      split; [by eapply _transform_value_some|].
      pose proof (_transform_value_result _ _ _ _ _ Hv) as Hx.
      split; [done|].
      destruct (_is_date_field json_field).
      * destruct Hx as [d ->]. right. by exists d.
      * subst x. destruct (is_bool v) eqn:Hbool; [by left|right; eauto].
    + rewrite lookup_insert_ne by done. apply Hb.
Qed.

(** ** Relationship items and plain items *)

(** X5. The two passes over a record share no item.  [extract_relationships]
    returns what it would on the relationship items alone, and
    [transform_record_data] returns, prints and leaves what it would on the
    record without them. *)
Theorem relationships_apart_from_plain_fields {W : Type}
    (items : list (string * value)) (field_mapping : gmap string string)
    (table_name : string) (st : state W) :
  extract_relationships (VDict items)
  = extract_relationships (VDict (List.filter is_relationship items)) /\
  transform_record_data (VDict items) field_mapping table_name st
  = transform_record_data
      (VDict (List.filter (fun item => negb (is_relationship item)) items))
      field_mapping table_name st.
Proof.
  split.
  - unfold extract_relationships. cbn [items_method]. f_equal.
    apply fold_left_without. intros rels [key v]. unfold is_relationship.
    cbn [fst snd]. destruct v as [| | | | |l|d]; cbn; try done.
    + rewrite andb_true_r, orb_false_r. by intros ->.
    + rewrite andb_false_r. cbn. destruct (assoc "Id" d); [|done].
      by rewrite bool_decide_eq_true_2.
  - unfold transform_record_data. rewrite !run_bind. cbn [lift items_method].
    apply for_each_without. intros cleaned [key v] s. unfold is_relationship.
    cbn [fst snd]. rewrite negb_false_iff. intros Hrel.
    unfold transform_field.
    destruct (Py.startswith key "_nc_m2m_"); [done|].
    cbn [andb orb] in *. rewrite Hrel. by rewrite orb_true_r.
Qed.

(** ** Every record is counted once *)

Section Counting.
Context {W : Type} (client : BaserowClient W).
Implicit Types st : state W.

Lemma counts_once_bind {A B} (m : M W A) (f : A -> M W B) st :
  counted (m st).2 = counted st ->
  (forall a st', m st = (Ok a, st') -> counts_once (f a) st') ->
  counts_once (bind m f) st.
Proof.
  intros Hm Hf. unfold counts_once. rewrite run_bind.
  destruct (m st) as [[a|e] st1] eqn:Hrun; [|done].
  specialize (Hf a st1 eq_refl). unfold counts_once in Hf.
  simpl in Hm. by rewrite <- Hm.
Qed.

Lemma keeps_same_counted {A} (m : M W A) st :
  keeps (same success_count) m -> keeps (same error_count) m ->
  counted (m st).2 = counted st.
Proof. intros Hs He. unfold counted. by rewrite (Hs st), (He st). Qed.

Lemma printed_counted st st' : printed st st' -> counted st' = counted st.
Proof. by intros [out ->]. Qed.

Lemma store_id_mapping_counted table_name old_id result st :
  counted (store_id_mapping table_name old_id result st).2 = counted st.
Proof.
  apply keeps_same_counted; unfold store_id_mapping; keeps_auto;
    apply keeps_modify; intros s; unfold ensure_table; by case_match.
Qed.

Lemma handle_relationships_counted table_id table_name rels result st :
  counted (handle_relationships client table_id table_name rels result st).2
  = counted st.
Proof.
  unfold handle_relationships. destruct rels as [|rel rels]; [done|].
  destruct (truthy result); [|done]. rewrite run_bind.
  pose proof (map_relationships_to_baserow_reads (rel :: rels) table_name st) as Hst.
  destruct (map_relationships_to_baserow _ _ st) as [[out|e] st1];
    simpl in Hst; subst st1; [|done].
  case_bool_decide; [done|]. rewrite run_bind. unfold lift at 1.
  destruct (subscript result "id") as [row_id|e]; [|done].
  rewrite run_bind. unfold client_update_row.
  destruct (update_row _ _ _ _ _) as [[r|e] w]; done.
Qed.

(** Whatever happens to a record, it is counted, and once. *)
Lemma process_item_counts table_id table_name field_mapping n i item st :
  creates_objects client ->
  let after := process_item client table_id table_name field_mapping n i item st in
  after.1 = Ok tt /\ counted after.2 = S (counted st).
Proof.
  intros Hclient.
  assert (forall e s, counted s = counted st ->
            let after :=
              (modify (fun st => set_error_count (S (error_count st)) st) ;;
               print (LRecordError i n e)) s in
            after.1 = Ok tt /\ counted after.2 = S (counted st)) as Hhandler.
  { intros e s Hs. simpl. split; [done|]. unfold counted in *. simpl. lia. }
  assert (counts_once
            (relationships_data <- lift (extract_relationships item) ;;
             cleaned_data <- transform_record_data item field_mapping table_name ;;
             if bool_decide (cleaned_data = ∅) then
               modify (fun st => set_error_count (S (error_count st)) st) ;;
               print (LRecordNoData i n)
             else
               import_record client table_id table_name n i item relationships_data
                 cleaned_data) st) as Hbody.
  { apply counts_once_bind; [done|]. intros rels st0 Hx.
    assert (st0 = st) as -> by (unfold lift in Hx; congruence).
    apply counts_once_bind.
    { apply printed_counted, transform_record_data_prints. }
    intros cleaned st1 Ht.
    destruct (transform_ok_is_record _ _ _ _ _ _ Ht) as [items ->].
    case_bool_decide.
    { unfold counts_once, counted. simpl. lia. }
    unfold import_record. apply counts_once_bind.
    { unfold client_create_row. by destruct (create_row _ _ _ _) as [r w]. }
    intros result st2 Hcreate.
    assert (is_dict result = true) as Hdict.
    { unfold client_create_row in Hcreate.
      destruct (create_row _ _ _ _) as [r w] eqn:Hr.
      injection Hcreate as -> _. by eapply Hclient. }
    apply counts_once_bind; [done|]. intros old_id st3 Hid.
    assert (st3 = st2) as -> by (unfold lift in Hid; congruence).
    apply counts_once_bind; [apply store_id_mapping_counted|]. intros [] st3 _.
    apply counts_once_bind; [apply handle_relationships_counted|]. intros [] st4 _.
    by destruct result. }
  unfold process_item, try_except. unfold counts_once in Hbody.
  destruct (bind _ _ st) as [[[]|e] st1]; [done|].
  by apply Hhandler.
Qed.

Lemma import_loop_counts table_id table_name field_mapping n records start st :
  creates_objects client ->
  let after :=
    import_loop client table_id table_name field_mapping n records start st in
  (exists i, after.1 = Ok i) /\
  counted after.2 = (counted st + length records)%nat.
Proof.
  intros Hclient. revert start st. unfold import_loop.
  induction records as [|item records IH]; intros start st.
  { simpl. split; [eauto|]. lia. }
  rewrite for_each_cons, run_bind. rewrite run_bind.
  destruct (process_item_counts table_id table_name field_mapping n start item st
              Hclient) as [Hok Hcount].
  destruct (process_item _ _ _ _ _ _ _ st) as [r st1]. simpl in Hok, Hcount.
  subst r. cbn [ret]. destruct (IH (S start) st1) as [Hi Hn]. split; [done|].
  rewrite Hn, Hcount. simpl. lia.
Qed.
End Counting.

(** X6. Every record is counted once.  When the destination answers each
    creation with a JSON object, a run of [import_table_data] that is not a
    dry run, on a known table whose file holds a list of records, returns;
    the statistics it stores for the table give the number of records as the
    total and successes and errors that add up to it, and it returns [True]
    exactly when a record succeeded.  (A clearing that was asked for is
    supposed not to raise.) *)
Theorem import_counts_every_record {W : Type} (client : BaserowClient W)
    (json_file_path table_name : string) (clear : bool) (st : state W)
    (table_id : Z) (json_data items : value) (records : list value) :
  creates_objects client ->
  table_mappings st !! table_name = Some table_id -> table_id <> 0 ->
  files st !! json_file_path = Some json_data ->
  records_of json_data = Some items ->
  iterate items = Ok records ->
  (clear = true -> exists deleted w,
      clear_table client table_id (world st) = (Ok deleted, w)) ->
  exists successes errors st',
    import_table_data client json_file_path table_name false clear st
    = (Ok (0 <? successes)%nat, st') /\
    migration_stats st' !! table_name
    = Some (Stats successes errors (length records)) /\
    (successes + errors = length records)%nat.
Proof.
  intros Hclient Htable Hnz Hfile Hrecords Hiter Hclear.
  unfold import_table_data. rewrite andb_true_r.
  rewrite run_bind. cbn [print modify]. rewrite run_bind. cbn [gets].
  cbn [table_mappings set_stdout]. rewrite Htable.
  assert (exists st0,
            (if clear
             then print LClearing ;;
                  deleted_count <- client_clear_table client table_id ;;
                  print (LDeleted deleted_count)
             else ret tt)
              (set_stdout (stdout st ++ [LProcessing table_name]) st)
            = (Ok tt, st0) /\ files st0 = files st /\
            table_schemas st0 = table_schemas st) as (st0 & Hst0 & Hfiles & Hschemas).
  { destruct clear; [|by eexists].
    destruct Hclear as (deleted & w & Hc); [done|].
    rewrite run_bind. cbn [print modify]. rewrite run_bind.
    unfold client_clear_table. cbn [world set_stdout]. rewrite Hc.
    by eexists. }
  assert (forall k : M W bool,
            (match table_id with
             | 0 => print (LTableNotFound table_name) ;; ret false
             | _ => k
             end) = k) as -> by (intros k; by destruct table_id).
  rewrite run_bind, Hst0. rewrite run_bind. cbn [gets]. rewrite Hfiles, Hfile, Hrecords.
  rewrite run_bind. unfold len. rewrite Hiter. cbn [lift].
  rewrite run_bind. cbn [print modify]. rewrite run_bind.
  destruct (create_field_mapping_returns table_name
              (set_stdout (stdout st0 ++ [LFound (length records)]) st0))
    as (fm & st1 & ->).
  rewrite run_bind.
  set (warn := if bool_decide (fm = ∅) then print (LNoFieldMapping table_name)
               else ret tt).
  destruct (warn st1) as [r2 st2] eqn:Hwarn.
  assert (r2 = Ok tt) as ->.
  { unfold warn in Hwarn. case_bool_decide; by injection Hwarn as <- _. }
  rewrite run_bind. cbn [modify]. rewrite run_bind. cbn [modify].
  rewrite run_bind. cbn [lift]. rewrite run_bind.
  set (st3 := set_error_count 0 (set_success_count 0 st2)).
  destruct (import_loop_counts client table_id table_name fm (length records)
              records 1%nat st3 Hclient) as [[i Hi] Hn].
  destruct (import_loop _ _ _ _ _ _ _ st3) as [r st4]. simpl in Hi, Hn. subst r.
  rewrite run_bind. cbn [gets]. rewrite run_bind. cbn [gets].
  rewrite run_bind. cbn [modify]. rewrite run_bind. cbn [print modify ret].
  exists (success_count st4), (error_count st4). eexists. split; [reflexivity|].
  split.
  - cbn. by rewrite lookup_insert_eq.
  - unfold counted in Hn. simpl in Hn. lia.
Qed.

(** ** Clearing comes before loading *)

(** X7. With [clear_table] on (and no dry run) the table is cleared before the
    file is opened: when the file cannot be loaded, or holds neither a list
    nor a dict with a ['list'], the clearing is the one request made, and
    [import_table_data] returns [False] (or raises what the clearing
    raised) with the registry and the statistics as they were. *)
Theorem clearing_precedes_loading {W : Type} (client : BaserowClient W)
    (json_file_path table_name : string) (st : state W) (table_id : Z)
    (r : outcome value) (w : W) :
  table_mappings st !! table_name = Some table_id -> table_id <> 0 ->
  match files st !! json_file_path with
  | Some json_data => records_of json_data = None
  | None => True
  end ->
  clear_table client table_id (world st) = (r, w) ->
  let after := import_table_data client json_file_path table_name false true st in
  calls after.2 = calls st ++ [ClearTable table_id r] /\
  world after.2 = w /\
  after.1 = match r with Ok _ => Ok false | Raise e => Raise e end /\
  id_mappings after.2 = id_mappings st /\
  migration_stats after.2 = migration_stats st.
Proof.
  intros Htable Hnz Hfile Hclear. simpl.
  unfold import_table_data. cbn [andb negb].
  rewrite run_bind. cbn [print modify]. rewrite run_bind. cbn [gets].
  cbn [table_mappings set_stdout]. rewrite Htable.
  assert (forall k : M W bool,
            (match table_id with
             | 0 => print (LTableNotFound table_name) ;; ret false
             | _ => k
             end) = k) as -> by (intros k; by destruct table_id).
  rewrite run_bind. rewrite run_bind. cbn [print modify]. rewrite run_bind.
  unfold client_clear_table. cbn [world set_stdout]. rewrite Hclear.
  destruct r as [deleted|e]; [|done].
  cbn [print modify]. rewrite run_bind. cbn [gets files requested set_stdout].
  destruct (files st !! json_file_path) as [json_data|]; [|done].
  by rewrite Hfile.
Qed.

(** ** Field identifiers and the schema *)

(** X11. [_get_field_info_by_id] undoes [f"field_{id}"]: in a table whose field
    identifiers are distinct it finds each field under the identifier
    string made from its [id], and it returns [None] for the identifier
    string of a number that is the [id] of no field. *)
Theorem get_field_info_by_id_of_field_id (schema : TableSchema.t) (n : Z) :
  NoDup (FieldInfo.id <$> TableSchema.fields schema) ->
  (forall f, f ∈ TableSchema.fields schema -> FieldInfo.id f = n ->
             DataTransformer._get_field_info_by_id schema (field_ n) = Ok (Some f)) /\
  (n ∉ FieldInfo.id <$> TableSchema.fields schema ->
   DataTransformer._get_field_info_by_id schema (field_ n) = Ok None).
Proof.
  intros Hnd. unfold DataTransformer._get_field_info_by_id.
  rewrite field_number. split.
  - intros f Hin Hid.
    destruct (find _ _) as [g|] eqn:Hg.
    + apply find_some in Hg as [Hgin Hgid]. apply Z.eqb_eq in Hgid.
      apply list_elem_of_In in Hgin. do 2 f_equal.
      apply (unique_field_id (TableSchema.fields schema)); congruence.
    + apply list_elem_of_In in Hin.
      pose proof (find_none _ _ Hg f Hin) as Hf. simpl in Hf.
      apply Z.eqb_neq in Hf. done.
  - intros Hnot. destruct (find _ _) as [g|] eqn:Hg; [|done].
    apply find_some in Hg as [Hgin Hgid]. apply Z.eqb_eq in Hgid.
    destruct Hnot. apply list_elem_of_fmap. exists g.
    split; [done|by apply list_elem_of_In].
Qed.

(** ** A mapping of field identifiers never fails *)

Section NeverFails.
Context {W : Type}.
Implicit Types st : state W.

Lemma _normalize_date_returns v st :
  exists d st', _normalize_date v st = (Ok d, st').
Proof.
  unfold _normalize_date. destruct (negb (truthy v)); [by eexists _, _|].
  repeat case_match; by eexists _, _.
Qed.

Lemma _transform_value_returns v field_name st :
  exists x st', _transform_value v field_name st = (Ok x, st').
Proof.
  unfold _transform_value.
  assert (exists x st',
            (if _is_date_field field_name
             then d <- _normalize_date v ;; ret (VStr <$> d)
             else if is_bool v then ret (Some v) else ret (Some (VStr (str v)))) st
            = (Ok x, st')) as Hrest.
  { destruct (_is_date_field field_name); [|destruct (is_bool v); by eexists _, _].
    rewrite run_bind. destruct (_normalize_date_returns v st) as (d & st' & ->).
    by eexists _, _. }
  destruct v as [| | | |[|c s]| |]; first [ by eexists _, _ | exact Hrest ].
Qed.

Lemma transform_field_returns field_mapping table_name cleaned item st :
  field_ids_only field_mapping ->
  exists cleaned' st',
    transform_field field_mapping table_name cleaned item st = (Ok cleaned', st').
Proof.
  intros Hids. destruct item as [json_field v]. unfold transform_field.
  destruct (_ || _ || _); [by eexists _, _|].
  rewrite run_bind. cbn [gets].
  assert (forall field_id s,
            exists cleaned' st',
              (transformed_value <- _transform_value v json_field ;;
               match transformed_value with
               | Some transformed_value =>
                   ret (<[field_id := transformed_value]> cleaned)
               | None => ret cleaned
               end) s = (Ok cleaned', st')) as Hwrite.
  { intros field_id s. rewrite run_bind.
    destruct (_transform_value_returns v json_field s) as ([x|] & st' & ->);
      by eexists _, _. }
  rewrite run_bind.
  destruct (field_mapping !! json_field) as [field_id|] eqn:Hmap.
  - destruct (table_schemas st !! table_name) as [schema|]; [|apply Hwrite].
    rewrite run_bind. unfold lift at 1.
    destruct (Hids _ _ Hmap) as [n ->]. rewrite field_number.
    destruct (find _ _) as [field_info|]; [|apply Hwrite].
    destruct (String.eqb _ _); [by eexists _, _|apply Hwrite].
  - destruct (table_schemas st !! table_name) as [schema|]; [|by eexists _, _].
    destruct (TableSchema.get_field_by_name schema json_field) as [field_info|].
    + destruct (String.eqb _ _); [by eexists _, _|apply Hwrite].
    + destruct (_ && _ && _); by eexists _, _.
Qed.

Lemma transform_record_data_returns items field_mapping table_name st :
  field_ids_only field_mapping ->
  exists cleaned st',
    transform_record_data (VDict items) field_mapping table_name st
    = (Ok cleaned, st').
Proof.
  intros Hids. unfold transform_record_data. rewrite run_bind.
  cbn [lift items_method]. generalize (∅ : gmap string value). revert st.
  induction items as [|item items IH]; intros st cleaned; [by eexists _, _|].
  rewrite for_each_cons, run_bind.
  destruct (transform_field_returns field_mapping table_name cleaned item st Hids)
    as (cleaned' & st' & ->).
  apply IH.
Qed.
End NeverFails.

(** X3. The mapping that [create_field_mapping] makes never fails the plain
    path: all its destinations are identifier strings [field_<n>], and with
    such a mapping [transform_record_data] returns on every record that is
    a JSON object, in every state. *)
Theorem created_mapping_never_fails {W : Type} (table_name : string)
    (st st1 : state W) (field_mapping : gmap string string) :
  create_field_mapping table_name st = (Ok field_mapping, st1) ->
  field_ids_only field_mapping /\
  forall items table (s : state W),
    exists cleaned s',
      transform_record_data (VDict items) field_mapping table s = (Ok cleaned, s').
Proof.
  intros Hrun.
  assert (field_ids_only field_mapping) as Hids.
  { destruct (table_schemas st !! table_name) as [schema|] eqn:Hschema.
    - destruct (create_field_mapping_run table_name schema st Hschema)
        as (fm & out & Hfm & Hentries & _).
      rewrite Hfm in Hrun. injection Hrun as <- _.
      intros json_field field_id. rewrite Hentries.
      destruct (static_field_name table_name json_field) as [b|]; [|done]. simpl.
      destruct (TableSchema.get_field_by_name schema b) as [fi|]; [|done]. simpl.
      intros [= <-]. eauto.
    - unfold create_field_mapping in Hrun. rewrite run_bind in Hrun.
      cbn [gets] in Hrun. rewrite Hschema in Hrun. injection Hrun as <- _.
      intros json_field field_id. by rewrite lookup_empty. }
  split; [done|]. intros items table s. by apply transform_record_data_returns.
Qed.

(** ** [DataTransformer.transform_record] *)

Lemma assoc_od_set {V} k k' (v : V) (d : odict V) :
  assoc k (od_set k' v d) = if String.eqb k k' then Some v else assoc k d.
Proof.
  induction d as [|[k0 v0] d IH]; simpl.
  - by destruct (String.eqb k k').
  - destruct (String.eqb_spec k' k0) as [->|Hne]; simpl.
    + by destruct (String.eqb k k0).
    + destruct (String.eqb_spec k k0) as [->|Hne'].
      * destruct (String.eqb_spec k0 k') as [->|_]; done.
      * apply IH.
Qed.

Lemma for_each_returns {W A B : Type} (l : list A) (body : B -> A -> M W B) acc
    (st : state W) :
  (forall b x s, exists b' s', body b x s = (Ok b', s')) ->
  exists r st', for_each l body acc st = (Ok r, st').
Proof.
  intros Hbody. revert acc st. induction l as [|x l IH]; intros acc st.
  - by exists acc, st.
  - rewrite for_each_cons, run_bind.
    destruct (Hbody acc x st) as (b' & s' & ->). apply IH.
Qed.

Section TransformRecord.
Context {W : Type} (float : value -> outcome pyfloat).
Implicit Types st : state W.

(** One item of the record in [transform_record], on a mapping of field
    identifiers: the step returns, and the relationships gain the item when
    its key starts with [_nc_m2m_]. *)
Lemma transform_record_step field_mapping schema (a : DataTransformer.acc)
    json_field v st :
  field_ids_only field_mapping ->
  exists a' st',
    (if Py.startswith json_field "_nc_m2m_" then
       ret (DataTransformer.Acc (DataTransformer.cleaned_data a)
              (od_set json_field v (DataTransformer.relationships a))
              (DataTransformer.errors a))
     else
       match field_mapping !! json_field with
       | None => ret a
       | Some baserow_field_id =>
           field_info <-
             lift (DataTransformer._get_field_info_by_id schema baserow_field_id) ;;
           try_except
             (cleaned_value <- DataTransformer._transform_value float v field_info ;;
              match cleaned_value with
              | Some cleaned_value =>
                  ret (DataTransformer.Acc
                         (<[baserow_field_id := cleaned_value]>
                            (DataTransformer.cleaned_data a))
                         (DataTransformer.relationships a)
                         (DataTransformer.errors a))
              | None => ret a
              end)
             (fun e =>
                ret (DataTransformer.Acc (DataTransformer.cleaned_data a)
                       (DataTransformer.relationships a)
                       (DataTransformer.errors a ++ [(json_field, e)])))
       end) st = (Ok a', st') /\
    DataTransformer.relationships a' =
    if Py.startswith json_field "_nc_m2m_"
    then od_set json_field v (DataTransformer.relationships a)
    else DataTransformer.relationships a.
Proof.
  intros Hids. destruct (Py.startswith json_field "_nc_m2m_"); [by eexists _, _|].
  destruct (field_mapping !! json_field) as [fid|] eqn:Hmap; [|by eexists _, _].
  rewrite run_bind. unfold lift at 1.
  destruct (Hids _ _ Hmap) as [n ->].
  unfold DataTransformer._get_field_info_by_id at 1. rewrite field_number.
  unfold try_except. rewrite run_bind.
  destruct (DataTransformer._transform_value float v _ st) as [[[x|]|e] st1];
    by eexists _, _.
Qed.
End TransformRecord.

(** X12. [DataTransformer.transform_record] with a mapping of field identifiers
    returns on every record that is a JSON object, whatever the conversion
    of a value does: a failed conversion is reported and the field left
    out.  The relationships it returns are the items of the record whose key
    starts with [_nc_m2m_], whatever their value. *)
Theorem transform_record_returns {W : Type} (float : value -> outcome pyfloat)
    (items : list (string * value)) (field_mapping : gmap string string)
    (schema : TableSchema.t) (st : state W) :
  field_ids_only field_mapping ->
  exists cleaned relationships st',
    DataTransformer.transform_record float (VDict items) field_mapping schema st
    = (Ok (cleaned, relationships), st') /\
    forall key,
      is_Some (assoc key relationships) <->
      Py.startswith key "_nc_m2m_" = true /\ key ∈ items.*1.
Proof.
  intros Hids. unfold DataTransformer.transform_record.
  rewrite run_bind. cbn [lift items_method]. rewrite run_bind.
  match goal with
  | |- context [for_each items ?body ?acc st] =>
      destruct (for_each_returns items body acc st) as (a & st1 & Hloop)
  end.
  { intros b [json_field v] s.
    destruct (transform_record_step float field_mapping schema b json_field v s Hids)
      as (a' & s' & Hstep & _). eauto. }
  rewrite Hloop. rewrite run_bind.
  assert (forall key,
            is_Some (assoc key (DataTransformer.relationships a)) <->
            Py.startswith key "_nc_m2m_" = true /\ key ∈ items.*1) as Hrels.
  { intros key. revert Hloop.
    generalize (Forall_true (fun _ : string * value => True) items (fun _ => I)).
    assert (is_Some (assoc key (DataTransformer.relationships
                                  (DataTransformer.Acc ∅ [] []))) <->
            Py.startswith key "_nc_m2m_" = true /\ key ∈ ([] : list string))
      as Hstart.
    { cbn. split; [by intros [? [=]]|by intros [_ ?%elem_of_nil]]. }
    revert Hstart. generalize (DataTransformer.Acc ∅ [] []) st.
    assert (forall seen (rest : list (string * value)) (a0 : DataTransformer.acc) s,
              (is_Some (assoc key (DataTransformer.relationships a0)) <->
               Py.startswith key "_nc_m2m_" = true /\ key ∈ seen) ->
              for_each rest
                (fun (a : DataTransformer.acc) '(json_field, v) =>
                   if Py.startswith json_field "_nc_m2m_" then
                     ret (DataTransformer.Acc (DataTransformer.cleaned_data a)
                            (od_set json_field v (DataTransformer.relationships a))
                            (DataTransformer.errors a))
                   else
                     match field_mapping !! json_field with
                     | None => ret a
                     | Some baserow_field_id =>
                         field_info <-
                           lift (DataTransformer._get_field_info_by_id schema
                                   baserow_field_id) ;;
                         try_except
                           (cleaned_value <-
                              DataTransformer._transform_value float v field_info ;;
                            match cleaned_value with
                            | Some cleaned_value =>
                                ret (DataTransformer.Acc
                                       (<[baserow_field_id := cleaned_value]>
                                          (DataTransformer.cleaned_data a))
                                       (DataTransformer.relationships a)
                                       (DataTransformer.errors a))
                            | None => ret a
                            end)
                           (fun e =>
                              ret (DataTransformer.Acc (DataTransformer.cleaned_data a)
                                     (DataTransformer.relationships a)
                                     (DataTransformer.errors a ++ [(json_field, e)])))
                     end) a0 s = (Ok a, st1) ->
              is_Some (assoc key (DataTransformer.relationships a)) <->
              Py.startswith key "_nc_m2m_" = true /\ key ∈ seen ++ rest.*1) as Hgen.
    { intros seen rest. revert seen.
      induction rest as [|[json_field v] rest IH]; intros seen a0 s Hseen.
      - intros [= <- _]. by rewrite app_nil_r.
      - rewrite for_each_cons, run_bind.
        destruct (transform_record_step float field_mapping schema a0 json_field v
                    s Hids) as (a' & s' & Hstep & Hrel).
        rewrite Hstep. intros Hrest.
        rewrite fmap_cons. cbn [fst].
        replace (seen ++ json_field :: rest.*1)
          with ((seen ++ [json_field]) ++ rest.*1) by by rewrite <- app_assoc.
        apply (IH (seen ++ [json_field]) a' s'); [|exact Hrest]. rewrite Hrel.
        rewrite elem_of_app, list_elem_of_singleton.
        destruct (Py.startswith json_field "_nc_m2m_") eqn:Hprefix.
        + rewrite assoc_od_set.
          destruct (String.eqb_spec key json_field) as [->|Hne].
          * split; [intros _; split; [done|by right]|eauto].
          * rewrite Hseen. split; [intros [? ?]; split; [done|by left]|].
            intros [? [?|?]]; done.
        + rewrite Hseen. split; [intros [? ?]; split; [done|by left]|].
          intros [Hk [?|Heq]]; [done|subst; congruence]. }
    intros a0 s Hstart _ Hrun. by apply (Hgen [] items a0 s). }
  exists (DataTransformer.cleaned_data a), (DataTransformer.relationships a).
  destruct (DataTransformer.errors a); eexists; (split; [reflexivity|exact Hrels]).
Qed.

(** ** The registry of the other tables *)

(** X8. Importing a table writes the registry of that table only: the entries
    of every other table are what they were, whatever the records and the
    destination do. *)
Theorem import_registers_own_table_only {W : Type} (client : BaserowClient W)
    (json_file_path table_name : string) (dry_run clear : bool) (st : state W)
    (table : string) (k : key) :
  table <> table_name ->
  registry_lookup
    (import_table_data client json_file_path table_name dry_run clear st).2 table k
  = registry_lookup st table k.
Proof.
  intros Hother.
  assert (forall A (m : M W A),
            keeps (same id_mappings) m ->
            keeps (same (fun st => registry_lookup st table k)) m) as Hsame.
  { intros A m. apply keeps_weaken. intros s s' Hs. unfold same in *.
    by apply registry_lookup_ext. }
  assert (forall A (m : M W A),
            keeps printed m ->
            keeps (same (fun st => registry_lookup st table k)) m) as Hprinted.
  { intros A m. apply keeps_weaken. intros s s' Hp. unfold same.
    apply registry_lookup_ext. by apply printed_frame in Hp as [? _]. }
  assert (forall table_id field_mapping n i item,
            keeps (same (fun st => registry_lookup st table k))
              (process_item client table_id table_name field_mapping n i item))
    as Hitem.
  { intros table_id field_mapping n i item s. unfold same.
    destruct (process_item_entry client table_id table_name field_mapping n i item
                s table k) as [->|(Ht & _)]; done. }
  assert (keeps (same (fun st => registry_lookup st table k))
            (import_table_data client json_file_path table_name dry_run clear))
    as Hkeeps.
  { unfold import_table_data.
    repeat first
      [ apply Hprinted, create_field_mapping_prints
      | apply Hprinted, print_prints
      | apply Hsame, keeps_modify; intros; reflexivity
      | apply Hsame, client_clear_table_same_ids
      | apply Hitem
      | unfold import_loop at 1
      | keeps_step
      | case_match ]. }
  apply Hkeeps.
Qed.

Lemma field_lookup_by_name_witness :
  let schema :=
    TableSchema.Build 708 "Infrastructure"
      [Demo.field 10 "Name" "text";
       FieldInfo.Build 11 "linked_location" "link_row" false false (Some 703)] in
  TableSchema.get_field_by_name schema "LINKED_Location"
  = Some (FieldInfo.Build 11 "linked_location" "link_row" false false (Some 703)) /\
  field_name_to_id schema !! "linked_location" = Some "field_11".
Proof.
  apply (field_lookup_by_name
           (TableSchema.Build 708 "Infrastructure"
              [Demo.field 10 "Name" "text";
               FieldInfo.Build 11 "linked_location" "link_row" false false (Some 703)])
           (FieldInfo.Build 11 "linked_location" "link_row" false false (Some 703))
           "LINKED_Location").
  - apply (bool_decide_unpack _). by vm_compute.
  - apply elem_of_cons. right. apply elem_of_cons. by left.
  - reflexivity.
Defined.

Lemma create_field_mapping_entries_witness :
  exists field_id_mapping out,
    create_field_mapping "Location" Demo.start
    = (Ok field_id_mapping, set_stdout (stdout Demo.start ++ out) Demo.start) /\
    (forall json_field,
       field_id_mapping !! json_field =
       (baserow_field_name ← static_field_name "Location" json_field;
        field_info ←
          TableSchema.get_field_by_name
            (TableSchema.Build 703 "Location"
               [Demo.field 1 "Name" "text"; Demo.field 2 "notes" "long_text"])
            baserow_field_name;
        Some (field_ (FieldInfo.id field_info)))) /\
    (forall l, l ∈ out <->
       exists json_field baserow_field_name,
         static_field_name "Location" json_field = Some baserow_field_name /\
         TableSchema.get_field_by_name
           (TableSchema.Build 703 "Location"
              [Demo.field 1 "Name" "text"; Demo.field 2 "notes" "long_text"])
           baserow_field_name = None /\
         l = LFieldNotFound baserow_field_name "Location").
Proof.
  apply (create_field_mapping_entries "Location"
           (TableSchema.Build 703 "Location"
              [Demo.field 1 "Name" "text"; Demo.field 2 "notes" "long_text"])
           Demo.start).
  reflexivity.
Defined.

Lemma plain_value_sent_witness :
  exists json_field v,
    (json_field, v)
      ∈ [("Id", VInt 3); ("first_name", VStr "Ada"); ("roles", VInt 2)] /\
    destination Demo.start Demo.people_mapping "People" json_field = Some "field_31" /\
    ~ null_or_empty v /\
    (if _is_date_field json_field then exists d, VStr "2" = VStr d
     else VStr "2" = if is_bool v then v else VStr (str v)) /\
    (is_bool (VStr "2") = true \/ exists s, VStr "2" = VStr s).
Proof.
  apply (plain_value_sent
           [("Id", VInt 3); ("first_name", VStr "Ada"); ("roles", VInt 2)]
           Demo.people_mapping "People" Demo.start Demo.start
           {[ "field_30" := VStr "Ada"; "field_31" := VStr "2" ]} "field_31"
           (VStr "2")).
  - by vm_compute.
  - by vm_compute.
Defined.

Lemma demo_client_creates_objects : creates_objects Demo.client.
Proof. intros table_id data w result w' [= <- _]. done. Qed.

Lemma import_counts_every_record_witness :
  exists successes errors st',
    import_table_data Demo.client "Location_data.json" "Location" false true
      Demo.start
    = (Ok (0 <? successes)%nat, st') /\
    migration_stats st' !! "Location" = Some (Stats successes errors 1) /\
    (successes + errors = 1)%nat.
Proof.
  apply (import_counts_every_record Demo.client "Location_data.json" "Location"
           true Demo.start 703 (VList [Demo.lagos]) (VList [Demo.lagos])
           [Demo.lagos]).
  - apply demo_client_creates_objects.
  - reflexivity.
  - done.
  - reflexivity.
  - reflexivity.
  - reflexivity.
  - intros _. by eexists _, _.
Defined.

Lemma clearing_precedes_loading_witness :
  let after :=
    import_table_data Demo.client "Role_data.json" "Role" false true Demo.start in
  calls after.2 = calls Demo.start ++ [ClearTable 704 (Ok (VInt 0))] /\
  world after.2 = 100 /\
  after.1 = Ok false /\
  id_mappings after.2 = id_mappings Demo.start /\
  migration_stats after.2 = migration_stats Demo.start.
Proof.
  apply (clearing_precedes_loading Demo.client "Role_data.json" "Role" Demo.start
           704 (Ok (VInt 0)) 100).
  - reflexivity.
  - done.
  - by vm_compute.
  - reflexivity.
Defined.

Lemma get_field_info_by_id_of_field_id_witness :
  let schema :=
    TableSchema.Build 703 "Location"
      [Demo.field 1 "Name" "text"; Demo.field 2 "notes" "long_text"] in
  DataTransformer._get_field_info_by_id schema "field_2"
  = Ok (Some (Demo.field 2 "notes" "long_text")).
Proof.
  apply (get_field_info_by_id_of_field_id
           (TableSchema.Build 703 "Location"
              [Demo.field 1 "Name" "text"; Demo.field 2 "notes" "long_text"]) 2).
  - apply (bool_decide_unpack _). by vm_compute.
  - apply elem_of_cons. right. apply elem_of_cons. by left.
  - reflexivity.
Defined.

Lemma created_mapping_never_fails_witness :
  field_ids_only Demo.location_mapping /\
  forall items table (s : state Z),
    exists cleaned s',
      transform_record_data (VDict items) Demo.location_mapping table s
      = (Ok cleaned, s').
Proof.
  apply (created_mapping_never_fails "Location" Demo.start
           (create_field_mapping "Location" Demo.start).2 Demo.location_mapping).
  by vm_compute.
Defined.

Lemma demo_mapping_field_ids_only : field_ids_only Demo.location_mapping.
Proof.
  intros json_field field_id. unfold Demo.location_mapping.
  rewrite <- elem_of_list_to_map by (apply (bool_decide_unpack _); by vm_compute).
  intros Hin.
  repeat (apply elem_of_cons in Hin as [[= -> ->]|Hin];
          [first [by exists 1 | by exists 2]|]).
  by apply elem_of_nil in Hin.
Qed.

Lemma transform_record_returns_witness :
  exists cleaned relationships st',
    DataTransformer.transform_record Demo.no_float
      (VDict [ ("Id", VInt 10); ("infrastructure_name", VStr "Pipeline");
               ("_nc_m2m_infrastructure_locations",
                VList [VDict [("location_id", VInt 1)]]) ])
      Demo.location_mapping
      (TableSchema.Build 703 "Location"
         [Demo.field 1 "Name" "text"; Demo.field 2 "notes" "long_text"])
      Demo.start
    = (Ok (cleaned, relationships), st') /\
    forall key,
      is_Some (assoc key relationships) <->
      Py.startswith key "_nc_m2m_" = true /\
      key ∈ [ ("Id", VInt 10); ("infrastructure_name", VStr "Pipeline");
              ("_nc_m2m_infrastructure_locations",
               VList [VDict [("location_id", VInt 1)]]) ].*1.
Proof.
  apply (transform_record_returns Demo.no_float
           [ ("Id", VInt 10); ("infrastructure_name", VStr "Pipeline");
             ("_nc_m2m_infrastructure_locations",
              VList [VDict [("location_id", VInt 1)]]) ]
           Demo.location_mapping
           (TableSchema.Build 703 "Location"
              [Demo.field 1 "Name" "text"; Demo.field 2 "notes" "long_text"])
           Demo.start).
  apply demo_mapping_field_ids_only.
Defined.

Lemma import_registers_own_table_only_witness :
  registry_lookup
    (import_table_data Demo.client "Infrastructure_data.json" "Infrastructure"
       false false Demo.start).2 "Location" (KInt 10)
  = registry_lookup Demo.start "Location" (KInt 10).
Proof.
  apply (import_registers_own_table_only Demo.client "Infrastructure_data.json"
           "Infrastructure" false false Demo.start "Location" (KInt 10)).
  done.
Defined.

(* ===================================================================== *)
(** * The client *)
(* ===================================================================== *)

Section Client.
Import St baserow_client.
Local Open Scope st_scope.
Context {T : Type} (session_request : transport T).
Implicit Types c : client T.

Lemma client_bind {A B} (m : C T A) (f : A -> C T B) c :
  bind m f c =
  match m c with
  | (Ok a, c') => f a c'
  | (Raise e, c') => (Raise e, c')
  end.
Proof. reflexivity. Qed.

Lemma sends_nil c : sends c c [].
Proof. split; [done|by rewrite app_nil_r]. Qed.

Lemma sends_app c1 c2 c3 new1 new2 :
  sends c1 c2 new1 -> sends c2 c3 new2 -> sends c1 c3 (new1 ++ new2).
Proof.
  intros [Hb1 Hs1] [Hb2 Hs2]. split; [congruence|].
  by rewrite Hs2, Hs1, app_assoc.
Qed.

(** A request is one exchange; it returns the response when the reply is
    one that is [ok], and raises otherwise. *)
Lemma _make_request_run method endpoint use_jwt kw c :
  let url := api_url (base_url c) endpoint in
  let reply := (session_request use_jwt method url kw (net c)).1 in
  let after := _make_request session_request method endpoint use_jwt kw c in
  after.1 = match reply with
            | Ok r => if ok r then Ok r else Raise HTTPError
            | Raise e => Raise e
            end /\
  net after.2 = (session_request use_jwt method url kw (net c)).2 /\
  sends c after.2 [Exchange use_jwt method url kw reply].
Proof.
  unfold _make_request, sends. cbn zeta. rewrite client_bind. cbn [gets].
  rewrite client_bind. unfold session.
  destruct (session_request _ _ _ _ _) as [[r|e] t] eqn:Hreq; [|by repeat split].
  cbn [fst snd]. destruct (ok r); by repeat split.
Qed.

(** [delete_row] never raises: it is one [DELETE] exchange, and returns
    whether the destination accepted it. *)
Lemma delete_row_run table_id row_id c :
  let url := api_url (base_url c) (row_endpoint table_id row_id) in
  let reply := (session_request false "DELETE" url NoKwargs (net c)).1 in
  let after := delete_row session_request table_id row_id c in
  after.1 = Ok (accepted reply) /\
  net after.2 = (session_request false "DELETE" url NoKwargs (net c)).2 /\
  sends c after.2 [Exchange false "DELETE" url NoKwargs reply].
Proof.
  cbn zeta. unfold delete_row, try_except. rewrite client_bind.
  destruct (_make_request_run "DELETE" (row_endpoint table_id row_id) false
              NoKwargs c) as (Hres & Hnet & Hsends).
  fold (row_endpoint table_id row_id).
  destruct (_make_request _ _ _ _ _ c) as [r c']. cbn [fst snd] in *.
  destruct (session_request _ _ _ _ _) as [[resp|e] t]; cbn [fst snd] in *.
  - destruct (ok resp) eqn:Hok; subst r; cbn; by rewrite ?Hok.
  - by subst r.
Qed.

(** The rows of a page are deleted one after the other, and the
    deletions that were accepted are counted. *)
Lemma delete_rows_run table_id rows deleted_count c d c' :
  delete_rows session_request table_id rows deleted_count c = (Ok d, c') ->
  exists new,
    sends c c' new /\
    Forall (fun x => method x = "DELETE") new /\
    d = (deleted_count + length (List.filter accepted_deletion new))%nat.
Proof.
  unfold delete_rows. revert deleted_count c.
  induction rows as [|row rows IH]; intros deleted_count c.
  { intros [= <- <-]. exists []. split; [apply sends_nil|]. split; [done|].
    simpl. lia. }
  cbn [for_each]. rewrite client_bind, client_bind. unfold lift at 1.
  destruct (subscript row "id") as [row_id|e]; [|done].
  rewrite client_bind.
  destruct (delete_row_run table_id row_id c) as (Hres & _ & Hsends).
  destruct (delete_row _ _ _ c) as [r c1]. cbn [fst snd] in *. subst r.
  cbn [ret]. intros (new & Hnew & Hdel & ->)%IH.
  eexists (_ :: new). split; [apply (sends_app _ _ _ [_] _ Hsends Hnew)|].
  split; [by constructor|].
  cbn [List.filter]. unfold accepted_deletion at 2. cbn [method reply].
  cbn [String.eqb Ascii.eqb Bool.eqb andb].
  destruct (accepted _); simpl; lia.
Qed.
End Client.

Section ClearTable.
Import St baserow_client.
Local Open Scope st_scope.
Context {T : Type} (session_request : transport T).
Implicit Types c : client T.

Lemma get_table_rows_run table_id page size c :
  let url := api_url (base_url c) (rows_endpoint table_id) in
  let reply := (session_request false "GET" url (Params page size) (net c)).1 in
  let after := get_table_rows session_request table_id page size c in
  after.1 = match reply with
            | Ok r => if ok r then json r else Raise HTTPError
            | Raise e => Raise e
            end /\
  net after.2 = (session_request false "GET" url (Params page size) (net c)).2 /\
  sends c after.2 [Exchange false "GET" url (Params page size) reply].
Proof.
  cbn zeta. unfold get_table_rows. rewrite client_bind.
  destruct (_make_request_run session_request "GET" (rows_endpoint table_id) false
              (Params page size) c) as (Hres & Hnet & Hsends).
  fold (rows_endpoint table_id).
  destruct (_make_request _ _ _ _ _ c) as [r c']. cbn [fst snd] in *.
  destruct (session_request _ _ _ _ _) as [[resp|e] t]; cbn [fst snd] in *.
  - subst r. destruct (ok resp); (split; [done|]); (split; [done|]); exact Hsends.
  - by subst r.
Qed.

(** The loop of [clear_table], when it is left: the requests it has sent
    end with a request for a page that was answered with no row, and the
    count is the number of deletions accepted. *)
Lemma clear_table_loop_left fuel table_id page deleted_count c n c' :
  clear_table_loop session_request fuel table_id page deleted_count c
  = (Ok (Some n), c') ->
  exists before last,
    sends c c' (before ++ [last]) /\
    n = (deleted_count + length (List.filter accepted_deletion before))%nat /\
    Forall (fun x =>
              method x = "DELETE" \/
              x = Exchange false "GET" (api_url (base_url c) (rows_endpoint table_id))
                    (Params page 200) (reply x))
           (before ++ [last]) /\
    method last = "GET" /\
    exists rows, rows_of_reply (reply last) = Ok rows /\ truthy rows = false.
Proof.
  revert deleted_count c. induction fuel as [|fuel IH]; intros deleted_count c;
    [done|].
  cbn [clear_table_loop]. rewrite client_bind.
  destruct (get_table_rows_run table_id page 200 c) as (Hres & _ & Hsends).
  destruct (get_table_rows _ _ _ _ c) as [[data|e] c1]; [|done].
  cbn [fst snd] in *. rewrite client_bind. unfold lift at 1.
  set (x0 := Exchange false "GET" _ _ _) in Hsends.
  assert (rows_of_reply (reply x0) = get_default data "results" (VList [])) as Hrows.
  { unfold x0. cbn [reply]. unfold rows_of_reply.
    destruct (session_request _ _ _ _ _).1 as [r|e]; [|done].
    destruct (ok r); [|done]. by rewrite <- Hres. }
  destruct (get_default data "results" (VList [])) as [rows|e]; [|done].
  destruct (truthy rows) eqn:Htruthy; cbn [negb].
  2:{ intros [= <- <-]. exists [], x0. split; [done|]. split; [simpl; lia|].
      split; [apply Forall_singleton; by right|]. split; [done|]. eauto. }
  rewrite client_bind. unfold lift at 1.
  destruct (iterate rows) as [row_list|e]; [|done]. rewrite client_bind.
  destruct (delete_rows _ _ _ _ c1) as [[d|e] c2] eqn:Hdel; [|done].
  apply delete_rows_run in Hdel as (new & Hnew & Hmethods & ->).
  intros (before & last & Hrest & -> & Hall & Hlast)%IH.
  exists (x0 :: new ++ before), last. split.
  { replace ((x0 :: new ++ before) ++ [last])
      with ([x0] ++ new ++ (before ++ [last])) by (simpl; by rewrite <- app_assoc).
    eapply sends_app; [exact Hsends|]. eapply sends_app; [exact Hnew|exact Hrest]. }
  split.
  { cbn [List.filter]. unfold accepted_deletion at 3. cbn.
    rewrite List.filter_app, length_app. lia. }
  split; [|done].
  replace ((x0 :: new ++ before) ++ [last])
    with ([x0] ++ new ++ (before ++ [last])) by (simpl; by rewrite <- app_assoc).
  apply Forall_app. split; [apply Forall_singleton; by right|].
  apply Forall_app. split.
  - eapply list.Forall_impl; [exact Hmethods|]. intros x Hx. by left.
  - destruct Hsends as [Hb1 _]. destruct Hnew as [Hb2 _].
    rewrite Hb2, Hb1 in Hall. exact Hall.
Qed.
End ClearTable.

(** X14. [clear_table], when it returns: it has asked for page 1 of the rows of
    the table, with 200 rows a page, and for nothing else than that page and
    deletions; the last request was for the page and was answered with no
    row; and the count returned is the number of deletions the destination
    accepted. *)
Theorem clear_table_counts_deletions {T : Type}
    (session_request : baserow_client.transport T) (fuel : nat) (table_id : value)
    (c c' : baserow_client.client T) (n : nat) :
  baserow_client.clear_table session_request fuel table_id c = (Ok (Some n), c') ->
  exists before last,
    sends c c' (before ++ [last]) /\
    n = length (List.filter accepted_deletion before) /\
    Forall (fun x =>
              baserow_client.method x = "DELETE" \/
              x = baserow_client.Exchange false "GET"
                    (baserow_client.api_url (baserow_client.base_url c)
                       (rows_endpoint table_id))
                    (baserow_client.Params 1 200) (baserow_client.reply x))
           (before ++ [last]) /\
    baserow_client.method last = "GET" /\
    exists rows, rows_of_reply (baserow_client.reply last) = Ok rows /\
                 truthy rows = false.
Proof. apply clear_table_loop_left. Qed.

Section Clearing.
Import St baserow_client.
Local Open Scope st_scope.
Context {T : Type} (session_request : transport T).
Implicit Types c : client T.

Lemma delete_rows_cooperative base table_id ids page page_ids deleted_count c :
  cooperative session_request base table_id ids ->
  base_url c = base ->
  Forall2 (fun row i => subscript row "id" = Ok (VInt i)) page page_ids ->
  NoDup (ids (net c)) -> NoDup page_ids -> page_ids ⊆ ids (net c) ->
  exists c',
    delete_rows session_request table_id page deleted_count c
    = (Ok (deleted_count + length page_ids)%nat, c') /\
    base_url c' = base /\ ids (net c) ≡ₚ page_ids ++ ids (net c').
Proof.
  intros Hcoop Hbase Hpage. revert deleted_count c Hbase.
  induction Hpage as [|row i page page_ids Hrow Hpage IH];
    intros deleted_count c Hbase Hnd Hndp Hsub.
  { exists c. split; [cbn; by rewrite Nat.add_0_r|]. by split. }
  apply list.NoDup_cons in Hndp as [Hi Hndp].
  unfold delete_rows. cbn [for_each]. rewrite client_bind, client_bind.
  unfold lift at 1. rewrite Hrow. rewrite client_bind.
  destruct (delete_row_run session_request table_id (VInt i) c)
    as (Hres & Hnet & [Hb _]).
  destruct (row_deleted _ _ _ _ Hcoop (net c) i Hnd) as (r & t' & Hreq & Hok & Hperm).
  { apply Hsub. by left. }
  fold (row_url (base_url c) table_id i) in Hres, Hnet. rewrite Hbase in Hres, Hnet.
  rewrite Hreq in Hres, Hnet. cbn [fst snd accepted] in Hres, Hnet.
  rewrite Hok in Hres.
  destruct (delete_row _ _ _ c) as [res c1]. cbn [fst snd] in *. subst res.
  cbn [ret].
  assert (NoDup (i :: ids (net c1))) as Hnd1 by (by rewrite Hnet, <- Hperm).
  apply list.NoDup_cons in Hnd1 as [Hi1 Hnd1].
  destruct (IH (S deleted_count) c1) as (c' & Hrun & Hb' & Hperm'); try done.
  { congruence. }
  { intros j Hj. assert (j ∈ ids (net c)) as Hjc by (apply Hsub; by right).
    rewrite Hperm, <- Hnet in Hjc. apply elem_of_cons in Hjc as [->|?]; done. }
  exists c'. unfold delete_rows in Hrun. rewrite Hrun. split.
  { do 2 f_equal. cbn [length]. lia. }
  split; [done|]. rewrite Hperm. cbn. rewrite <- Hnet. by rewrite Hperm'.
Qed.

Lemma clear_table_loop_cooperative base table_id ids fuel deleted_count c :
  cooperative session_request base table_id ids ->
  base_url c = base -> NoDup (ids (net c)) ->
  (length (ids (net c)) < fuel)%nat ->
  exists c',
    clear_table_loop session_request fuel table_id 1 deleted_count c
    = (Ok (Some (deleted_count + length (ids (net c)))%nat), c') /\
    ids (net c') = [].
Proof.
  intros Hcoop. revert deleted_count c.
  induction fuel as [|fuel IH]; intros deleted_count c Hbase Hnd Hfuel; [lia|].
  cbn [clear_table_loop]. rewrite client_bind.
  destruct (get_table_rows_run session_request table_id 1 200 c)
    as (Hres & Hnet & [Hb _]).
  destruct (page_of_rows _ _ _ _ Hcoop (net c))
    as (r & t' & page_ids & Hreq & (Hok & data & page & Hjson & Hresults & Hpage)
        & Hsub & Hempty & Hids).
  fold (page_url (base_url c) table_id) in Hres, Hnet. rewrite Hbase in Hres, Hnet.
  rewrite Hreq in Hres, Hnet. cbn [fst snd] in Hres, Hnet. rewrite Hok, Hjson in Hres.
  destruct (get_table_rows _ _ _ _ c) as [res c1]. cbn [fst snd] in *. subst res.
  rewrite client_bind. unfold lift at 1. rewrite Hresults.
  assert (ids (net c1) = ids (net c)) as Hids1 by congruence.
  destruct page as [|row page].
  { apply Forall2_nil_inv_l in Hpage. subst page_ids. cbn.
    exists c1. rewrite Hempty by done. split; [cbn; by rewrite Nat.add_0_r|].
    rewrite Hids1. by apply Hempty. }
  cbn [truthy negb]. rewrite client_bind. cbn [lift iterate]. rewrite client_bind.
  destruct (delete_rows_cooperative base table_id ids (row :: page) page_ids
              deleted_count c1 Hcoop) as (c2 & Hrun & Hb2 & Hperm); try done.
  { congruence. }
  { by rewrite Hids1. }
  { eapply sublist_NoDup; done. }
  { rewrite Hids1. by apply sublist_subseteq. }
  rewrite Hrun.
  assert (length page_ids <> 0)%nat as Hlen.
  { apply Forall2_length in Hpage. simpl in Hpage. lia. }
  assert (length (ids (net c)) = length page_ids + length (ids (net c2)))%nat as Hcount.
  { rewrite <- Hids1, Hperm. by rewrite length_app. }
  destruct (IH (deleted_count + length page_ids)%nat c2) as (c' & Hrest & Hnone);
    try done.
  { rewrite Hids1 in Hperm. rewrite Hperm in Hnd.
    by apply list.NoDup_app in Hnd as (_ & _ & ?). }
  { lia. }
  exists c'. rewrite Hrest. split; [|done]. do 3 f_equal. lia.
Qed.

Lemma delete_rows_returns table_id row_list deleted_count c :
  Forall (fun row => exists row_id, subscript row "id" = Ok row_id) row_list ->
  exists d c',
    delete_rows session_request table_id row_list deleted_count c = (Ok d, c') /\
    base_url c' = base_url c.
Proof.
  intros Hrows. revert deleted_count c.
  induction Hrows as [|row row_list [row_id Hrow] Hrows IH]; intros deleted_count c.
  { by exists deleted_count, c. }
  unfold delete_rows. cbn [for_each]. rewrite client_bind, client_bind.
  unfold lift at 1. rewrite Hrow. rewrite client_bind.
  destruct (delete_row_run session_request table_id row_id c) as (Hres & _ & [Hb _]).
  destruct (delete_row _ _ _ c) as [res c1]. cbn [fst snd] in *. subst res.
  cbn [ret].
  destruct (IH (if accepted
                      (session_request false "DELETE"
                         (api_url (base_url c) (row_endpoint table_id row_id))
                         NoKwargs (net c)).1
                then S deleted_count else deleted_count) c1)
    as (d & c' & Hrun & Hb').
  exists d, c'. unfold delete_rows in Hrun. rewrite Hrun. split; congruence.
Qed.

Lemma clear_table_loop_never_left base table_id fuel deleted_count c :
  never_empty session_request base table_id ->
  base_url c = base ->
  exists c',
    clear_table_loop session_request fuel table_id 1 deleted_count c = (Ok None, c').
Proof.
  intros Hstuck. revert deleted_count c.
  induction fuel as [|fuel IH]; intros deleted_count c Hbase; [by exists c|].
  cbn [clear_table_loop]. rewrite client_bind.
  destruct (get_table_rows_run session_request table_id 1 200 c)
    as (Hres & Hnet & [Hb _]).
  destruct (Hstuck (net c))
    as (r & t' & data & rows & row_list & Hreq & Hok & Hjson & Hresults & Htruthy
        & Hiter & Hrows).
  fold (page_url (base_url c) table_id) in Hres, Hnet. rewrite Hbase in Hres, Hnet.
  rewrite Hreq in Hres, Hnet. cbn [fst snd] in Hres, Hnet. rewrite Hok, Hjson in Hres.
  destruct (get_table_rows _ _ _ _ c) as [res c1]. cbn [fst snd] in *. subst res.
  rewrite client_bind. unfold lift at 1. rewrite Hresults, Htruthy. cbn [negb].
  rewrite client_bind. unfold lift at 1. rewrite Hiter. rewrite client_bind.
  destruct (delete_rows_returns table_id row_list deleted_count c1 Hrows)
    as (d & c2 & -> & Hb2).
  apply IH. congruence.
Qed.
End Clearing.

(** X15. Against a destination that cooperates, [clear_table] returns: given
    more rounds than the table has rows, it returns the number of rows the
    table had and leaves the table without a row -- although it asks for
    page 1 every time. *)
Theorem clear_table_empties_table {T : Type}
    (session_request : baserow_client.transport T) (table_id : value)
    (ids : T -> list Z) (fuel : nat) (c : baserow_client.client T) :
  cooperative session_request (baserow_client.base_url c) table_id ids ->
  NoDup (ids (baserow_client.net c)) ->
  (length (ids (baserow_client.net c)) < fuel)%nat ->
  exists c',
    baserow_client.clear_table session_request fuel table_id c
    = (Ok (Some (length (ids (baserow_client.net c)))), c') /\
    ids (baserow_client.net c') = [].
Proof.
  intros Hcoop Hnd Hfuel.
  by apply (clear_table_loop_cooperative session_request
              (baserow_client.base_url c) table_id ids fuel 0%nat c).
Qed.

(** X16. Where the page never gets empty -- the deletions are refused, say --
    [clear_table] does not return: however many rounds it is given, the
    loop has not been left, and nothing was raised. *)
Theorem clear_table_never_returns {T : Type}
    (session_request : baserow_client.transport T) (table_id : value)
    (c : baserow_client.client T) (fuel : nat) :
  never_empty session_request (baserow_client.base_url c) table_id ->
  exists c',
    baserow_client.clear_table session_request fuel table_id c = (Ok None, c').
Proof.
  intros Hstuck.
  by apply (clear_table_loop_never_left session_request
              (baserow_client.base_url c) table_id fuel 0%nat c).
Qed.

Section Urls.
Local Open Scope string_scope.

Lemma append_inv_head (p a b : string) : p +:+ a = p +:+ b -> a = b.
Proof. induction p as [|c p IH]; [done|]. intros [= H]. by apply IH. Qed.

Lemma append_inv_char (a b : string) (c : ascii) :
  a +:+ String c "" = b +:+ String c "" -> a = b.
Proof.
  revert b. induction a as [|x a IH]; intros [|y b]; cbn; try done.
  - intros [= -> H]. by destruct b.
  - intros [= -> H]. by destruct a.
  - intros [= -> H]. f_equal. by apply IH.
Qed.

Lemma str_of_int_inj n m : Py.str_of_int n = Py.str_of_int m -> n = m.
Proof.
  intros H. pose proof (int_of_str_of_int n) as Hn.
  rewrite H, int_of_str_of_int in Hn. by injection Hn.
Qed.

Lemma row_url_inj base table_id i j :
  row_url base table_id i = row_url base table_id j -> i = j.
Proof.
  unfold row_url, baserow_client.api_url, row_endpoint. cbn [str repr].
  intros H%append_inv_head%append_inv_head. cbn in H.
  injection H as H. apply (append_inv_head (str table_id)) in H.
  apply (append_inv_head "/") in H.
  apply str_of_int_inj. by apply append_inv_char in H.
Qed.

Lemma contains_slash (c : ascii) :
  Py.contains (String c "") "/" = if ascii_dec c "/" then true else false.
Proof. cbn. by destruct (ascii_dec c "/"). Qed.

Lemma rstrip_chars_slash (s : string) :
  Py.rstrip_chars "/" (s +:+ "/") = Py.rstrip_chars "/" s.
Proof.
  induction s as [|c s IH]; [done|].
  change (String c s +:+ "/") with (String c (s +:+ "/")).
  cbn [Py.rstrip_chars]. by rewrite IH.
Qed.

Lemma rstrip_chars_no_slash (s r : string) : Py.rstrip_chars "/" s <> r +:+ "/".
Proof.
  revert r. induction s as [|c s IH]; intros r; cbn [Py.rstrip_chars].
  - by destruct r.
  - destruct (Py.rstrip_chars "/" s) as [|x t] eqn:Hs.
    + rewrite contains_slash. destruct (ascii_dec c "/") as [->|Hne].
      * by destruct r.
      * destruct r as [|y [|z r]]; cbn; [by intros [= ->]|done|done].
    + destruct r as [|y r]; cbn; [done|]. intros [= -> H]. by apply IH in H.
Qed.

Lemma lstrip_chars_no_slash (s r : string) : Py.lstrip_chars "/" s <> "/" +:+ r.
Proof.
  induction s as [|c s IH]; cbn [Py.lstrip_chars]; [done|].
  rewrite contains_slash. destruct (ascii_dec c "/") as [->|Hne]; [done|].
  cbn. by intros [= ->].
Qed.
End Urls.

(** X13. The URL of a request does not depend on the slashes that end the base
    URL or start the endpoint: the client drops them, so that the base and
    [/api/] and the endpoint are joined by one slash each. *)
Theorem api_url_joins_with_one_slash (T : Type) (base endpoint : string) (net : T) :
  let url :=
    baserow_client.api_url
      (baserow_client.base_url (baserow_client.__init__ base net)) endpoint in
  baserow_client.api_url
    (baserow_client.base_url (baserow_client.__init__ (base +:+ "/") net))
    ("/" +:+ endpoint) = url /\
  exists b e,
    url = b +:+ "/api/" +:+ e /\
    (forall s, b <> s +:+ "/") /\ (forall s, e <> "/" +:+ s).
Proof.
  cbn zeta. unfold baserow_client.__init__, baserow_client.api_url.
  cbn [baserow_client.base_url]. split.
  - by rewrite rstrip_chars_slash.
  - eexists _, _. split; [reflexivity|]. split.
    + intros s. apply rstrip_chars_no_slash.
    + intros s. apply lstrip_chars_no_slash.
Qed.

Section Destinations.
Import St baserow_client.

Lemma rows_page (rows : list Z) :
  Forall2 (fun row i => subscript row "id" = Ok (VInt i))
          ((fun i => VDict [("id", VInt i)]) <$> rows) rows.
Proof. induction rows; constructor; done. Qed.

Lemma filter_other_rows base table_id i rows :
  i ∉ rows ->
  List.filter
    (fun j => negb (String.eqb (row_url base table_id i) (row_url base table_id j)))
    rows = rows.
Proof.
  induction rows as [|j rows IH]; [done|]. rewrite not_elem_of_cons.
  intros [Hne Hnot]. cbn.
  destruct (String.eqb_spec (row_url base table_id i) (row_url base table_id j))
    as [Heq%row_url_inj|_]; [done|].
  cbn. by rewrite IH.
Qed.

Lemma filter_row base table_id i rows :
  NoDup rows -> i ∈ rows ->
  rows ≡ₚ
  i :: List.filter
         (fun j => negb (String.eqb (row_url base table_id i) (row_url base table_id j)))
         rows.
Proof.
  induction rows as [|j rows IH]; [by intros _ ?%elem_of_nil|].
  intros [Hj Hnd]%list.NoDup_cons Hin. cbn.
  destruct (String.eqb_spec (row_url base table_id i) (row_url base table_id j))
    as [Heq%row_url_inj|Hne]; cbn.
  - subst j. by rewrite filter_other_rows.
  - apply elem_of_cons in Hin as [->|Hin]; [done|].
    rewrite (IH Hnd Hin) at 1. apply Permutation_swap.
Qed.

Lemma rows_server_cooperative base table_id :
  cooperative (Destination.rows_server base table_id) base table_id id.
Proof.
  split.
  - intros rows. eexists _, rows, (take 200 rows). split; [reflexivity|].
    split; [|split; [apply sublist_take|split; [|done]]].
    + split; [done|]. eexists _, _. split; [reflexivity|]. split; [reflexivity|].
      apply rows_page.
    + by destruct rows.
  - intros rows i Hnd Hin. unfold id.
    pose proof (filter_row base table_id i rows Hnd Hin) as Hperm.
    assert ((length (List.filter
                       (fun j => negb (String.eqb (row_url base table_id i)
                                                  (row_url base table_id j))) rows)
             <? length rows)%nat = true) as Hlen.
    { apply Nat.ltb_lt. apply Permutation_length in Hperm. simpl in Hperm. lia. }
    unfold Destination.rows_server.
    change (String.eqb "DELETE" "GET") with false. cbv iota zeta. rewrite Hlen.
    eexists _, _. split; [reflexivity|]. split; [done|]. exact Hperm.
Qed.

Lemma read_only_server_never_empty base table_id :
  never_empty Destination.read_only_server base table_id.
Proof.
  intros rows. eexists _, _, _, _, _. split; [reflexivity|].
  split; [done|]. split; [reflexivity|]. split; [reflexivity|].
  split; [done|]. split; [reflexivity|].
  apply Forall_singleton. eauto.
Qed.
End Destinations.

(** Three rows are cleared in two rounds. *)
Lemma clear_table_empties_table_witness :
  exists c',
    baserow_client.clear_table
      (Destination.rows_server "http://localhost" (VInt 703)) 4 (VInt 703)
      (baserow_client.__init__ "http://localhost/" [5; 6; 8])
    = (Ok (Some 3%nat), c') /\
    baserow_client.net c' = [].
Proof.
  apply (clear_table_empties_table
           (Destination.rows_server "http://localhost" (VInt 703)) (VInt 703) id
           4 (baserow_client.__init__ "http://localhost/" [5; 6; 8])).
  - apply rows_server_cooperative.
  - apply (bool_decide_unpack _). by vm_compute.
  - simpl. lia.
Defined.

(** A token that may not delete: the clearing of a table with a row goes
    on for as long as it is let. *)
Lemma clear_table_never_returns_witness :
  exists c',
    baserow_client.clear_table Destination.read_only_server 1000 (VInt 703)
      (baserow_client.__init__ "http://localhost/" tt)
    = (Ok None, c').
Proof.
  apply (clear_table_never_returns Destination.read_only_server (VInt 703)
           (baserow_client.__init__ "http://localhost/" tt) 1000).
  apply read_only_server_never_empty.
Defined.

(** Three rows: a page, three deletions, and a page with no row. *)
Lemma clear_table_counts_deletions_witness :
  let c := baserow_client.__init__ "http://localhost/" [5; 6; 8] in
  let c' :=
    (baserow_client.clear_table
       (Destination.rows_server "http://localhost" (VInt 703)) 4 (VInt 703) c).2 in
  exists before last,
    sends c c' (before ++ [last]) /\
    3%nat = length (List.filter accepted_deletion before) /\
    Forall (fun x =>
              baserow_client.method x = "DELETE" \/
              x = baserow_client.Exchange false "GET"
                    (baserow_client.api_url (baserow_client.base_url c)
                       (rows_endpoint (VInt 703)))
                    (baserow_client.Params 1 200) (baserow_client.reply x))
           (before ++ [last]) /\
    baserow_client.method last = "GET" /\
    exists rows, rows_of_reply (baserow_client.reply last) = Ok rows /\
                 truthy rows = false.
Proof.
  apply (clear_table_counts_deletions
           (Destination.rows_server "http://localhost" (VInt 703)) 4 (VInt 703)
           (baserow_client.__init__ "http://localhost/" [5; 6; 8])
           (baserow_client.clear_table
              (Destination.rows_server "http://localhost" (VInt 703)) 4 (VInt 703)
              (baserow_client.__init__ "http://localhost/" [5; 6; 8])).2
           3%nat).
  by vm_compute.
Defined.

Lemma DataTransformer_normalize_date_contract_witness :
  DataTransformer._normalize_date (VStr " 1961 ") Demo.start
  = (Ok (Some "1961-01-01"), Demo.start).
Proof.
  apply (DataTransformer_normalize_date_contract (VStr " 1961 ") Demo.start).
  reflexivity.
Defined.

Lemma _normalize_date_accepted_witness :
  _normalize_date (VStr "2025-04-18T10:00:00Z") Demo.start
  = (Ok (Some "2025-04-18"), Demo.start).
Proof.
  apply (_normalize_date_accepted (VStr "2025-04-18T10:00:00Z") Demo.start
           "2025-04-18").
  - reflexivity.
  - reflexivity.
Defined.
